(** * ULPDSRD backend: record, user and activity-log services

    A shallow embedding of the Express/Mongoose controllers of the student
    record API, and the properties of its specification that concern them.

    Conventions of the embedding.
    - A request field that the JavaScript reads from [req.body], [req.query]
      or [req.headers] is an [option]: [None] is JavaScript's [undefined].
      Fields are taken at the type of the schema path they are used for
      (strings for [String] paths, integers for [Number] paths, object ids
      for [ObjectId] paths); the value casting of the object-document mapper
      is not modelled, and neither are its string setters ([trim],
      [lowercase]), which it applies alike to documents and to query
      filters: every string stands for its normalised value.  Where a
      middleware reads the string of the request before the setters have
      run, or a property depends on a length or on letter case, the
      property asks for text that the setters leave as it is
      ([Text.trimmed], [Text.lowered]) and for ASCII text
      ([Text.asciiOnly]); where a string of the request has to cast to an
      object id, [Put] and [Routing] have the cast.
    - A collection is the list of its documents in insertion order; the
      constraints the schemas declare ([required], [min], [max], [enum],
      unique indexes) are checked by the save operations below.
    - A controller is a function from the request and the collections to
      the response and the new collections; an exception is a value of
      [Exc], and [try]/[catch] is a match on it.
    - Numbers are exact integers; instants are milliseconds since the epoch,
      and calendar days are days of 86,400,000 ms (a server clock without
      daylight-saving shifts). *)

From Stdlib Require Import List String Ascii ZArith NArith Lia Bool Arith.
From Stdlib Require Import DecimalString.
Import ListNotations.


(* ================================================================== *)
(** * JavaScript values and operators *)

Module JS.

(** What a [throw] carries, as far as the controllers can tell apart. *)
Inductive Thrown : Type :=
| TypeError          (* property read on null, method missing *)
| SyntaxError        (* new RegExp on an ill-formed pattern *)
| CastError          (* a filter value the schema type refuses *)
| ValidationError    (* a schema validator failed on save *)
| DuplicateKey.      (* E11000: a unique index refused the write *)

Inductive Exc (A : Type) : Type :=
| Ret (a : A)
| Throw (e : Thrown).
Arguments Ret {A} a.
Arguments Throw {A} e.

Definition bind {A B : Type} (m : Exc A) (k : A -> Exc B) : Exc B :=
  match m with
  | Ret a => k a
  | Throw e => Throw e
  end.

Notation "x <- m ;; k" := (bind m (fun x => k))
  (at level 61, m at next level, right associativity).

(** Truthiness of a string-or-undefined and of a number-or-undefined. *)
Definition truthyS (v : option string) : bool :=
  match v with
  | Some s => negb (s =? "")%string
  | None => false
  end.

Definition truthyZ (v : option Z) : bool :=
  match v with
  | Some n => negb (n =? 0)%Z
  | None => false
  end.

(** [v || d] where [d] is a definite string / number. *)
Definition orS (v : option string) (d : string) : string :=
  match v with
  | Some s => if (s =? "")%string then d else s
  | None => d
  end.

Definition orZ (v : option Z) (d : Z) : Z :=
  match v with
  | Some n => if (n =? 0)%Z then d else n
  | None => d
  end.

(** [v || w] where [w] itself may be undefined. *)
Definition orS' (v w : option string) : option string :=
  if truthyS v then v else w.

(** [v !== undefined ? v : d]. *)
Definition definedOr (v : option Z) (d : Z) : Z :=
  match v with
  | Some n => n
  | None => d
  end.

(** ** [parseInt(string)] with no radix argument *)

Definition isWhite (c : ascii) : bool :=
  let n := nat_of_ascii c in
  ((9 <=? n) && (n <=? 13)) || (n =? 32).

Fixpoint skipWhite (s : list ascii) : list ascii :=
  match s with
  | c :: t => if isWhite c then skipWhite t else s
  | [] => []
  end.

Definition digitVal (radix : Z) (c : ascii) : option Z :=
  let n := Z.of_nat (nat_of_ascii c) in
  let v :=
    if ((48 <=? n) && (n <=? 57))%Z then Some (n - 48)%Z
    else if ((97 <=? n) && (n <=? 122))%Z then Some (n - 87)%Z
    else if ((65 <=? n) && (n <=? 90))%Z then Some (n - 55)%Z
    else None in
  match v with
  | Some d => if (d <? radix)%Z then Some d else None
  | None => None
  end.

(** The longest prefix of digits, read in [radix]; [None] when empty. *)
Fixpoint digits (radix : Z) (s : list ascii) (acc : option Z) : option Z :=
  match s with
  | c :: t =>
      match digitVal radix c with
      | Some d =>
          digits radix t
            (Some (match acc with Some a => a * radix + d | None => d end)%Z)
      | None => acc
      end
  | [] => acc
  end.

Definition isX (c : ascii) : bool :=
  (nat_of_ascii c =? 120) || (nat_of_ascii c =? 88).

(** [None] is NaN. *)
Definition parseIntChars (s : list ascii) : option Z :=
  let s1 := skipWhite s in
  let '(neg, s2) :=
    match s1 with
    | "-"%char :: t => (true, t)
    | "+"%char :: t => (false, t)
    | _ => (false, s1)
    end in
  let '(radix, s3) :=
    match s2 with
    | "0"%char :: x :: t => if isX x then (16%Z, t) else (10%Z, s2)
    | _ => (10%Z, s2)
    end in
  match digits radix s3 None with
  | Some n => Some (if neg then (- n)%Z else n)
  | None => None
  end.

(** [parseInt(v)]: [undefined] is first turned into the string
    "undefined", which has no digits. *)
Definition parseInt (v : option string) : option Z :=
  match v with
  | Some s => parseIntChars (list_ascii_of_string s)
  | None => None
  end.

(** [parseInt(v) || d]: NaN and 0 are both falsy. *)
Definition parseIntOr (v : option string) (d : Z) : Z :=
  match parseInt v with
  | Some n => if (n =? 0)%Z then d else n
  | None => d
  end.

(** Decimal rendering of a count in a template literal. *)
Definition showNat (n : nat) : string :=
  NilZero.string_of_uint (Nat.to_uint n).

End JS.

(* ================================================================== *)
(** * The HTTP response envelope *)

Record Response (D : Type) : Type := mkResponse {
  status : nat;
  success : bool;
  message : string;
  data : option D
}.
Arguments mkResponse {D} _ _ _ _.
Arguments status {D} _.
Arguments success {D} _.
Arguments message {D} _.
Arguments data {D} _.

(** [res.status(code).json({ success: false, message })] *)
Definition failure {D : Type} (code : nat) (msg : string) : Response D :=
  mkResponse code false msg None.

(** Object ids of the three collections. *)
Definition ObjectId := N.

(* ================================================================== *)
(** * Collections

    A collection is the list of its documents.  The write operations that
    address one document ([updateOne], [deleteOne] and what the mapper
    builds on them) act on the first document that matches. *)

Fixpoint replaceFirst {A : Type} (p : A -> bool) (x : A) (l : list A) : list A :=
  match l with
  | [] => []
  | a :: rest => if p a then x :: rest else a :: replaceFirst p x rest
  end.

Fixpoint removeFirst {A : Type} (p : A -> bool) (l : list A) : list A :=
  match l with
  | [] => []
  | a :: rest => if p a then rest else a :: removeFirst p rest
  end.

(* ================================================================== *)
(** * Regular expressions: [new RegExp(pattern, 'i')] and [$regex]

    The pattern language is the part of the ECMAScript grammar made of
    literal characters, [.], the anchors, the quantifiers [*], [+], [?]
    (greedy or lazy), alternation, groups and identity escapes.  Character
    classes, brace quantifiers, class escapes and group modifiers are
    reported as [Unsupported] rather than given a meaning. *)

Module RegExp.

Inductive regex : Type :=
| Void                          (* matches nothing *)
| Eps                           (* matches the empty string *)
| Chr (c : ascii)               (* a literal character *)
| AnyChar                       (* . *)
| Bol                           (* ^ *)
| Eol                           (* $ *)
| Seq (r s : regex)
| Alt (r s : regex)
| Star (r : regex).

Inductive parsed (A : Type) : Type :=
| Parsed (a : A)
| Malformed                     (* the constructor throws SyntaxError *)
| Unsupported.                  (* outside the modelled grammar *)
Arguments Parsed {A} a.
Arguments Malformed {A}.
Arguments Unsupported {A}.

(** ** Lexical classes of pattern characters *)

Inductive charClass : Type :=
| KLit | KDot | KBol | KEol | KStar | KPlus | KQuest | KBar
| KOpen | KClose | KBackslash | KBracket | KBrace.

Definition classify (c : ascii) : charClass :=
  match c with
  | "."%char => KDot
  | "^"%char => KBol
  | "$"%char => KEol
  | "*"%char => KStar
  | "+"%char => KPlus
  | "?"%char => KQuest
  | "|"%char => KBar
  | "("%char => KOpen
  | ")"%char => KClose
  | "\"%char => KBackslash
  | "["%char | "]"%char => KBracket
  | "{"%char | "}"%char => KBrace
  | _ => KLit
  end.

(** Letters, digits and underscore after a backslash start a class
    escape, a control escape or a back-reference; every other character
    after a backslash is an identity escape and stands for itself. *)
Definition isWordChar (c : ascii) : bool :=
  let n := nat_of_ascii c in
  ((48 <=? n) && (n <=? 57)) || ((65 <=? n) && (n <=? 90))
  || ((97 <=? n) && (n <=? 122)) || (n =? 95).

Fixpoint seqOf (rs : list regex) : regex :=
  match rs with
  | [] => Eps
  | r :: rest => Seq r (seqOf rest)
  end.

(** An optional quantifier after an atom, with its optional lazy mark. *)
Definition quantified (atom : regex) (s : list ascii) : regex * list ascii :=
  let lazy t :=
    match t with
    | "?"%char :: t' => t'
    | _ => t
    end in
  match s with
  | c :: t =>
      match classify c with
      | KStar => (Star atom, lazy t)
      | KPlus => (Seq atom (Star atom), lazy t)
      | KQuest => (Alt atom Eps, lazy t)
      | _ => (atom, s)
      end
  | [] => (atom, s)
  end.

(** Recursive descent; [acc] holds the terms of the current alternative
    in reverse.  Each call spends one unit of [fuel]. *)
Fixpoint parseDisj (fuel : nat) (s : list ascii) : parsed (regex * list ascii) :=
  match fuel with
  | O => Unsupported
  | S f =>
      match parseAlt f s [] with
      | Parsed (r, "|"%char :: t) =>
          match parseDisj f t with
          | Parsed (r', rest) => Parsed (Alt r r', rest)
          | Malformed => Malformed
          | Unsupported => Unsupported
          end
      | other => other
      end
  end
with parseAlt (fuel : nat) (s : list ascii) (acc : list regex)
  : parsed (regex * list ascii) :=
  match fuel with
  | O => Unsupported
  | S f =>
      match s with
      | [] => Parsed (seqOf (rev acc), [])
      | c :: t =>
          match classify c with
          | KBar | KClose => Parsed (seqOf (rev acc), s)
          | KBol => parseAlt f t (Bol :: acc)
          | KEol => parseAlt f t (Eol :: acc)
          | KStar | KPlus | KQuest => Malformed      (* nothing to repeat *)
          | KBracket | KBrace => Unsupported
          | KDot =>
              let '(r, rest) := quantified AnyChar t in
              parseAlt f rest (r :: acc)
          | KLit =>
              let '(r, rest) := quantified (Chr c) t in
              parseAlt f rest (r :: acc)
          | KBackslash =>
              match t with
              | [] => Malformed                      (* \ at end of pattern *)
              | e :: t' =>
                  if isWordChar e then Unsupported
                  else
                    let '(r, rest) := quantified (Chr e) t' in
                    parseAlt f rest (r :: acc)
              end
          | KOpen =>
              match t with
              | "?"%char :: _ => Unsupported         (* (?: (?= (?! (?< *)
              | _ =>
                  match parseDisj f t with
                  | Parsed (g, ")"%char :: t') =>
                      let '(r, rest) := quantified g t' in
                      parseAlt f rest (r :: acc)
                  | Parsed _ => Malformed            (* unterminated group *)
                  | Malformed => Malformed
                  | Unsupported => Unsupported
                  end
              end
          end
      end
  end.

(** [new RegExp(pattern, 'i')] *)
Definition compile (pattern : list ascii) : parsed regex :=
  match parseDisj (2 * List.length pattern + 2) pattern with
  | Parsed (r, []) => Parsed r
  | Parsed (_, _ :: _) => Malformed                  (* unmatched ) *)
  | Malformed => Malformed
  | Unsupported => Unsupported
  end.

(** ** Matching, by derivatives *)

(** Canonicalisation under the [i] flag: ASCII letters to upper case.
    The flag folds letters beyond ASCII too; these are outside the model,
    and the properties that rest on the letter case are stated for ASCII
    text. *)
Definition canon (c : ascii) : ascii :=
  let n := nat_of_ascii c in
  if (97 <=? n) && (n <=? 122) then ascii_of_nat (n - 32) else c.

Definition isLineTerminator (c : ascii) : bool :=
  (nat_of_ascii c =? 10) || (nat_of_ascii c =? 13).

Definition mkSeq (r s : regex) : regex :=
  match r with
  | Void => Void
  | Eps => s
  | _ => Seq r s
  end.

Definition mkAlt (r s : regex) : regex :=
  match r, s with
  | Void, _ => s
  | _, Void => r
  | _, _ => Alt r s
  end.

(** Does [r] match the empty string at a position that is at the start
    ([bol]) and/or at the end ([eol]) of the subject? *)
Fixpoint nullable (bol eol : bool) (r : regex) : bool :=
  match r with
  | Void => false
  | Eps => true
  | Chr _ => false
  | AnyChar => false
  | Bol => bol
  | Eol => eol
  | Seq r1 r2 => nullable bol eol r1 && nullable bol eol r2
  | Alt r1 r2 => nullable bol eol r1 || nullable bol eol r2
  | Star _ => true
  end.

(** What is left of [r] after it has consumed [c]; [bol] tells whether
    [c] is the first character of the subject. *)
Fixpoint deriv (bol : bool) (c : ascii) (r : regex) : regex :=
  match r with
  | Void | Eps | Bol | Eol => Void
  | Chr a => if Ascii.eqb (canon a) (canon c) then Eps else Void
  | AnyChar => if isLineTerminator c then Void else Eps
  | Seq r1 r2 =>
      mkAlt (mkSeq (deriv bol c r1) r2)
            (if nullable bol false r1 then deriv bol c r2 else Void)
  | Alt r1 r2 => mkAlt (deriv bol c r1) (deriv bol c r2)
  | Star r1 => mkSeq (deriv bol c r1) (Star r1)
  end.

(** Does [r] match some prefix of [s]? *)
Fixpoint matchesHere (bol : bool) (r : regex) (s : list ascii) : bool :=
  match s with
  | [] => nullable bol true r
  | c :: t => nullable bol false r || matchesHere false (deriv bol c r) t
  end.

(** Does [r] match somewhere in [s]? *)
Fixpoint searchFrom (bol : bool) (r : regex) (s : list ascii) : bool :=
  matchesHere bol r s
  || match s with
     | [] => false
     | _ :: t => searchFrom false r t
     end.

(** [regex.test(subject)], and the [$regex] operator on a string field. *)
Definition test (r : regex) (subject : string) : bool :=
  searchFrom true r (list_ascii_of_string subject).

End RegExp.

(* ================================================================== *)
(** * Student records: schema, collection and controllers *)

Module Student.
Import JS.

(** ** models/Student.js *)

(** Modelled from the spec: the paths [courseName], [session] and
    [editedBy] of a document, which the controller reads and writes and the
    data model lists, and which the schema revision under src/ does not
    declare yet.  The other paths are those of models/Student.js; the
    [createdAt]/[updatedAt] stamps of [timestamps: true] are left out. *)
Record StudentRecord : Type := mkStudentRecord {
  _id : ObjectId;
  studentId : string;
  studentName : string;
  courseCode : string;
  courseName : option string;
  grade : string;
  numericGrade : Z;
  instructor : string;
  yearCompleted : Z;
  semester : string;
  session : option string;
  updatedBy : option ObjectId;
  editedBy : option string
}.

(** The collection, with the next object id the driver will hand out. *)
Record Store : Type := mkStore {
  docs : list StudentRecord;
  nextId : ObjectId
}.

(** The two readings of the calendar year: once when the schema module is
    loaded (the [max] validator of [yearCompleted]) and once per request
    (the default of [yearCompleted]). *)
Record Env : Type := mkEnv {
  schemaYear : Z;
  thisYear : Z
}.

Definition semesters : list string :=
  ["First"; "Second"; "Third"]%string.

(** The validators the schema declares: [min]/[max] on [numericGrade] and
    [yearCompleted], [enum] on [semester]. *)
Definition validate (env : Env) (r : StudentRecord) : bool :=
  (0 <=? numericGrade r)%Z && (numericGrade r <=? 100)%Z
  && (1950 <=? yearCompleted r)%Z && (yearCompleted r <=? schemaYear env)%Z
  && existsb (String.eqb (semester r)) semesters.

Definition samePair (a b : StudentRecord) : bool :=
  (studentId a =? studentId b)%string && (courseCode a =? courseCode b)%string.

(** A filter value against a stored string: [undefined] is sent as null,
    which no stored string equals. *)
Definition eqField (v : option string) (stored : string) : bool :=
  match v with
  | Some s => (s =? stored)%string
  | None => false
  end.

(** [StudentRecord.findOne({ studentId, courseCode })] *)
Definition findOne (sid cc : option string) (s : Store) : option StudentRecord :=
  find (fun d => eqField sid (studentId d) && eqField cc (courseCode d)) (docs s).

(** [StudentRecord.findOne({ studentId, courseCode, _id: { $ne: id } })] *)
Definition findOneOther (sid cc : option string) (id : ObjectId) (s : Store)
  : option StudentRecord :=
  find (fun d => eqField sid (studentId d) && eqField cc (courseCode d)
                 && negb (_id d =? id)%N) (docs s).

(** [StudentRecord.findById(id)] *)
Definition findById (id : ObjectId) (s : Store) : option StudentRecord :=
  find (fun d => (_id d =? id)%N) (docs s).

(** [new StudentRecord(fields).save()]: the document gets a fresh id, is
    validated, and is inserted unless the unique index on
    (studentId, courseCode) refuses it. *)
Definition saveNew (env : Env) (fields : ObjectId -> StudentRecord) (s : Store)
  : Exc (StudentRecord * Store) :=
  let r := fields (nextId s) in
  if negb (validate env r) then Throw ValidationError
  else if existsb (samePair r) (docs s) then Throw DuplicateKey
  else Ret (r, mkStore (docs s ++ [r]) (N.succ (nextId s))).

(** [record.save()] on a document read from the collection. *)
Definition save (env : Env) (r : StudentRecord) (s : Store) : Exc Store :=
  if negb (validate env r) then Throw ValidationError
  else if existsb (fun d => negb (_id d =? _id r)%N && samePair r d) (docs s)
  then Throw DuplicateKey
  else Ret (mkStore
              (replaceFirst (fun d => (_id d =? _id r)%N) r (docs s))
              (nextId s)).

(** [StudentRecord.findByIdAndDelete(id)] *)
Definition findByIdAndDelete (id : ObjectId) (s : Store)
  : option StudentRecord * Store :=
  match findById id s with
  | Some r =>
      (Some r, mkStore (removeFirst (fun d => (_id d =? id)%N) (docs s)) (nextId s))
  | None => (None, s)
  end.

(** ** controllers/studentController.js *)

(** [req.body] of the create, update and bulk-upload requests;
    [updatedBy] is the object id that the string of the request casts to
    ([Put.castUpdatedBy] has the cast). *)
Module Body.
Record t : Type := mk {
  studentId : option string;
  studentName : option string;
  courseCode : option string;
  courseName : option string;
  grade : option string;
  numericGrade : option Z;
  instructor : option string;
  yearCompleted : option Z;
  semester : option string;
  session : option string;
  updatedBy : option ObjectId;
  editedBy : option string
}.
Definition empty : t :=
  mk None None None None None None None None None None None None.
End Body.

(** ** middleware/validation.js *)

(** [if (cond) errors.push(msg)] *)
Definition pushIf (cond : bool) (msg : string) : list string :=
  if cond then [msg] else [].

Definition showZ (n : Z) : string := NilZero.string_of_int (Z.to_int n).

(** The error list of [validateStudentRecord]; the request goes on to the
    controller when it is empty and is answered 400 'Validation error'
    otherwise.  On integers the two [isNaN] tests never fire. *)
Definition validateStudentRecord (env : Env) (b : Body.t) : list string :=
  pushIf (negb (truthyS (Body.studentId b))) "Student ID is required"
  ++ pushIf (negb (truthyS (Body.studentName b))) "Student name is required"
  ++ pushIf (negb (truthyS (Body.courseCode b))) "Course code is required"
  ++ pushIf (negb (truthyS (Body.grade b))) "Grade is required"
  ++ pushIf (match Body.numericGrade b with None => true | Some _ => false end)
       "Numeric grade is required"
  ++ pushIf (negb (truthyS (Body.instructor b))) "Instructor is required"
  ++ pushIf (negb (truthyZ (Body.yearCompleted b))) "Year completed is required"
  ++ pushIf (negb (truthyS (Body.semester b))) "Semester is required"
  ++ pushIf (match Body.yearCompleted b with
             | Some y => negb (y =? 0)%Z && ((y <? 1950)%Z || (thisYear env <? y)%Z)
             | None => false
             end)
       ("Year completed must be between 1950 and " ++ showZ (thisYear env))%string
  ++ pushIf (match Body.numericGrade b with
             | Some g => (g <? 0)%Z || (100 <? g)%Z
             | None => false
             end)
       "Numeric grade must be between 0 and 100"
  ++ pushIf (match Body.semester b with
             | Some sem =>
                 negb (sem =? "")%string
                 && negb (existsb (String.eqb sem)
                            ["First"; "Second"; "Third"; "1"; "2"; "3"]%string)
             | None => false
             end)
       "Semester must be one of: First, Second, Third, 1, 2, 3".

Definition conflictMessage : string :=
  "A record for this student and course already exists".

(** The document that [exports.createRecord] builds from the body, with
    its defaults for missing fields. *)
Definition documentOf (env : Env) (b : Body.t) (id : ObjectId) : StudentRecord :=
  {| _id := id;
     studentId := orS (Body.studentId b) "";
     studentName := orS (Body.studentName b) "";
     courseCode := orS (Body.courseCode b) "";
     courseName := Some (orS (Body.courseName b) "");
     grade := orS (Body.grade b) "";
     numericGrade := definedOr (Body.numericGrade b) 70;
     instructor := orS (Body.instructor b) "Unknown";
     yearCompleted := orZ (Body.yearCompleted b) (thisYear env);
     semester := orS (Body.semester b) "First";
     session := Some (orS (Body.session b) "");
     updatedBy := None;
     editedBy := None |}.

(** [exports.createRecord] *)
Definition createRecord (env : Env) (b : Body.t) (s : Store)
  : Response StudentRecord * Store :=
  match findOne (Body.studentId b) (Body.courseCode b) s with
  | Some _ => (failure 400 conflictMessage, s)
  | None =>
      match saveNew env (documentOf env b) s with
      | Ret (r, s') =>
          (mkResponse 201 true "Student record created successfully" (Some r), s')
      | Throw _ => (failure 500 "Error creating student record", s)
      end
  end.

(** The assignments of [exports.updateRecord] to the document it read. *)
Definition assignFields (record : StudentRecord) (b : Body.t) : StudentRecord :=
  {| _id := _id record;
     studentId := orS (Body.studentId b) (studentId record);
     studentName := orS (Body.studentName b) (studentName record);
     courseCode := orS (Body.courseCode b) (courseCode record);
     courseName := orS' (Body.courseName b) (courseName record);
     grade := orS (Body.grade b) (grade record);
     numericGrade := definedOr (Body.numericGrade b) (numericGrade record);
     instructor := orS (Body.instructor b) (instructor record);
     yearCompleted := orZ (Body.yearCompleted b) (yearCompleted record);
     semester := orS (Body.semester b) (semester record);
     session := orS' (Body.session b) (session record);
     updatedBy := match Body.updatedBy b with
                  | Some u => Some u
                  | None => updatedBy record
                  end;
     editedBy := orS' (Body.editedBy b) (editedBy record) |}.

(** [studentId && courseCode &&
     (studentId !== record.studentId || courseCode !== record.courseCode)] *)
Definition changesPair (b : Body.t) (record : StudentRecord) : bool :=
  truthyS (Body.studentId b) && truthyS (Body.courseCode b)
  && (negb (eqField (Body.studentId b) (studentId record))
      || negb (eqField (Body.courseCode b) (courseCode record))).

(** [exports.updateRecord] *)
Definition updateRecord (env : Env) (id : ObjectId) (b : Body.t) (s : Store)
  : Response StudentRecord * Store :=
  match findById id s with
  | None => (failure 404 "Student record not found", s)
  | Some record =>
      let duplicateCheck :=
        if changesPair b record
        then findOneOther (Body.studentId b) (Body.courseCode b) id s
        else None in
      match duplicateCheck with
      | Some _ => (failure 400 conflictMessage, s)
      | None =>
          let record' := assignFields record b in
          match save env record' s with
          | Ret s' =>
              (mkResponse 200 true "Student record updated successfully"
                 (Some record'), s')
          | Throw _ => (failure 500 "Error updating student record", s)
          end
      end
  end.

(** [exports.deleteRecord] *)
Definition deleteRecord (id : ObjectId) (s : Store)
  : Response StudentRecord * Store :=
  match findByIdAndDelete id s with
  | (Some _, s') =>
      (mkResponse 200 true "Student record deleted successfully" None, s')
  | (None, _) => (failure 404 "Student record not found", s)
  end.

(** ** The filter of [exports.getAllRecords] *)

(** [req.query] of the listing, as far as the filter reads it. *)
Module Query.
Record t : Type := mk {
  courseCode : option string;
  studentId : option string;
  studentName : option string;
  instructor : option string;
  grade : option string;
  yearCompleted : option string;
  semester : option string
}.
Definition empty : t := mk None None None None None None None.
End Query.

(** The class [[-\/\\^$*+?.()|[\]{}]] of [createSafeRegex]. *)
Definition isSpecial (c : ascii) : bool :=
  existsb (Ascii.eqb c)
    ["-"; "/"; "\"; "^"; "$"; "*"; "+"; "?"; "."; "("; ")"; "|";
     "["; "]"; "{"; "}"]%char.

(** [term.replace(/[-\/\\^$*+?.()|[\]{}]/g, '\\$&')] *)
Definition escape (term : list ascii) : list ascii :=
  flat_map (fun c => if isSpecial c then ["\"%char; c] else [c]) term.

(** [createSafeRegex(term)] *)
Definition createSafeRegex (term : string) : RegExp.parsed RegExp.regex :=
  RegExp.compile (escape (list_ascii_of_string term)).

Record Filter : Type := mkFilter {
  onCourseCode : option RegExp.regex;
  onStudentId : option RegExp.regex;
  onStudentName : option RegExp.regex;
  onInstructor : option RegExp.regex;
  onGrade : option string;
  onYearCompleted : option (option Z);      (* [Some None] is NaN *)
  onSemester : option string
}.

(** [if (req.query.k) filter.k = { $regex: createSafeRegex(req.query.k) }] *)
Definition textCondition (v : option string)
  : RegExp.parsed (option RegExp.regex) :=
  match v with
  | Some term =>
      if (term =? "")%string then RegExp.Parsed None
      else
        match createSafeRegex term with
        | RegExp.Parsed r => RegExp.Parsed (Some r)
        | RegExp.Malformed => RegExp.Malformed
        | RegExp.Unsupported => RegExp.Unsupported
        end
  | None => RegExp.Parsed None
  end.

(** [if (req.query.k) filter.k = req.query.k] *)
Definition exactCondition (v : option string) : option string :=
  if truthyS v then v else None.

Definition buildFilter (q : Query.t) : RegExp.parsed Filter :=
  match textCondition (Query.courseCode q) with
  | RegExp.Parsed cc =>
      match textCondition (Query.studentId q) with
      | RegExp.Parsed sid =>
          match textCondition (Query.studentName q) with
          | RegExp.Parsed sn =>
              match textCondition (Query.instructor q) with
              | RegExp.Parsed ins =>
                  RegExp.Parsed
                    (mkFilter cc sid sn ins
                       (exactCondition (Query.grade q))
                       (if truthyS (Query.yearCompleted q)
                        then Some (parseInt (Query.yearCompleted q))
                        else None)
                       (exactCondition (Query.semester q)))
              | RegExp.Malformed => RegExp.Malformed
              | RegExp.Unsupported => RegExp.Unsupported
              end
          | RegExp.Malformed => RegExp.Malformed
          | RegExp.Unsupported => RegExp.Unsupported
          end
      | RegExp.Malformed => RegExp.Malformed
      | RegExp.Unsupported => RegExp.Unsupported
      end
  | RegExp.Malformed => RegExp.Malformed
  | RegExp.Unsupported => RegExp.Unsupported
  end.

Definition holdsRegex (c : option RegExp.regex) (field : string) : bool :=
  match c with
  | Some r => RegExp.test r field
  | None => true
  end.

Definition holdsExact (c : option string) (field : string) : bool :=
  match c with
  | Some v => (v =? field)%string
  | None => true
  end.

Definition holdsYear (c : option (option Z)) (field : Z) : bool :=
  match c with
  | Some (Some y) => (y =? field)%Z
  | Some None => false
  | None => true
  end.

(** Does the document satisfy every condition of the filter? *)
Definition satisfies (f : Filter) (d : StudentRecord) : bool :=
  holdsRegex (onCourseCode f) (courseCode d)
  && holdsRegex (onStudentId f) (studentId d)
  && holdsRegex (onStudentName f) (studentName d)
  && holdsRegex (onInstructor f) (instructor d)
  && holdsExact (onGrade f) (grade d)
  && holdsYear (onYearCompleted f) (yearCompleted d)
  && holdsExact (onSemester f) (semester d).

(** The documents that [StudentRecord.find(filter)] selects and
    [StudentRecord.countDocuments(filter)] counts in
    [exports.getAllRecords], before the listing sorts and pages them.
    A NaN year is refused by the cast of the filter; an exception from
    [new RegExp] or from the cast reaches the handler's [catch]. *)
Definition selected (q : Query.t) (s : Store)
  : RegExp.parsed (Exc (list StudentRecord)) :=
  match buildFilter q with
  | RegExp.Parsed f =>
      match onYearCompleted f with
      | Some None => RegExp.Parsed (Throw CastError)
      | _ => RegExp.Parsed (Ret (filter (satisfies f) (docs s)))
      end
  | RegExp.Malformed => RegExp.Parsed (Throw SyntaxError)
  | RegExp.Unsupported => RegExp.Unsupported
  end.

(** ** controllers/bulkUploadController.js *)

(** An element of the [records] array: JSON null, or an object. *)
Inductive Item : Type :=
| ItemNull
| ItemObject (b : Body.t).

(** [req.body.records] *)
Inductive Records : Type :=
| RecordsMissing                     (* undefined *)
| RecordsNotArray                    (* any JSON value but an array *)
| RecordsArray (items : list Item).

(** [item.k]: reading a property of null throws. *)
Definition prop {A : Type} (item : Item) (k : Body.t -> A) : Exc A :=
  match item with
  | ItemNull => Throw TypeError
  | ItemObject b => Ret (k b)
  end.

Inductive ItemStatus : Type :=
| StatusCreated (id : ObjectId)
| StatusUpdated (id : ObjectId)
| StatusError (error : Thrown).

Record Detail : Type := mkDetail {
  detailStudentId : option string;
  detailCourseCode : option string;
  detailStatus : ItemStatus
}.

Record Results : Type := mkResults {
  created : nat;
  updated : nat;
  errors : nat;
  details : list Detail
}.

(** The body of the inner [try] for one item. *)
Definition tryItem (env : Env) (item : Item) (s : Store) (res : Results)
  : Exc (Store * Results) :=
  sid <- prop item Body.studentId ;;
  cc <- prop item Body.courseCode ;;
  b <- prop item (fun b => b) ;;
  match findOne sid cc s with
  | Some existingRecord =>
      let existingRecord' :=
        {| _id := _id existingRecord;
           studentId := studentId existingRecord;
           studentName := orS (Body.studentName b) (studentName existingRecord);
           courseCode := courseCode existingRecord;
           courseName := courseName existingRecord;
           grade := orS (Body.grade b) (grade existingRecord);
           numericGrade :=
             definedOr (Body.numericGrade b) (numericGrade existingRecord);
           instructor := orS (Body.instructor b) (instructor existingRecord);
           yearCompleted :=
             orZ (Body.yearCompleted b) (yearCompleted existingRecord);
           semester := orS (Body.semester b) (semester existingRecord);
           session := session existingRecord;
           updatedBy := match Body.updatedBy b with
                        | Some u => Some u
                        | None => updatedBy existingRecord
                        end;
           editedBy := editedBy existingRecord |} in
      s' <- save env existingRecord' s ;;
      Ret (s', mkResults (created res) (S (updated res)) (errors res)
                 (details res
                  ++ [mkDetail sid cc (StatusUpdated (_id existingRecord))]))
  | None =>
      let fields id :=
        {| _id := id;
           studentId := orS sid "";
           studentName := orS (Body.studentName b) "";
           courseCode := orS cc "";
           courseName := None;
           grade := orS (Body.grade b) "";
           numericGrade := definedOr (Body.numericGrade b) 70;
           instructor := orS (Body.instructor b) "Unknown";
           yearCompleted := orZ (Body.yearCompleted b) (thisYear env);
           semester := orS (Body.semester b) "First";
           session := None;
           updatedBy := Body.updatedBy b;
           editedBy := None |} in
      saved <- saveNew env fields s ;;
      Ret (snd saved,
           mkResults (S (created res)) (updated res) (errors res)
             (details res
              ++ [mkDetail sid cc (StatusCreated (_id (fst saved)))]))
  end.

(** The body of the inner [catch]: the counter is bumped, then the
    detail is built from the item. *)
Definition catchItem (item : Item) (res : Results) (error : Thrown)
  : Exc Results :=
  let res1 := mkResults (created res) (updated res) (S (errors res)) (details res) in
  sid <- prop item Body.studentId ;;
  cc <- prop item Body.courseCode ;;
  Ret (mkResults (created res1) (updated res1) (errors res1)
         (details res1
          ++ [mkDetail (Some (orS sid "Unknown")) (Some (orS cc "Unknown"))
                (StatusError error)])).

(** [for (const item of records) { try { ... } catch (error) { ... } }]:
    the collection as the loop leaves it, and the results or the
    exception that left the loop. *)
Fixpoint forEachItem (env : Env) (items : list Item) (s : Store) (res : Results)
  : Store * Exc Results :=
  match items with
  | [] => (s, Ret res)
  | item :: rest =>
      match tryItem env item s res with
      | Ret (s', res') => forEachItem env rest s' res'
      | Throw error =>
          match catchItem item res error with
          | Ret res' => forEachItem env rest s res'
          | Throw e => (s, Throw e)
          end
      end
  end.

Definition processedMessage (n : nat) (res : Results) : string :=
  ("Processed " ++ showNat n ++ " records: "
   ++ showNat (created res) ++ " created, "
   ++ showNat (updated res) ++ " updated, "
   ++ showNat (errors res) ++ " errors")%string.

(** [exports.bulkUploadRecords] *)
Definition bulkUploadRecords (env : Env) (records : Records) (s : Store)
  : Response Results * Store :=
  match records with
  | RecordsArray ((_ :: _) as items) =>
      match forEachItem env items s (mkResults 0 0 0 []) with
      | (s', Ret res) =>
          (mkResponse 200 true (processedMessage (List.length items) res)
             (Some res), s')
      | (s', Throw _) => (failure 500 "Error processing bulk upload", s')
      end
  | _ => (failure 400 "Invalid or empty records array", s)
  end.

End Student.

(* ================================================================== *)
(** * Activity logs: schema, collection and controller *)

Module ActivityLog.
Import JS.

Definition Details := list (string * string).

(** ** models/ActivityLog.js *)

Record Log : Type := mkLog {
  user : option ObjectId;
  username : string;
  userType : string;
  action : string;
  details : Details;
  ipAddress : option string;
  timestamp : Z
}.

(** The object handed to [new ActivityLog(...)]. *)
Record LogData : Type := mkLogData {
  dataUser : option ObjectId;
  dataUsername : option string;
  dataUserType : option string;
  dataAction : option string;
  dataDetails : Details;
  dataIpAddress : option string
}.

(** [log.save()]: the paths [user], [username], [userType] and [action]
    are [required: true] (an empty string does not satisfy [required] on
    a String path); [timestamp] defaults to [Date.now].  The [trim]
    setters of [action] and [ipAddress] are not applied: the two strings
    stand for trimmed values. *)
Definition save (now : Z) (d : LogData) (logs : list Log) : Exc (list Log) :=
  match dataUser d, dataUsername d, dataUserType d, dataAction d with
  | Some u, Some n, Some t, Some a =>
      if (n =? "")%string || (t =? "")%string || (a =? "")%string
      then Throw ValidationError
      else Ret (logs ++ [mkLog (Some u) n t a (dataDetails d) (dataIpAddress d) now])
  | _, _, _, _ => Throw ValidationError
  end.

(** ** controllers/activityLogController.js *)

Definition isHexDigit (c : ascii) : bool :=
  match digitVal 16 c with
  | Some _ => true
  | None => false
  end.

(** [mongoose.Types.ObjectId.isValid(user)] on a string: 24 hexadecimal
    digits. *)
Definition isValid (s : string) : bool :=
  (String.length s =? 24) && forallb isHexDigit (list_ascii_of_string s).

(** The object id that a valid string denotes. *)
Definition toObjectId (s : string) : ObjectId :=
  match digits 16 (list_ascii_of_string s) None with
  | Some n => Z.to_N n
  | None => 0%N
  end.

(** [req.body] of [POST /api/logs]. *)
Record LogBody : Type := mkLogBody {
  bodyUser : option string;
  bodyUsername : option string;
  bodyUserType : option string;
  bodyAction : option string;
  bodyDetails : option Details;
  bodyIpAddress : option string
}.

(** [user && user !== 'unknown' && mongoose.Types.ObjectId.isValid(user)] *)
Definition acceptsUser (v : option string) : bool :=
  match v with
  | Some u => negb (u =? "")%string && negb (u =? "unknown")%string && isValid u
  | None => false
  end.

(** The [logData] object that [exports.createLog] builds. *)
Definition logDataOf (b : LogBody) : LogData :=
  {| dataUser := if acceptsUser (bodyUser b)
                 then option_map toObjectId (bodyUser b)
                 else None;
     dataUsername := bodyUsername b;
     dataUserType := bodyUserType b;
     dataAction := bodyAction b;
     dataDetails := match bodyDetails b with
                    | Some d => d
                    | None => []
                    end;
     dataIpAddress := bodyIpAddress b |}.

(** [exports.createLog] *)
Definition createLog (now : Z) (b : LogBody) (logs : list Log)
  : Response unit * list Log :=
  match save now (logDataOf b) logs with
  | Ret logs' =>
      (mkResponse 201 true "Activity log created successfully" None, logs')
  | Throw _ => (failure 500 "Error creating activity log", logs)
  end.

Definition msPerDay : Z := 86400000.

(** The largest time value of a [Date]; beyond it the date is invalid. *)
Definition maxTime : Z := 8640000000000000.

Definition validTime (t : Z) : bool :=
  (- maxTime <=? t)%Z && (t <=? maxTime)%Z.

(** [const days = parseInt(req.query.days) || 30] *)
Definition daysOf (days : option string) : Z := parseIntOr days 30.

(** [cutoffDate = new Date(); cutoffDate.setDate(cutoffDate.getDate() - days)] *)
Definition cutoffDate (now : Z) (days : Z) : Z := (now - days * msPerDay)%Z.

(** [ActivityLog.deleteMany({ timestamp: { $lt: cutoffDate } })]; an
    invalid date is refused by the cast of the filter. *)
Definition deleteManyBefore (cutoff : Z) (logs : list Log)
  : Exc (nat * list Log) :=
  if validTime cutoff
  then Ret (List.length (filter (fun l => (timestamp l <? cutoff)%Z) logs),
            filter (fun l => negb (timestamp l <? cutoff)%Z) logs)
  else Throw CastError.

(** [exports.cleanupLogs]; the [data] of the response is [deletedCount]. *)
Definition cleanupLogs (now : Z) (days : option string) (logs : list Log)
  : Response nat * list Log :=
  match deleteManyBefore (cutoffDate now (daysOf days)) logs with
  | Ret (deletedCount, logs') =>
      (mkResponse 200 true
         ("Successfully deleted " ++ showNat deletedCount
          ++ " old activity logs")%string
         (Some deletedCount), logs')
  | Throw _ => (failure 500 "Error cleaning up activity logs", logs)
  end.

End ActivityLog.

(* ================================================================== *)
(** * Authorization middleware and the routes of the student records *)

Module Auth.
Import JS.

(** What the middleware reads of a request. *)
Record Request : Type := mkRequest {
  bodyUserType : option string;          (* req.body.userType *)
  queryUserType : option string;         (* req.query.userType *)
  headerUserType : option string         (* req.headers['user-type'] *)
}.

(** [req.body.userType || req.query.userType || req.headers['user-type']
     || 'instructor'] *)
Definition declaredUserType (req : Request) : string :=
  orS (bodyUserType req)
    (orS (queryUserType req) (orS (headerUserType req) "instructor")).

(** [exports.isAdmin] of middleware/auth.js: [None] is [next()], a
    response ends the request. *)
Definition isAdmin {D : Type} (req : Request) : option (Response D) :=
  let userType := declaredUserType req in
  if (userType =? "admin")%string then None
  else Some (failure 403 "Admin access required").

(** [router.delete('/:id', studentController.deleteRecord)], as
    routes/studentRoutes.js registers it ("temporarily no auth for
    testing"). *)
Definition deleteStudentRoute (req : Request) (id : ObjectId) (s : Student.Store)
  : Response Student.StudentRecord * Student.Store :=
  Student.deleteRecord id s.

(** [router.delete('/:id', authMiddleware.isAdmin,
    studentController.deleteRecord)], as the earlier revisions of the
    route file register it. *)
Definition deleteStudentRouteAdminOnly
  (req : Request) (id : ObjectId) (s : Student.Store)
  : Response Student.StudentRecord * Student.Store :=
  match isAdmin req with
  | Some denied => (denied, s)
  | None => Student.deleteRecord id s
  end.

End Auth.

(* ================================================================== *)
(** * Users and login *)

Module User.
Import JS.

(** ** models/User.js *)

Record User : Type := mkUser {
  _id : ObjectId;
  username : string;
  passwordHash : string;
  passwordSalt : string;
  userType : string;
  name : string;
  email : string;
  active : bool;
  lastLogin : option Z
}.

(** [req.session.user] *)
Record SessionUser : Type := mkSessionUser {
  sessionId : ObjectId;
  sessionUsername : string;
  sessionUserType : string;
  sessionName : string
}.

(** What a login touches: the users, the caller's session and the logs. *)
Record World : Type := mkWorld {
  users : list User;
  sessionUser : option SessionUser;
  logs : list ActivityLog.Log
}.

(** [req.body] of [POST /api/auth/login], and what the handler reads of
    the connection. *)
Record LoginBody : Type := mkLoginBody {
  bodyUsername : option string;
  bodyPassword : option string;
  bodyUserType : option string
}.

(** The [data] of a successful login. *)
Record LoginData : Type := mkLoginData {
  dataId : ObjectId;
  dataUsername : string;
  dataUserType : string;
  dataName : string;
  dataEmail : string
}.

Section Login.

(** utils/crypto.js, [hashPassword(password, salt)]: PBKDF2, opaque. *)
Variable hashPassword : string -> string -> string.

(** [verifyPassword(password, storedHash, storedSalt)]; the key
    derivation throws on an undefined password. *)
Definition verifyPassword (password : option string)
  (storedHash storedSalt : string) : Exc bool :=
  match password with
  | Some p => Ret (hashPassword p storedSalt =? storedHash)%string
  | None => Throw TypeError
  end.

(** [User.findOne({ username, userType })] *)
Definition findOne (uname utype : option string) (us : list User)
  : option User :=
  find (fun u => Student.eqField uname (username u)
                 && Student.eqField utype (userType u)) us.

(** [user.lastLogin = Date.now(); await user.save()]; the stored user
    already satisfies its schema, and [lastLogin] has no validator. *)
Definition saveLastLogin (now : Z) (user : User) (us : list User) : list User :=
  replaceFirst (fun u => (_id u =? _id user)%N)
    (mkUser (_id user) (username user) (passwordHash user) (passwordSalt user)
       (userType user) (name user) (email user) (active user) (Some now))
    us.

(** [exports.login]; [ip] is [req.ip || req.connection.remoteAddress]. *)
Definition login (now : Z) (ip : option string) (b : LoginBody) (w : World)
  : Response LoginData * World :=
  match findOne (bodyUsername b) (bodyUserType b) (users w) with
  | None => (failure 401 "Invalid credentials", w)
  | Some user =>
      match verifyPassword (bodyPassword b)
              (passwordHash user) (passwordSalt user) with
      | Throw _ => (failure 500 "Error during login", w)
      | Ret false => (failure 401 "Invalid credentials", w)
      | Ret true =>
          let users' := saveLastLogin now user (users w) in
          let session' :=
            mkSessionUser (_id user) (username user) (userType user) (name user) in
          let activityLog :=
            ActivityLog.mkLogData (Some (_id user))
              (Some (orS (Some (name user)) (username user)))
              (Some (userType user)) (Some "LOGIN"%string)
              [("timestamp"%string, NilZero.string_of_int (Z.to_int now))] ip in
          let logs' :=
            match ActivityLog.save now activityLog (logs w) with
            | Ret l => l
            | Throw _ => logs w            (* continue even if logging fails *)
            end in
          (mkResponse 200 true "Login successful"
             (Some (mkLoginData (_id user) (username user) (userType user)
                      (name user) (email user))),
           mkWorld users' (Some session') logs')
      end
  end.

End Login.

End User.

(* ================================================================== *)
(** * Vocabulary of the specification *)

Module Spec.
Import JS Student.



(** The invariant of the unique index: no two documents hold the same
    (studentId, courseCode) pair. *)
Definition pairOf (d : StudentRecord) : string * string :=
  (studentId d, courseCode d).

Definition uniquePairs (s : Store) : Prop :=
  NoDup (map pairOf (docs s)).

(** The invariant of the primary key: object ids are unique. *)
Definition uniqueIds (s : Store) : Prop := NoDup (map _id (docs s)).

(** Case-insensitive literal containment: [term] occurs in [field] as a
    run of characters, compared up to the case of ASCII letters. *)
Definition sameLetter (a c : ascii) : bool :=
  Ascii.eqb (RegExp.canon a) (RegExp.canon c).

Fixpoint startsWith (term field : list ascii) : bool :=
  match term, field with
  | [], _ => true
  | _ :: _, [] => false
  | a :: term', c :: field' => sameLetter a c && startsWith term' field'
  end.

Fixpoint occursIn (term field : list ascii) : bool :=
  startsWith term field
  || match field with
     | [] => false
     | _ :: field' => occursIn term field'
     end.

Definition containsLiterally (term field : string) : bool :=
  occursIn (list_ascii_of_string term) (list_ascii_of_string field).

(** A text key of the query against a field: no value, no condition. *)
Definition textHolds (v : option string) (field : string) : bool :=
  match v with
  | Some term => containsLiterally term field
  | None => true
  end.

(** The statuses of the per-item results. *)
Definition isCreated (d : Detail) : bool :=
  match detailStatus d with StatusCreated _ => true | _ => false end.

Definition isUpdated (d : Detail) : bool :=
  match detailStatus d with StatusUpdated _ => true | _ => false end.

Definition isError (d : Detail) : bool :=
  match detailStatus d with StatusError _ => true | _ => false end.

(** The counters agree with the per-item results. *)
Definition tallied (res : Results) : Prop :=
  created res = List.length (filter isCreated (details res))
  /\ updated res = List.length (filter isUpdated (details res))
  /\ errors res = List.length (filter isError (details res)).

End Spec.

(* ================================================================== *)
(** * Sample data *)

Module Sample.
Import Student.

Definition env : Env := mkEnv 2025 2025.

Definition body (sid cc : string) : Body.t :=
  Body.mk (Some sid) (Some "Ada Mensah"%string) (Some cc) None
    (Some "B"%string) (Some 85%Z) (Some "Dr. Kollie"%string) (Some 2024%Z)
    (Some "First"%string) None None None.

Definition record (id : ObjectId) (sid cc : string) : StudentRecord :=
  mkStudentRecord id sid "Ada Mensah" cc None "B" 85 "Dr. Kollie" 2024
    "First" None None None.

(** A payload that supplies nothing but a numeric grade of zero. *)
Definition zeroGrade : Body.t :=
  Body.mk None None None None None (Some 0%Z) None None None None None None.

(** A payload that supplies nothing but a student id. *)
Definition onlyStudentId (sid : string) : Body.t :=
  Body.mk (Some sid) None None None None None None None None None None None.

Definition emptyStore : Store := mkStore [] 1%N.

(** Two well-formed items around a JSON null. *)
Definition itemsAroundNull : list Item :=
  [ItemObject (body "S1" "PHYS101"); ItemNull; ItemObject (body "S2" "PHYS101")].

Definition twoRecords : Store :=
  mkStore [record 1%N "S1" "PHYS101"; record 2%N "S2" "PHYS101"] 3%N.

(** Requests that declare a role in the [user-type] header. *)
Definition asRole (role : string) : Auth.Request :=
  Auth.mkRequest None None (Some role).

Definition now : Z := 1700000000000.

Definition daysAgo (n : Z) : Z := (now - n * ActivityLog.msPerDay)%Z.

Definition logAt (t : Z) : ActivityLog.Log :=
  ActivityLog.mkLog (Some 7%N) "Ada Mensah" "admin" "LOGIN" [] None t.

(** A log request from a client that does not know its user id. *)
Definition unknownUserLog : ActivityLog.LogBody :=
  ActivityLog.mkLogBody (Some "unknown"%string) (Some "ada"%string)
    (Some "admin"%string) (Some "LOGIN"%string) None (Some "10.0.0.1"%string).

(** A stand-in for the key derivation. *)
Definition hash (password salt : string) : string :=
  (salt ++ ":" ++ password)%string.

Definition ada : User.User :=
  User.mkUser 7%N "ada" (hash "secret1" "na") "na" "chairman" "Ada Mensah"
    "ada@ul.edu.lr" true None.

Definition world : User.World := User.mkWorld [ada] None [].

End Sample.

(* ================================================================== *)
(** * Student records: reading one record, and the update route *)

Module Records.
Import JS Student.

(** [exports.getRecordById]; the success response carries no message. *)
Definition getRecordById (id : ObjectId) (s : Store) : Response StudentRecord :=
  match findById id s with
  | Some record => mkResponse 200 true "" (Some record)
  | None => failure 404 "Student record not found"
  end.

(** How a request through a validating route ends: the middleware answers
    400 'Validation error' with its list of errors, or the controller
    answers. *)
Inductive Outcome : Type :=
| Rejected (errors : list string)
| Handled (response : Response StudentRecord).

(** [router.put('/:id', validationMiddleware.validateStudentRecord,
     studentController.updateRecord)] *)
Definition putStudentRoute (env : Env) (id : ObjectId) (b : Body.t) (s : Store)
  : Outcome * Store :=
  match validateStudentRecord env b with
  | [] =>
      let '(response, s') := updateRecord env id b s in
      (Handled response, s')
  | errors => (Rejected errors, s)
  end.

(** [exports.deleteAllRecords]: [deleteMany({})] and its [deletedCount]. *)
Definition deleteAllRecords (s : Store) : Response nat * Store :=
  (mkResponse 200 true "All student records deleted successfully"
     (Some (List.length (docs s))),
   mkStore [] (nextId s)).

End Records.

(* ================================================================== *)
(** * Invariants of the student collection *)

Module Invariant.
Import Student.

(** Every object id in the collection was handed out before [nextId]. *)
Definition idsBelowNext (s : Store) : Prop :=
  Forall (fun d => (_id d < nextId s)%N) (docs s).

(** Every stored document passes the validators of the schema. *)
Definition allValid (env : Env) (s : Store) : Prop :=
  Forall (fun d => validate env d = true) (docs s).

(** What the driver, the unique index and the validators guarantee
    together. *)
Definition wellFormed (env : Env) (s : Store) : Prop :=
  Spec.uniqueIds s /\ idsBelowNext s /\ Spec.uniquePairs s /\ allValid env s.

End Invariant.

(* ================================================================== *)
(** * More sample data *)

Module Fixture.
Import Student.

(** A payload that names student and course and nothing else. *)
Definition keysOnly (sid cc : string) : Body.t :=
  Body.mk (Some sid) None (Some cc) None None None None None None None None None.

(** A full payload whose semester is given as a number. *)
Definition numericSemester (sid cc : string) : Body.t :=
  Body.mk (Some sid) (Some "Ada Mensah"%string) (Some cc) None
    (Some "B"%string) (Some 85%Z) (Some "Dr. Kollie"%string) (Some 2024%Z)
    (Some "2"%string) None None None.

(** A full payload without a student id. *)
Definition noStudentId (cc : string) : Body.t :=
  Body.mk None (Some "Ada Mensah"%string) (Some cc) None
    (Some "B"%string) (Some 85%Z) (Some "Dr. Kollie"%string) (Some 2024%Z)
    (Some "First"%string) None None None.

End Fixture.

(* ================================================================== *)
(** * Bulk upload: the document of a new item *)

Module Upsert.
Import JS Student.

(** The document that [exports.bulkUploadRecords] builds for an item whose
    pair is not in the collection (the argument of [new StudentRecord] in
    the loop). *)
Definition newDocumentOf (env : Env) (b : Body.t) (id : ObjectId) : StudentRecord :=
  {| _id := id;
     studentId := orS (Body.studentId b) "";
     studentName := orS (Body.studentName b) "";
     courseCode := orS (Body.courseCode b) "";
     courseName := None;
     grade := orS (Body.grade b) "";
     numericGrade := definedOr (Body.numericGrade b) 70;
     instructor := orS (Body.instructor b) "Unknown";
     yearCompleted := orZ (Body.yearCompleted b) (thisYear env);
     semester := orS (Body.semester b) "First";
     session := None;
     updatedBy := Body.updatedBy b;
     editedBy := None |}.

End Upsert.

(* ================================================================== *)
(** * Activity logs: the filter of the listing *)

Module Logs.
Import JS ActivityLog.

(** [req.query] of [GET /api/logs], as far as the filter reads it. *)
Record Query : Type := mkQuery {
  queryUser : option string;
  queryUsername : option string;
  queryUserType : option string;
  queryAction : option string;
  queryStartDate : option string;
  queryEndDate : option string
}.

Record Filter : Type := mkFilter {
  onUser : option string;
  onUsername : option RegExp.regex;
  onUserType : option string;
  onAction : option RegExp.regex;
  onFrom : option (option Z);          (* [Some None] is an invalid date *)
  onTo : option (option Z)
}.

(** [if (req.query.k) filter.k = { $regex: new RegExp(req.query.k, 'i') }]:
    the value is compiled as it comes. *)
Definition patternCondition (v : option string)
  : RegExp.parsed (option RegExp.regex) :=
  match v with
  | Some term =>
      if (term =? "")%string then RegExp.Parsed None
      else
        match RegExp.compile (list_ascii_of_string term) with
        | RegExp.Parsed r => RegExp.Parsed (Some r)
        | RegExp.Malformed => RegExp.Malformed
        | RegExp.Unsupported => RegExp.Unsupported
        end
  | None => RegExp.Parsed None
  end.

Section Listing.

(** [new Date(string).getTime()], with [None] for an invalid date. *)
Variable parseDate : string -> option Z.

(** [new Date(req.query.k)] *)
Definition dateOf (v : option string) : option Z :=
  match v with
  | Some a => parseDate a
  | None => None
  end.

(** The [timestamp] conditions: both bounds when both dates are given,
    else the one that is given. *)
Definition bounds (q : Query) : option (option Z) * option (option Z) :=
  if truthyS (queryStartDate q) && truthyS (queryEndDate q)
  then (Some (dateOf (queryStartDate q)), Some (dateOf (queryEndDate q)))
  else if truthyS (queryStartDate q) then (Some (dateOf (queryStartDate q)), None)
  else if truthyS (queryEndDate q) then (None, Some (dateOf (queryEndDate q)))
  else (None, None).

Definition buildFilter (q : Query) : RegExp.parsed Filter :=
  match patternCondition (queryUsername q) with
  | RegExp.Parsed byName =>
      match patternCondition (queryAction q) with
      | RegExp.Parsed byAction =>
          RegExp.Parsed
            (mkFilter (if truthyS (queryUser q) then queryUser q else None)
               byName
               (if truthyS (queryUserType q) then queryUserType q else None)
               byAction (fst (bounds q)) (snd (bounds q)))
      | RegExp.Malformed => RegExp.Malformed
      | RegExp.Unsupported => RegExp.Unsupported
      end
  | RegExp.Malformed => RegExp.Malformed
  | RegExp.Unsupported => RegExp.Unsupported
  end.

Definition holdsRegex (c : option RegExp.regex) (field : string) : bool :=
  match c with
  | Some r => RegExp.test r field
  | None => true
  end.

Definition holdsExact (c : option string) (field : string) : bool :=
  match c with
  | Some v => (v =? field)%string
  | None => true
  end.

Definition holdsUser (c : option string) (field : option ObjectId) : bool :=
  match c, field with
  | Some u, Some id => (toObjectId u =? id)%N
  | Some _, None => false
  | None, _ => true
  end.

Definition holdsFrom (c : option (option Z)) (t : Z) : bool :=
  match c with
  | Some (Some a) => (a <=? t)%Z
  | Some None => false
  | None => true
  end.

Definition holdsTo (c : option (option Z)) (t : Z) : bool :=
  match c with
  | Some (Some b) => (t <=? b)%Z
  | Some None => false
  | None => true
  end.

Definition satisfies (f : Filter) (l : Log) : bool :=
  holdsUser (onUser f) (user l)
  && holdsRegex (onUsername f) (username l)
  && holdsExact (onUserType f) (userType l)
  && holdsRegex (onAction f) (action l)
  && holdsFrom (onFrom f) (timestamp l)
  && holdsTo (onTo f) (timestamp l).

(** Does the cast of the filter go through?  A user id must be a valid
    object id and the dates must be valid. *)
Definition castable (f : Filter) : bool :=
  match onUser f with
  | Some u => isValid u
  | None => true
  end
  && match onFrom f with Some None => false | _ => true end
  && match onTo f with Some None => false | _ => true end.

(** The entries that [ActivityLog.find(filter)] selects and
    [ActivityLog.countDocuments(filter)] counts in [exports.getLogs],
    before the listing sorts and pages them; an exception reaches the
    handler's [catch], which answers 500 'Error fetching activity logs'. *)
Definition selected (q : Query) (logs : list Log)
  : RegExp.parsed (Exc (list Log)) :=
  match buildFilter q with
  | RegExp.Parsed f =>
      if castable f then RegExp.Parsed (Ret (filter (satisfies f) logs))
      else RegExp.Parsed (Throw CastError)
  | RegExp.Malformed => RegExp.Parsed (Throw SyntaxError)
  | RegExp.Unsupported => RegExp.Unsupported
  end.

End Listing.

(** The characters that [createSafeRegex] escapes do not occur. *)
Definition plain (term : string) : bool :=
  forallb (fun c => negb (Student.isSpecial c)) (list_ascii_of_string term).

End Logs.

(* ================================================================== *)
(** * Accounts: registration, profile, logout and user management *)

Module Accounts.
Import JS User.

(** [req.body] of [POST /api/auth/register] and [POST /api/users]. *)
Record NewUserBody : Type := mkNewUserBody {
  newUsername : option string;
  newPassword : option string;
  newUserType : option string;
  newName : option string;
  newEmail : option string
}.

(** [req.body] of [PUT /api/users/:id]. *)
Record UpdateBody : Type := mkUpdateBody {
  updUsername : option string;
  updUserType : option string;
  updName : option string;
  updEmail : option string;
  updActive : option bool
}.

(** The [data] of a successful registration. *)
Record RegisterData : Type := mkRegisterData {
  regUsername : string;
  regUserType : string;
  regName : string;
  regEmail : string
}.

(** The [data] of a successful user update. *)
Record UpdateData : Type := mkUpdateData {
  updatedId : ObjectId;
  updatedUsername : string;
  updatedUserType : string;
  updatedName : string;
  updatedEmail : string;
  updatedActive : bool
}.

Definition userRoles : list string := ["instructor"; "chairman"; "admin"]%string.

(** [User.findById(id)] *)
Definition findById (id : ObjectId) (us : list User) : option User :=
  find (fun u => (_id u =? id)%N) us.

(** [User.findOne({ $or: [{ username }, { email }] })] *)
Definition findByUsernameOrEmail (uname mail : option string) (us : list User)
  : option User :=
  find (fun u => Student.eqField uname (username u) || Student.eqField mail (email u)) us.

(** [User.findOne({ username, _id: { $ne: id } })] *)
Definition findOtherByUsername (uname : option string) (id : ObjectId) (us : list User)
  : option User :=
  find (fun u => Student.eqField uname (username u) && negb (_id u =? id)%N) us.

(** [User.findOne({ email, _id: { $ne: id } })] *)
Definition findOtherByEmail (mail : option string) (id : ObjectId) (us : list User)
  : option User :=
  find (fun u => Student.eqField mail (email u) && negb (_id u =? id)%N) us.

Section Services.

(** utils/crypto.js, [hashPassword(password, salt)]: PBKDF2, opaque. *)
Variable hashPassword : string -> string -> string.

(** The [match] validator of the [email] path: the test of the pattern
    [/^\w+([.-]?\w+)*@\w+([.-]?\w+)*(\.\w{2,3})+$/], opaque. *)
Variable emailMatches : string -> bool.

(** The validators of models/User.js, on the values that the setters
    ([trim] on [username] and [name], [trim] and [lowercase] on [email])
    have normalised; lengths are counted in bytes, which on ASCII text are
    the UTF-16 units that the schema counts. *)
Definition validate (u : User) : bool :=
  negb (username u =? "")%string
  && (3 <=? String.length (username u)) && (String.length (username u) <=? 50)
  && negb (passwordHash u =? "")%string
  && negb (passwordSalt u =? "")%string
  && existsb (String.eqb (userType u)) userRoles
  && negb (name u =? "")%string
  && negb (email u =? "")%string
  && emailMatches (email u).

(** [new User(...).save()]: validation, then the insert, which the unique
    indexes on [_id], [username] and [email] may refuse. *)
Definition saveNew (u : User) (us : list User) : Exc (list User) :=
  if negb (validate u) then Throw ValidationError
  else if existsb (fun v => (_id v =? _id u)%N
                            || (username v =? username u)%string
                            || (email v =? email u)%string) us
  then Throw DuplicateKey
  else Ret (us ++ [u]).

(** [user.save()] on a user read from the collection. *)
Definition save (u : User) (us : list User) : Exc (list User) :=
  if negb (validate u) then Throw ValidationError
  else if existsb (fun v => negb (_id v =? _id u)%N
                            && ((username v =? username u)%string
                                || (email v =? email u)%string)) us
  then Throw DuplicateKey
  else Ret (replaceFirst (fun v => (_id v =? _id u)%N) u us).

(** [cryptoUtil.encryptPassword(password)] with the salt that
    [generateSalt] drew; the key derivation throws on an undefined
    password. *)
Definition encryptPassword (salt : string) (password : option string)
  : Exc (string * string) :=
  match password with
  | Some p => Ret (salt, hashPassword p salt)
  | None => Throw TypeError
  end.

(** The document of [new User({ username, password: { salt, hash },
    userType, name, email })]: an undefined field is left out, and
    [userType] then takes its default; [active] defaults to true. *)
Definition documentOf (id : ObjectId) (b : NewUserBody) (salt hash : string) : User :=
  mkUser id
    (match newUsername b with Some v => v | None => "" end)
    hash salt
    (match newUserType b with Some v => v | None => "instructor" end)
    (match newName b with Some v => v | None => "" end)
    (match newEmail b with Some v => v | None => "" end)
    true None.

(** The common course of [exports.register] and [exports.createUser];
    [id] and [salt] are the object id and the salt drawn for the new
    user. *)
Definition insertUser (id : ObjectId) (salt : string) (b : NewUserBody)
  (us : list User) : Exc (option User * list User) :=
  match findByUsernameOrEmail (newUsername b) (newEmail b) us with
  | Some _ => Ret (None, us)
  | None =>
      enc <- encryptPassword salt (newPassword b) ;;
      let user := documentOf id b (fst enc) (snd enc) in
      us' <- saveNew user us ;;
      Ret (Some user, us')
  end.

(** [exports.register] of controllers/authController.js *)
Definition register (id : ObjectId) (salt : string) (b : NewUserBody) (w : World)
  : Response RegisterData * World :=
  match insertUser id salt b (users w) with
  | Ret (None, _) => (failure 400 "Username or email already in use", w)
  | Ret (Some user, us') =>
      (mkResponse 201 true "User registered successfully"
         (Some (mkRegisterData (username user) (userType user) (name user) (email user))),
       mkWorld us' (sessionUser w) (logs w))
  | Throw _ => (failure 500 "Error registering user", w)
  end.

(** [exports.createUser] of controllers/userController.js *)
Definition createUser (id : ObjectId) (salt : string) (b : NewUserBody) (w : World)
  : Response LoginData * World :=
  match insertUser id salt b (users w) with
  | Ret (None, _) => (failure 400 "Username or email already in use", w)
  | Ret (Some user, us') =>
      (mkResponse 201 true "User created successfully"
         (Some (mkLoginData (_id user) (username user) (userType user)
                  (name user) (email user))),
       mkWorld us' (sessionUser w) (logs w))
  | Throw _ => (failure 500 "Error creating user", w)
  end.

(** [exports.getProfile] *)
Definition getProfile (w : World) : Response LoginData :=
  match sessionUser w with
  | None => failure 401 "Not authenticated"
  | Some session =>
      match findById (sessionId session) (users w) with
      | None => failure 404 "User not found"
      | Some user =>
          mkResponse 200 true ""
            (Some (mkLoginData (_id user) (username user) (userType user)
                     (name user) (email user)))
      end
  end.

(** [exports.logout]: the activity is logged when there is a session (a
    failure to log is ignored), then the session is destroyed;
    [destroyFails] tells whether the session store reports an error, in
    which case the answer is 500 and the session is taken to remain. *)
Definition logout (now : Z) (ip : option string) (destroyFails : bool) (w : World)
  : Response unit * World :=
  let logs' :=
    match sessionUser w with
    | Some session =>
        match ActivityLog.save now
                (ActivityLog.mkLogData (Some (sessionId session))
                   (Some (orS (Some (sessionName session)) (sessionUsername session)))
                   (Some (sessionUserType session)) (Some "LOGOUT"%string)
                   [("timestamp"%string, NilZero.string_of_int (Z.to_int now))] ip)
                (logs w) with
        | Ret l => l
        | Throw _ => logs w
        end
    | None => logs w
    end in
  if destroyFails
  then (failure 500 "Error during logout", mkWorld (users w) (sessionUser w) logs')
  else (mkResponse 200 true "Logout successful" None, mkWorld (users w) None logs').

(** The assignments of [exports.updateUser]. *)
Definition assignUser (user : User) (b : UpdateBody) : User :=
  mkUser (_id user)
    (orS (updUsername b) (username user))
    (passwordHash user) (passwordSalt user)
    (orS (updUserType b) (userType user))
    (orS (updName b) (name user))
    (orS (updEmail b) (email user))
    (match updActive b with Some a => a | None => active user end)
    (lastLogin user).

(** [exports.updateUser] *)
Definition updateUser (id : ObjectId) (b : UpdateBody) (w : World)
  : Response UpdateData * World :=
  match findById id (users w) with
  | None => (failure 404 "User not found", w)
  | Some user =>
      let duplicateUsername :=
        if truthyS (updUsername b) && negb (Student.eqField (updUsername b) (username user))
        then findOtherByUsername (updUsername b) id (users w)
        else None in
      match duplicateUsername with
      | Some _ => (failure 400 "Username already in use", w)
      | None =>
          let duplicateEmail :=
            if truthyS (updEmail b) && negb (Student.eqField (updEmail b) (email user))
            then findOtherByEmail (updEmail b) id (users w)
            else None in
          match duplicateEmail with
          | Some _ => (failure 400 "Email already in use", w)
          | None =>
              let user' := assignUser user b in
              match save user' (users w) with
              | Ret us' =>
                  (mkResponse 200 true "User updated successfully"
                     (Some (mkUpdateData (_id user') (username user') (userType user')
                              (name user') (email user') (active user'))),
                   mkWorld us' (sessionUser w) (logs w))
              | Throw _ => (failure 500 "Error updating user", w)
              end
          end
      end
  end.

(** [user.password = { salt, hash }] *)
Definition withPassword (user : User) (salt hash : string) : User :=
  mkUser (_id user) (username user) hash salt (userType user) (name user)
    (email user) (active user) (lastLogin user).

(** [exports.changePassword]; [salt] is the salt drawn for the new
    password. *)
Definition changePassword (salt : string) (id : ObjectId) (password : option string)
  (w : World) : Response unit * World :=
  match findById id (users w) with
  | None => (failure 404 "User not found", w)
  | Some user =>
      match (enc <- encryptPassword salt password ;;
             save (withPassword user (fst enc) (snd enc)) (users w)) with
      | Ret us' =>
          (mkResponse 200 true "Password changed successfully" None,
           mkWorld us' (sessionUser w) (logs w))
      | Throw _ => (failure 500 "Error changing password", w)
      end
  end.

(** [exports.resetPassword]; [tempPassword] is what
    [Math.random().toString(36).slice(-8)] drew, and the [data] of the
    response. *)
Definition resetPassword (salt tempPassword : string) (id : ObjectId) (w : World)
  : Response string * World :=
  match findById id (users w) with
  | None => (failure 404 "User not found", w)
  | Some user =>
      match (enc <- encryptPassword salt (Some tempPassword) ;;
             save (withPassword user (fst enc) (snd enc)) (users w)) with
      | Ret us' =>
          (mkResponse 200 true "Password reset successfully" (Some tempPassword),
           mkWorld us' (sessionUser w) (logs w))
      | Throw _ => (failure 500 "Error resetting password", w)
      end
  end.

(** [exports.deleteUser] *)
Definition deleteUser (id : ObjectId) (w : World) : Response unit * World :=
  match findById id (users w) with
  | Some _ =>
      (mkResponse 200 true "User deleted successfully" None,
       mkWorld (removeFirst (fun u => (_id u =? id)%N) (users w))
         (sessionUser w) (logs w))
  | None => (failure 404 "User not found", w)
  end.

(** ** middleware/validation.js, [validateUser] *)

(** The error list of [validateUser]; [post] tells whether the method is
    POST. *)
Definition validateUser (post : bool) (b : NewUserBody) : list string :=
  (if post
   then Student.pushIf (negb (truthyS (newUsername b))) "Username is required"
        ++ Student.pushIf (negb (truthyS (newPassword b))) "Password is required"
        ++ Student.pushIf (negb (truthyS (newUserType b))) "User type is required"
        ++ Student.pushIf (negb (truthyS (newName b))) "Name is required"
        ++ Student.pushIf (negb (truthyS (newEmail b))) "Email is required"
   else [])
  ++ Student.pushIf
       (match newUsername b with
        | Some v => negb (v =? "")%string && (String.length v <? 3)
        | None => false
        end) "Username must be at least 3 characters long"
  ++ Student.pushIf
       (match newPassword b with
        | Some v => negb (v =? "")%string && (String.length v <? 6)
        | None => false
        end) "Password must be at least 6 characters long"
  ++ Student.pushIf
       (match newUserType b with
        | Some v => negb (v =? "")%string && negb (existsb (String.eqb v) userRoles)
        | None => false
        end) "User type must be one of: instructor, chairman, admin"
  ++ Student.pushIf
       (match newEmail b with
        | Some v => negb (v =? "")%string && negb (emailMatches v)
        | None => false
        end) "Please provide a valid email address".

(** How a request to [POST /api/users] ends. *)
Inductive Outcome : Type :=
| Rejected (errors : list string)
| Handled (response : Response LoginData).

(** [router.post('/', validationMiddleware.validateUser,
     userController.createUser)] *)
Definition postUserRoute (id : ObjectId) (salt : string) (b : NewUserBody) (w : World)
  : Outcome * World :=
  match validateUser true b with
  | [] =>
      let '(response, w') := createUser id salt b w in
      (Handled response, w')
  | errors => (Rejected errors, w)
  end.

End Services.

(** ** Invariants of the user collection *)

Definition uniqueUsers (us : list User) : Prop :=
  NoDup (map _id us) /\ NoDup (map username us) /\ NoDup (map email us).

(** The user as a successful login saves it. *)
Definition loggedIn (now : Z) (u : User) : User :=
  mkUser (_id u) (username u) (passwordHash u) (passwordSalt u) (userType u)
    (name u) (email u) (active u) (Some now).

(** What a user's login depends on. *)
Definition credentials (u : User) : string * string * string * string :=
  (username u, userType u, passwordHash u, passwordSalt u).

End Accounts.

(* ================================================================== *)
(** * Sample accounts *)

Module Roster.

Definition emailOk (s : string) : bool :=
  existsb (fun c => Ascii.eqb c "@") (list_ascii_of_string s).

Definition bendu : Accounts.NewUserBody :=
  Accounts.mkNewUserBody (Some "bendu"%string) (Some "secret2"%string) None
    (Some "Bendu Kromah"%string) (Some "bendu@ul.edu.lr"%string).

Definition adaLogin (password userType : string) : User.LoginBody :=
  User.mkLoginBody (Some "ada"%string) (Some password) (Some userType).

(** A second stored user, beside [Sample.ada]. *)
Definition kofi : User.User :=
  User.mkUser 9%N "kofi" (Sample.hash "secret9" "nk") "nk" "instructor" "Kofi Doe"
    "kofi@ul.edu.lr" true None.

Definition staff : User.World := User.mkWorld [Sample.ada; kofi] None [].

(** A request for a user whose name has 52 characters. *)
Definition longName : string :=
  "abcdefghijklmnopqrstuvwxyzabcdefghijklmnopqrstuvwxyz".

Definition tooLong : Accounts.NewUserBody :=
  Accounts.mkNewUserBody (Some longName) (Some "secret4"%string)
    (Some "instructor"%string) (Some "Long Name"%string)
    (Some "long@ul.edu.lr"%string).

(** A complete request for a new instructor. *)
Definition musu : Accounts.NewUserBody :=
  Accounts.mkNewUserBody (Some "musu"%string) (Some "secret5"%string)
    (Some "instructor"%string) (Some "Musu Kollie"%string)
    (Some "musu@ul.edu.lr"%string).

End Roster.

(* ================================================================== *)
(** * routes/studentRoutes.js: the DELETE routes *)

Module Routing.
Import JS Student.

(** The path of a route below the mount point. *)
Inductive Path : Type :=
| Param                       (* '/:id' *)
| Literal (segment : string). (* '/all' *)

Inductive Handler : Type :=
| DeleteRecord                (* studentController.deleteRecord *)
| AdminDeleteAll.             (* authMiddleware.isAdmin, then
                                 bulkUploadController.deleteAllRecords *)

(** [router.delete('/:id', ...)] and [router.delete('/all', ...)], in the
    order of their registration. *)
Definition deleteRoutes : list (Path * Handler) :=
  [(Param, DeleteRecord); (Literal "all", AdminDeleteAll)].

(** Whether a path matches a request of one segment: a parameter takes
    any non-empty segment. *)
Definition matches (p : Path) (segment : string) : bool :=
  match p with
  | Param => negb (segment =? "")%string
  | Literal l => (segment =? l)%string
  end.

(** The router runs the first route that matches; neither handler calls
    [next()] once it runs. *)
Definition dispatch (segment : string) : option Handler :=
  option_map snd (find (fun route => matches (fst route) segment) deleteRoutes).

(** Who answers a DELETE request. *)
Inductive Answer : Type :=
| OfRecord (response : Response StudentRecord)
| OfAll (response : Response nat)
| NoRoute.

Section Requests.

(** The cast of [req.params.id] to an object id that
    [findByIdAndDelete] applies; [None] is a [CastError]. *)
Variable castObjectId : string -> option ObjectId.

(** [exports.deleteRecord] on the raw parameter: a cast error is caught
    and answered 500. *)
Definition deleteRecordParam (segment : string) (s : Store)
  : Response StudentRecord * Store :=
  match castObjectId segment with
  | Some id => deleteRecord id s
  | None => (failure 500 "Error deleting student record", s)
  end.

(** [DELETE /api/students/<segment>] *)
Definition deleteRequest (req : Auth.Request) (segment : string) (s : Store)
  : Answer * Store :=
  match dispatch segment with
  | Some DeleteRecord =>
      let '(response, s') := deleteRecordParam segment s in
      (OfRecord response, s')
  | Some AdminDeleteAll =>
      match Auth.isAdmin req with
      | Some denied => (OfAll denied, s)
      | None =>
          let '(response, s') := Records.deleteAllRecords s in
          (OfAll response, s')
      end
  | None => (NoRoute, s)
  end.

End Requests.

(** The cast of a string of 24 hexadecimal digits, and of no other. *)
Definition castHex (s : string) : option ObjectId :=
  if ActivityLog.isValid s then Some (ActivityLog.toObjectId s) else None.

End Routing.

(* ================================================================== *)
(** * middleware/auth.js: the edit gate *)

Module Gate.
Import JS.

(** What [canEditRecords] reads of a request: the role fields, and
    [req.body.updatedBy]. *)
Record EditRequest : Type := mkEditRequest {
  roles : Auth.Request;
  bodyUpdatedBy : option string
}.

(** [req.body.userType || req.query.userType
     || (req.body.updatedBy ? 'chairman' : 'instructor')] *)
Definition editorType (req : EditRequest) : string :=
  orS (Auth.bodyUserType (roles req))
    (orS (Auth.queryUserType (roles req))
       (if truthyS (bodyUpdatedBy req) then "chairman" else "instructor")).

(** [exports.canEditRecords]: [None] is [next()], a response ends the
    request. *)
Definition canEditRecords {D : Type} (req : EditRequest) : option (Response D) :=
  let userType := editorType req in
  if (userType =? "chairman")%string || (userType =? "admin")%string then None
  else Some (failure 403 "You do not have permission to edit records").

(** A request that declares the admin role in the [user-type] header and
    nowhere else. *)
Definition adminByHeader (updatedBy : option string) : EditRequest :=
  mkEditRequest (Auth.mkRequest None None (Some "admin"%string)) updatedBy.

End Gate.

(* ================================================================== *)
(** * Strings that the setters and the letter case leave alone *)

(** The strings of the model are byte strings.  On text of ASCII
    characters a byte is a character and a UTF-16 unit, the [i] flag of a
    regular expression folds the letters a-z and A-Z and nothing else, and
    [trim] and [toLowerCase] are the functions below.  The properties that
    depend on letter case, on a length, or on a string that a middleware
    reads before the schema setters have run, are stated for such text. *)
Module Text.

Definition isAscii (c : ascii) : bool := nat_of_ascii c <? 128.

Definition isUpper (c : ascii) : bool :=
  (65 <=? nat_of_ascii c) && (nat_of_ascii c <=? 90).

Definition isLower (c : ascii) : bool :=
  (97 <=? nat_of_ascii c) && (nat_of_ascii c <=? 122).

Definition asciiOnly (s : string) : bool :=
  forallb isAscii (list_ascii_of_string s).

(** A character at which [String.prototype.trim] stops. *)
Definition edge (c : ascii) : bool := isAscii c && negb (JS.isWhite c).

(** [s.trim() === s]: the string is empty, or begins and ends with a
    character that is not white space. *)
Definition trimmed (s : string) : bool :=
  match list_ascii_of_string s with
  | [] => true
  | c :: t => edge c && edge (last t c)
  end.

(** [s.toLowerCase() === s], for ASCII text. *)
Definition lowered (s : string) : bool :=
  forallb (fun c => isAscii c && negb (isUpper c)) (list_ascii_of_string s).

(** A condition on a field that the request may leave out. *)
Definition opt (p : string -> bool) (v : option string) : bool :=
  match v with
  | Some s => p s
  | None => true
  end.

(** Two characters that are equal, or the upper-case and the lower-case
    form of one letter. *)
Definition sameLetter (a c : ascii) : bool :=
  Ascii.eqb a c
  || (isUpper a && (nat_of_ascii c =? nat_of_ascii a + 32))
  || (isLower a && (nat_of_ascii a =? nat_of_ascii c + 32)).

Fixpoint startsWith (term field : list ascii) : bool :=
  match term, field with
  | [], _ => true
  | _ :: _, [] => false
  | a :: term', c :: field' => sameLetter a c && startsWith term' field'
  end.

Fixpoint occursIn (term field : list ascii) : bool :=
  startsWith term field
  || match field with
     | [] => false
     | _ :: field' => occursIn term field'
     end.

(** Case-insensitive substring: [term] occurs in [field] as a run of
    characters, letter case apart. *)
Definition contains (term field : string) : bool :=
  occursIn (list_ascii_of_string term) (list_ascii_of_string field).

(** A text key of a query against a field: no value, no condition. *)
Definition holds (v : option string) (field : string) : bool :=
  match v with
  | Some term => contains term field
  | None => true
  end.

(** Every character, for a check by enumeration. *)
Definition alphabet : list ascii := map ascii_of_nat (seq 0 256).

End Text.

(* ================================================================== *)
(** * The record listing, as the specification words it *)

Module Listing.
Import JS Student.

(** An exact key: no value or an empty one is no condition. *)
Definition exact (v : option string) (field : string) : bool :=
  match v with
  | Some x => (x =? "")%string || (x =? field)%string
  | None => true
  end.





End Listing.

(* ================================================================== *)
(** * Sample listings *)

Module Catalog.

Definition named (n i : string) (id : ObjectId) : Student.StudentRecord :=
  Student.mkStudentRecord id "S1" n "PHYS101" None "B" 85 i 2024 "First"
    None None None.




(** Lower-case values with an apostrophe and a plus sign. *)
Definition query : Student.Query.t :=
  Student.Query.mk None None (Some "o'brien"%string) (Some "a+b"%string)
    None None None.

Definition logQuery : Logs.Query :=
  Logs.mkQuery None (Some "ada"%string) None (Some "log"%string) None None.

Definition logs : list ActivityLog.Log :=
  [Sample.logAt Sample.now;
   ActivityLog.mkLog (Some 8%N) "Bendu" "admin" "LOGIN" [] None Sample.now].

(** A complete log request. *)
Definition loginLog : ActivityLog.LogBody :=
  ActivityLog.mkLogBody (Some "64b7f1a2c3d4e5f601234567"%string)
    (Some "ada"%string) (Some "admin"%string) (Some "LOGIN"%string) None
    (Some "10.0.0.1"%string).

End Catalog.

(* ================================================================== *)
(** * PUT /api/students/:id on the raw request *)

Module Put.
Import JS Student.

(** The body with [updatedBy] set to an object id. *)
Definition withUpdatedBy (b : Body.t) (u : option ObjectId) : Body.t :=
  Body.mk (Body.studentId b) (Body.studentName b) (Body.courseCode b)
    (Body.courseName b) (Body.grade b) (Body.numericGrade b)
    (Body.instructor b) (Body.yearCompleted b) (Body.semester b)
    (Body.session b) u (Body.editedBy b).

(** The string fields of the body are as the [trim] setters of the schema
    leave them. *)
Definition trimmedBody (b : Body.t) : bool :=
  Text.opt Text.trimmed (Body.studentId b)
  && Text.opt Text.trimmed (Body.studentName b)
  && Text.opt Text.trimmed (Body.courseCode b)
  && Text.opt Text.trimmed (Body.courseName b)
  && Text.opt Text.trimmed (Body.grade b)
  && Text.opt Text.trimmed (Body.instructor b)
  && Text.opt Text.trimmed (Body.semester b)
  && Text.opt Text.trimmed (Body.session b)
  && Text.opt Text.trimmed (Body.editedBy b).

Section Param.

(** The cast of a string to an object id, which the mapper applies to
    [req.params.id] in [findById] and to [updatedBy] when it is assigned
    to its path; [None] is a [CastError]. *)
Variable castObjectId : string -> option ObjectId.

(** [if (updatedBy) { record.updatedBy = updatedBy; }] on the string of
    the request: a falsy value assigns nothing; a string that does not
    cast leaves the document invalid, and [save()] rejects it. *)
Definition castUpdatedBy (updatedBy : option string) : Exc (option ObjectId) :=
  match updatedBy with
  | Some v =>
      if (v =? "")%string then Ret None
      else
        match castObjectId v with
        | Some id => Ret (Some id)
        | None => Throw CastError
        end
  | None => Ret None
  end.

(** [exports.updateRecord] on [req.params.id] and on a body whose
    [updatedBy] is still the string of the request; [b] holds the other
    fields.  An exception anywhere is answered 500. *)
Definition updateRecordParam (env : Env) (segment : string) (b : Body.t)
  (updatedBy : option string) (s : Store) : Response StudentRecord * Store :=
  match castObjectId segment with
  | None => (failure 500 "Error updating student record", s)
  | Some id =>
      match findById id s with
      | None => (failure 404 "Student record not found", s)
      | Some record =>
          let duplicateCheck :=
            if changesPair b record
            then findOneOther (Body.studentId b) (Body.courseCode b) id s
            else None in
          match duplicateCheck with
          | Some _ => (failure 400 conflictMessage, s)
          | None =>
              match (u <- castUpdatedBy updatedBy ;;
                     let record' := assignFields record (withUpdatedBy b u) in
                     s' <- save env record' s ;;
                     Ret (record', s')) with
              | Ret (record', s') =>
                  (mkResponse 200 true "Student record updated successfully"
                     (Some record'), s')
              | Throw _ => (failure 500 "Error updating student record", s)
              end
          end
      end
  end.

(** [router.put('/:id', validationMiddleware.validateStudentRecord,
     studentController.updateRecord)]; the middleware does not read
    [updatedBy]. *)
Definition putStudentRequest (env : Env) (segment : string) (b : Body.t)
  (updatedBy : option string) (s : Store) : Records.Outcome * Store :=
  match validateStudentRecord env b with
  | [] =>
      let '(response, s') := updateRecordParam env segment b updatedBy s in
      (Records.Handled response, s')
  | errors => (Records.Rejected errors, s)
  end.

End Param.

(** The path segments of the object ids 2 and 9. *)
Definition two : string := "000000000000000000000002".
Definition nine : string := "000000000000000000000009".

End Put.

(* ================================================================== *)
(** * New users whose strings the setters leave alone *)

Module Normal.
Import Accounts.

(** The setters of models/User.js ([trim] on [username] and [name],
    [trim] and [lowercase] on [email]) leave the fields of the request as
    they are, and the user name is ASCII text, so that its length is the
    same counted in bytes and in UTF-16 units. *)
Definition newUser (b : NewUserBody) : bool :=
  Text.opt (fun s => Text.asciiOnly s && Text.trimmed s) (newUsername b)
  && Text.opt Text.trimmed (newName b)
  && Text.opt (fun s => Text.lowered s && Text.trimmed s) (newEmail b).

End Normal.

(* ================================================================== *)
(** * Properties *)

(** ** Strings, options and lists *)

Lemma orS_supplied_empty_default (x : string) : JS.orS (Some x) "" = x.
Proof.
  unfold JS.orS. destruct (String.eqb_spec x ""); congruence.
Qed.

Lemma orS_falsy (v : option string) (d : string) :
  JS.truthyS v = false -> JS.orS v d = d.
Proof.
  destruct v as [x|]; simpl; [|reflexivity].
  destruct (x =? "")%string; [reflexivity | discriminate].
Qed.

Lemma orS'_falsy (v w : option string) :
  JS.truthyS v = false -> JS.orS' v w = w.
Proof.
  unfold JS.orS'. intros ->. reflexivity.
Qed.

Lemma orZ_falsy (v : option Z) (d : Z) :
  JS.truthyZ v = false -> JS.orZ v d = d.
Proof.
  destruct v as [n|]; simpl; [|reflexivity].
  destruct (n =? 0)%Z; [reflexivity | discriminate].
Qed.

Lemma find_snoc {A : Type} (f : A -> bool) (l : list A) (x : A) :
  find f l = None -> find f (l ++ [x]) = if f x then Some x else None.
Proof.
  induction l as [|a l IH]; simpl; [reflexivity|].
  destruct (f a); [discriminate | exact IH].
Qed.




(** ** Creating a record *)

Module CreateFacts.
Import JS Student Spec.



Lemma samePair_pairOf (a b : StudentRecord) :
  samePair a b = true <-> pairOf a = pairOf b.
Proof.
  unfold samePair, pairOf. rewrite andb_true_iff, !String.eqb_eq.
  split; [intros [-> ->]; reflexivity | intros H; injection H; auto].
Qed.

(** [createRecord] keeps the invariant of the unique index, whatever the
    payload. *)
Lemma createRecord_keeps_pairs_unique (env : Env) (b : Body.t) (s : Store) :
  uniquePairs s -> uniquePairs (snd (createRecord env b s)).
Proof.
  intros Hu. unfold createRecord.
  destruct (findOne _ _ s); [exact Hu|].
  unfold saveNew.
  destruct (negb (validate env _)); [exact Hu|].
  destruct (existsb _ (docs s)) eqn:Hdup; [exact Hu|].
  unfold uniquePairs. cbn [snd docs]. rewrite map_app. cbn [map].
  apply NoDup_app; [exact Hu | repeat constructor; intros [] |].
  intros p Hp [Heq|[]]. subst p.
  apply in_map_iff in Hp. destruct Hp as (d & Hd & Hin).
  assert (Hsame : samePair (documentOf env b (nextId s)) d = true)
    by (apply samePair_pairOf; symmetry; exact Hd).
  assert (Hex : existsb (samePair (documentOf env b (nextId s))) (docs s) = true)
    by (apply existsb_exists; exists d; split; assumption).
  congruence.
Qed.

End CreateFacts.



(** ** Updating a record *)

Module UpdateFacts.
Import JS Student.

Lemma findById_id (id : ObjectId) (s : Store) (r : StudentRecord) :
  findById id s = Some r -> _id r = id.
Proof.
  unfold findById. intros H. apply find_some in H. destruct H as [_ H].
  apply N.eqb_eq. exact H.
Qed.

(** Saving a document puts it where the document with its id was. *)
Lemma findById_replaced (id : ObjectId) (l : list StudentRecord)
  (r r' : StudentRecord) :
  find (fun d => (_id d =? id)%N) l = Some r -> _id r' = id ->
  find (fun d => (_id d =? id)%N)
    (replaceFirst (fun d => (_id d =? _id r')%N) r' l) = Some r'.
Proof.
  intros H Hid. rewrite Hid.
  induction l as [|a l IH]; cbn [find replaceFirst] in *; [discriminate|].
  destruct (_id a =? id)%N eqn:Ha; cbn [find].
  - rewrite Hid, N.eqb_refl. reflexivity.
  - rewrite Ha. apply IH. exact H.
Qed.

(** The three ways out of [updateRecord] once the document is found. *)
Lemma updateRecord_found (env : Env) (id : ObjectId) (b : Body.t) (s : Store)
  (r : StudentRecord) :
  findById id s = Some r ->
  (status (fst (updateRecord env id b s)) = 200
   /\ findById id (snd (updateRecord env id b s)) = Some (assignFields r b))
  \/ (status (fst (updateRecord env id b s)) <> 200
      /\ snd (updateRecord env id b s) = s).
Proof.
  intros Hr. unfold updateRecord. rewrite Hr.
  destruct (if changesPair b r then _ else _).
  - right. split; [discriminate | reflexivity].
  - unfold save.
    destruct (negb (validate env (assignFields r b)));
      [right; split; [discriminate | reflexivity]|].
    destruct (existsb _ (docs s));
      [right; split; [discriminate | reflexivity]|].
    left. split; [reflexivity|]. cbn [snd fst]. unfold findById. cbn [docs].
    apply findById_replaced with (r := r); [exact Hr|].
    cbn [assignFields _id]. apply findById_id with (s := s). exact Hr.
Qed.





End UpdateFacts.

(** C3, as the claim states it, fails: a payload whose numericGrade is 0
    replaces a stored numericGrade of 85. *)
Lemma update_zero_grade_counterexample :
  option_map Student.numericGrade (Student.findById 1%N Sample.twoRecords) = Some 85%Z
  /\ Student.Body.numericGrade Sample.zeroGrade = Some 0%Z
  /\ option_map Student.numericGrade
       (Student.findById 1%N
          (snd (Student.updateRecord Sample.env 1%N Sample.zeroGrade Sample.twoRecords)))
     = Some 0%Z.
Proof. repeat split. Qed.

(** C3, amended.  For every stored record and payload, after update(id,
    payload) the record still exists and each field other than numericGrade
    whose payload value is falsy (absent, an empty string, or zero for
    yearCompleted) is unchanged; numericGrade is unchanged when the payload
    does not supply it, and is replaced by what the payload supplies, zero
    included, when the update succeeds. *)
Theorem update_replaces_only_supplied_fields :
  forall (env : Student.Env) (id : ObjectId) (b : Student.Body.t)
         (s : Student.Store) (r : Student.StudentRecord),
    Student.findById id s = Some r ->
    exists r',
      Student.findById id (snd (Student.updateRecord env id b s)) = Some r'
      /\ (JS.truthyS (Student.Body.studentId b) = false ->
          Student.studentId r' = Student.studentId r)
      /\ (JS.truthyS (Student.Body.studentName b) = false ->
          Student.studentName r' = Student.studentName r)
      /\ (JS.truthyS (Student.Body.courseCode b) = false ->
          Student.courseCode r' = Student.courseCode r)
      /\ (JS.truthyS (Student.Body.courseName b) = false ->
          Student.courseName r' = Student.courseName r)
      /\ (JS.truthyS (Student.Body.grade b) = false ->
          Student.grade r' = Student.grade r)
      /\ (JS.truthyS (Student.Body.instructor b) = false ->
          Student.instructor r' = Student.instructor r)
      /\ (JS.truthyZ (Student.Body.yearCompleted b) = false ->
          Student.yearCompleted r' = Student.yearCompleted r)
      /\ (JS.truthyS (Student.Body.semester b) = false ->
          Student.semester r' = Student.semester r)
      /\ (JS.truthyS (Student.Body.session b) = false ->
          Student.session r' = Student.session r)
      /\ (Student.Body.updatedBy b = None ->
          Student.updatedBy r' = Student.updatedBy r)
      /\ (JS.truthyS (Student.Body.editedBy b) = false ->
          Student.editedBy r' = Student.editedBy r)
      /\ (Student.Body.numericGrade b = None ->
          Student.numericGrade r' = Student.numericGrade r)
      /\ (forall n, Student.Body.numericGrade b = Some n ->
          status (fst (Student.updateRecord env id b s)) = 200 ->
          Student.numericGrade r' = n).
Proof.
  intros env id b s r Hr.
  destruct (UpdateFacts.updateRecord_found env id b s r Hr) as [[Hok Hfind]|[Hko Hsame]].
  - exists (Student.assignFields r b). split; [exact Hfind|].
    unfold Student.assignFields; cbn.
    repeat split; intros;
      try (apply orS_falsy; assumption);
      try (apply orS'_falsy; assumption);
      try (apply orZ_falsy; assumption).
    + rewrite H. reflexivity.
    + rewrite H. reflexivity.
    + rewrite H. reflexivity.
  - exists r. rewrite Hsame. split; [exact Hr|].
    repeat split; intros; try reflexivity. contradiction.
Qed.

Lemma update_replaces_only_supplied_fields_witness :
  Student.findById 1%N Sample.twoRecords = Some (Sample.record 1%N "S1" "PHYS101")
  /\ exists r',
      Student.findById 1%N
        (snd (Student.updateRecord Sample.env 1%N Sample.zeroGrade Sample.twoRecords))
      = Some r'
      /\ Student.studentId r' = "S1"%string
      /\ Student.yearCompleted r' = 2024%Z
      /\ Student.numericGrade r' = 0%Z.
Proof.
  split; [reflexivity|].
  destruct (update_replaces_only_supplied_fields
              Sample.env 1%N Sample.zeroGrade Sample.twoRecords
              (Sample.record 1%N "S1" "PHYS101") eq_refl)
    as (r' & Hfind & Hsid & _ & _ & _ & _ & _ & Hyear & _ & _ & _ & _ & _ & Hgrade).
  exists r'. split; [exact Hfind|].
  split; [apply Hsid; reflexivity|].
  split; [apply Hyear; reflexivity|].
  apply Hgrade; reflexivity.
Defined.

(** ** The update route on the raw request *)

Module PutRouteFacts.
Import JS Student.

(** The body with [updatedBy] set reads as the body everywhere but at
    [updatedBy]; when the two casts go through, the handler on the raw
    request is the handler on the cast one. *)
Lemma updateRecordParam_cast (castObjectId : string -> option ObjectId) (env : Env)
  (segment : string) (id : ObjectId) (b : Body.t) (updatedBy : option string)
  (u : option ObjectId) (s : Store) :
  castObjectId segment = Some id ->
  Put.castUpdatedBy castObjectId updatedBy = Ret u ->
  Put.updateRecordParam castObjectId env segment b updatedBy s
  = updateRecord env id (Put.withUpdatedBy b u) s.
Proof.
  intros Hid Hu. unfold Put.updateRecordParam, updateRecord. rewrite Hid, Hu.
  destruct (findById id s) as [record|]; [|reflexivity].
  change (changesPair (Put.withUpdatedBy b u) record) with (changesPair b record).
  change (Body.studentId (Put.withUpdatedBy b u)) with (Body.studentId b).
  change (Body.courseCode (Put.withUpdatedBy b u)) with (Body.courseCode b).
  destruct (if changesPair b record then _ else None); [reflexivity|].
  unfold bind. destruct (save env _ s); reflexivity.
Qed.

Lemma putStudentRequest_cast (castObjectId : string -> option ObjectId) (env : Env)
  (segment : string) (id : ObjectId) (b : Body.t) (updatedBy : option string)
  (u : option ObjectId) (s : Store) :
  castObjectId segment = Some id ->
  Put.castUpdatedBy castObjectId updatedBy = Ret u ->
  Put.putStudentRequest castObjectId env segment b updatedBy s
  = Records.putStudentRoute env id (Put.withUpdatedBy b u) s.
Proof.
  intros Hid Hu. unfold Put.putStudentRequest, Records.putStudentRoute.
  change (validateStudentRecord env (Put.withUpdatedBy b u))
    with (validateStudentRecord env b).
  rewrite (updateRecordParam_cast castObjectId env segment id b updatedBy u s Hid Hu).
  reflexivity.
Qed.

(** An [updatedBy] that does not cast is found out when the document is
    saved: past the lookup and the duplicate check, the answer is 500 and
    nothing changes. *)
Lemma uncastable_updatedBy_is_refused (castObjectId : string -> option ObjectId)
  (env : Env) (segment : string) (id : ObjectId) (b : Body.t)
  (updatedBy : option string) (e : Thrown) (s : Store) (r : StudentRecord) :
  castObjectId segment = Some id ->
  findById id s = Some r ->
  findOneOther (Body.studentId b) (Body.courseCode b) id s = None ->
  Put.castUpdatedBy castObjectId updatedBy = Throw e ->
  Put.updateRecordParam castObjectId env segment b updatedBy s
  = (failure 500 "Error updating student record", s).
Proof.
  intros Hid Hr Hnone Hu. unfold Put.updateRecordParam. rewrite Hid, Hr, Hnone, Hu.
  destruct (changesPair b r); reflexivity.
Qed.

End PutRouteFacts.




(** ** Bulk upload *)

(** C10.  When the records field of the body is missing, is not an array,
    or is an empty array, bulkUpsert answers 400 with the message 'Invalid
    or empty records array' and the collection is unchanged. *)
Theorem bulk_upload_rejects_missing_or_empty :
  forall (env : Student.Env) (records : Student.Records) (s : Student.Store),
    records = Student.RecordsMissing
    \/ records = Student.RecordsNotArray
    \/ records = Student.RecordsArray [] ->
    Student.bulkUploadRecords env records s
    = (failure 400 "Invalid or empty records array", s).
Proof.
  intros env records s [-> | [-> | ->]]; reflexivity.
Qed.

Lemma bulk_upload_rejects_missing_or_empty_witness :
  Student.bulkUploadRecords Sample.env (Student.RecordsArray []) Sample.twoRecords
  = (failure 400 "Invalid or empty records array", Sample.twoRecords)
  /\ Student.bulkUploadRecords Sample.env Student.RecordsMissing Sample.twoRecords
     = (failure 400 "Invalid or empty records array", Sample.twoRecords).
Proof.
  split.
  - apply (bulk_upload_rejects_missing_or_empty
             Sample.env (Student.RecordsArray []) Sample.twoRecords).
    right. right. reflexivity.
  - apply (bulk_upload_rejects_missing_or_empty
             Sample.env Student.RecordsMissing Sample.twoRecords).
    left. reflexivity.
Defined.

Module BulkFacts.
Import JS Student Spec.

(** Closes a goal that exhibits the outcome of one item and re-establishes
    the tally after one more detail. *)
Ltac tally Hc Hu He :=
  eexists _, _; split; [reflexivity|];
  unfold tallied; cbn [created updated errors details];
  rewrite !filter_app, !length_app, Hc, Hu, He; cbn; repeat split; lia.

(** One object item adds one detail, and keeps the counters in step, whether
    its lookup and save succeed or throw. *)
Lemma step_object (env : Env) (b : Body.t) (s : Store) (res : Results) :
  tallied res ->
  exists s' res',
    match tryItem env (ItemObject b) s res with
    | Ret out => Ret (A := Store * Results) out
    | Throw error =>
        match catchItem (ItemObject b) res error with
        | Ret r => Ret (s, r)
        | Throw e => Throw e
        end
    end = Ret (s', res')
    /\ tallied res'
    /\ List.length (details res') = S (List.length (details res)).
Proof.
  intros (Hc & Hu & He).
  unfold tryItem, catchItem, prop, bind.
  destruct (findOne _ _ s) as [existing|];
    [destruct (save env _ s) as [s'|e] | destruct (saveNew env _ s) as [[r s']|e]];
    tally Hc Hu He.
Qed.

(** On a list of objects the loop runs to its end: one detail per item, and
    counters that agree with the details. *)
Lemma forEachItem_objects (env : Env) (bs : list Body.t) :
  forall (s : Store) (res : Results),
    tallied res ->
    exists s' res',
      forEachItem env (map ItemObject bs) s res = (s', Ret res')
      /\ tallied res'
      /\ List.length (details res') = List.length (details res) + List.length bs.
Proof.
  induction bs as [|b bs IH]; intros s res Ht.
  - exists s, res. repeat split; try apply Ht. simpl. lia.
  - destruct (step_object env b s res Ht) as (s1 & res1 & Hstep & Ht1 & Hlen1).
    destruct (IH s1 res1 Ht1) as (s2 & res2 & Hrest & Ht2 & Hlen2).
    exists s2, res2. split; [|split; [exact Ht2 | simpl; lia]].
    cbn [map forEachItem].
    destruct (tryItem env (ItemObject b) s res) as [[sa ra]|error].
    + injection Hstep as -> ->. exact Hrest.
    + destruct (catchItem (ItemObject b) res error) as [rb|e]; [|discriminate].
      injection Hstep as -> ->. exact Hrest.
Qed.

(** An object item that throws leaves the collection as it was, so the items
    after it are processed as if it had not been there. *)
Lemma failed_object_is_skipped (env : Env) (b : Body.t) (rest : list Item)
  (s : Store) (res : Results) (error : Thrown) :
  tryItem env (ItemObject b) s res = Throw error ->
  exists res',
    catchItem (ItemObject b) res error = Ret res'
    /\ errors res' = S (errors res)
    /\ forEachItem env (ItemObject b :: rest) s res = forEachItem env rest s res'.
Proof.
  intros H. eexists. split; [reflexivity|]. split; [reflexivity|].
  cbn [forEachItem]. rewrite H. reflexivity.
Qed.

(** The loop over a concatenation runs the second part from where the first
    part ended, unless the first part was left by an exception. *)
Lemma forEachItem_app (env : Env) (xs ys : list Item) :
  forall (s : Store) (res : Results),
    forEachItem env (xs ++ ys) s res
    = match forEachItem env xs s res with
      | (s', Ret res') => forEachItem env ys s' res'
      | (s', Throw e) => (s', Throw e)
      end.
Proof.
  induction xs as [|x xs IH]; intros s res; [reflexivity|].
  cbn [app forEachItem].
  destruct (tryItem env x s res) as [[s1 res1]|error]; [apply IH|].
  destruct (catchItem x res error) as [res1|e]; [apply IH | reflexivity].
Qed.

(** A null item makes the handler of the inner [catch] throw in its turn:
    the loop is left with the items before it processed and the items after
    it untouched. *)
Lemma null_item_leaves_loop (env : Env) (rest : list Item) (s : Store) (res : Results) :
  forEachItem env (ItemNull :: rest) s res = (s, Throw TypeError).
Proof. reflexivity. Qed.

End BulkFacts.

(** X8.  For a non-empty array of objects, bulkUpsert answers 200 with
    exactly one detail per item and counters that agree with the details. *)
Lemma bulk_upload_objects_accounting :
  forall (env : Student.Env) (b : Student.Body.t) (bs : list Student.Body.t)
         (s : Student.Store),
  exists res,
    fst (Student.bulkUploadRecords env
           (Student.RecordsArray (map Student.ItemObject (b :: bs))) s)
    = mkResponse 200 true (Student.processedMessage (S (List.length bs)) res) (Some res)
    /\ Spec.tallied res
    /\ List.length (Student.details res) = S (List.length bs)
    /\ Student.created res + Student.updated res + Student.errors res
       = S (List.length bs).
Proof.
  intros env b bs s.
  destruct (BulkFacts.forEachItem_objects env (b :: bs) s
              (Student.mkResults 0 0 0 []))
    as (s' & res & Hrun & Ht & Hlen).
  { repeat split. }
  exists res. cbn [map] in *. unfold Student.bulkUploadRecords. rewrite Hrun.
  cbn [fst List.length map]. rewrite length_map.
  split; [reflexivity|]. split; [exact Ht|].
  cbn [Student.details List.length] in Hlen. split; [simpl in Hlen; lia|].
  destruct Ht as (Hc & Hu & He). rewrite Hc, Hu, He.
  assert (Hpart : forall l : list Student.Detail,
             List.length (filter Spec.isCreated l)
             + List.length (filter Spec.isUpdated l)
             + List.length (filter Spec.isError l) = List.length l).
  { induction l as [|d l IH]; [reflexivity|].
    unfold Spec.isCreated, Spec.isUpdated, Spec.isError in *. cbn [filter].
    destruct (Student.detailStatus d); cbn [List.length]; lia. }
  rewrite Hpart. simpl in Hlen. lia.
Qed.

(** The failing input of C2: the first item is created, the request ends
    in 500 without per-item results, and the third item is not there. *)
Example bulk_upload_around_null :
  Student.bulkUploadRecords Sample.env
    (Student.RecordsArray Sample.itemsAroundNull) Sample.emptyStore
  = (failure 500 "Error processing bulk upload",
     Student.mkStore [Sample.record 1%N "S1" "PHYS101"] 2%N).
Proof. reflexivity. Qed.

(** C2, on the code: when a JSON null stands anywhere in the array, after
    any number of objects, the handler of the per-item catch throws on it;
    the request ends in 500 without any per-item result, the collection is
    left as the items before the null made it, and the items after the null
    are never processed. *)
Theorem bulk_upload_null_item_aborts_batch :
  forall (env : Student.Env) (before : list Student.Body.t)
         (after : list Student.Item) (s : Student.Store),
    Student.bulkUploadRecords env
      (Student.RecordsArray
         (map Student.ItemObject before ++ Student.ItemNull :: after)) s
    = (failure 500 "Error processing bulk upload",
       fst (Student.forEachItem env (map Student.ItemObject before) s
              (Student.mkResults 0 0 0 []))).
Proof.
  intros env before after s.
  assert (Hrun : Student.forEachItem env
                   (map Student.ItemObject before ++ Student.ItemNull :: after) s
                   (Student.mkResults 0 0 0 [])
                 = (fst (Student.forEachItem env (map Student.ItemObject before) s
                           (Student.mkResults 0 0 0 [])),
                    JS.Throw JS.TypeError)).
  { rewrite BulkFacts.forEachItem_app.
    destruct (BulkFacts.forEachItem_objects env before s (Student.mkResults 0 0 0 []))
      as (s' & res & -> & _); [repeat split|].
    cbn [fst]. apply BulkFacts.null_item_leaves_loop. }
  unfold Student.bulkUploadRecords.
  destruct before as [|b before]; cbn [map app] in *; rewrite Hrun; reflexivity.
Qed.

(** ** Text filters of the listing *)

Module FilterFacts.
Import RegExp Student Spec.

Lemma plain_is_literal (c : ascii) : isSpecial c = false -> classify c = KLit.
Proof.
  destruct c as [[] [] [] [] [] [] [] []]; intros H; try reflexivity; discriminate H.
Qed.

Lemma special_is_not_word (c : ascii) : isSpecial c = true -> isWordChar c = false.
Proof.
  destruct c as [[] [] [] [] [] [] [] []]; intros H; try reflexivity; discriminate H.
Qed.

(** An escaped term never starts with a quantifier. *)
Lemma quantified_escape (atom : regex) (term : list ascii) :
  quantified atom (escape term) = (atom, escape term).
Proof.
  destruct term as [|c term]; [reflexivity|].
  unfold escape. cbn [flat_map].
  destruct (isSpecial c) eqn:Hc.
  - reflexivity.
  - cbn [app]. unfold quantified. rewrite (plain_is_literal c Hc). reflexivity.
Qed.

(** Every character of an escaped term is read as a literal. *)
Lemma parseAlt_escape (term : list ascii) :
  forall (fuel : nat) (acc : list regex),
    List.length term < fuel ->
    parseAlt fuel (escape term) acc = Parsed (seqOf (rev acc ++ map Chr term), []).
Proof.
  induction term as [|c term IH]; intros fuel acc Hfuel.
  - destruct fuel as [|f]; [inversion Hfuel|]. cbn. rewrite app_nil_r. reflexivity.
  - destruct fuel as [|f]; [inversion Hfuel|].
    cbn [List.length] in Hfuel. apply PeanoNat.lt_S_n in Hfuel.
    assert (Hnext : parseAlt f (escape term) (Chr c :: acc)
                    = Parsed (seqOf (rev acc ++ map Chr (c :: term)), [])).
    { rewrite (IH f (Chr c :: acc) Hfuel). cbn [rev map].
      rewrite <- app_assoc. reflexivity. }
    change (escape (c :: term))
      with ((if isSpecial c then ["\"%char; c] else [c]) ++ escape term).
    destruct (isSpecial c) eqn:Hc.
    + cbn [app parseAlt]. change (classify "\"%char) with KBackslash. cbv iota.
      rewrite (special_is_not_word c Hc), quantified_escape. exact Hnext.
    + cbn [app parseAlt]. rewrite (plain_is_literal c Hc), quantified_escape.
      exact Hnext.
Qed.

Lemma length_escape (term : list ascii) :
  List.length term <= List.length (escape term).
Proof.
  induction term as [|c term IH]; [apply le_n|].
  change (escape (c :: term))
    with ((if isSpecial c then ["\"%char; c] else [c]) ++ escape term).
  rewrite length_app. destruct (isSpecial c); cbn [List.length]; lia.
Qed.

(** [createSafeRegex] always yields the sequence of the term's characters. *)
Lemma createSafeRegex_literal (term : string) :
  createSafeRegex term = Parsed (seqOf (map Chr (list_ascii_of_string term))).
Proof.
  unfold createSafeRegex, compile.
  set (t := list_ascii_of_string term).
  pose proof (length_escape t) as Hlen.
  replace (2 * List.length (escape t) + 2)
    with (S (S (2 * List.length (escape t)))) by lia.
  cbn [parseDisj].
  rewrite (parseAlt_escape t (S (2 * List.length (escape t))) []) by lia.
  reflexivity.
Qed.

Lemma mkAlt_void_r (r : regex) : mkAlt r Void = r.
Proof. destruct r; reflexivity. Qed.

Lemma matchesHere_void (s : list ascii) : forall bol, matchesHere bol Void s = false.
Proof.
  induction s as [|c s IH]; intros bol; [reflexivity|].
  cbn [matchesHere nullable deriv orb]. apply IH.
Qed.

(** A sequence of literals matches at a position exactly when the subject
    continues there with the term, up to case. *)
Lemma matchesHere_literal (term : list ascii) :
  forall (bol : bool) (s : list ascii),
    matchesHere bol (seqOf (map Chr term)) s = startsWith term s.
Proof.
  induction term as [|a term IH]; intros bol s.
  - destruct s; reflexivity.
  - destruct s as [|c s]; [reflexivity|].
    cbn [map seqOf matchesHere nullable deriv andb orb startsWith].
    unfold sameLetter.
    destruct (Ascii.eqb (canon a) (canon c)).
    + cbn [mkSeq andb]. rewrite mkAlt_void_r. apply IH.
    + cbn [mkSeq mkAlt andb]. apply matchesHere_void.
Qed.

Lemma searchFrom_literal (term : list ascii) :
  forall (bol : bool) (s : list ascii),
    searchFrom bol (seqOf (map Chr term)) s = occursIn term s.
Proof.
  intros bol s. revert bol.
  induction s as [|c s IH]; intros bol; cbn [searchFrom occursIn];
    rewrite matchesHere_literal; [reflexivity|].
  rewrite IH. reflexivity.
Qed.


(** What [occursIn] decides. *)
Lemma startsWith_iff (term field : list ascii) :
  startsWith term field = true
  <-> exists mid post,
        field = mid ++ post /\ map canon mid = map canon term.
Proof.
  revert field. induction term as [|a term IH]; intros field.
  - split; [|reflexivity]. intros _. exists [], field. split; reflexivity.
  - destruct field as [|c field]; cbn [startsWith].
    + split; [discriminate|]. intros ([|m mid] & post & Hf & Hm); discriminate.
    + rewrite andb_true_iff, IH. unfold sameLetter. rewrite Ascii.eqb_eq. split.
      * intros [Hac (mid & post & -> & Hm)]. exists (c :: mid), post.
        split; [reflexivity|]. cbn [map]. rewrite Hm, Hac. reflexivity.
      * intros ([|m mid] & post & Hf & Hm); [discriminate|].
        injection Hf as -> ->. injection Hm as Hmc Hm.
        split; [symmetry; exact Hmc|]. exists mid, post. split; [reflexivity | exact Hm].
Qed.

Lemma occursIn_iff (term field : list ascii) :
  occursIn term field = true
  <-> exists pre mid post,
        field = pre ++ mid ++ post /\ map canon mid = map canon term.
Proof.
  induction field as [|c field IH]; cbn [occursIn]; rewrite orb_true_iff.
  - split.
    + intros [H|H]; [|discriminate]. apply startsWith_iff in H.
      destruct H as (mid & post & Hf & Hm). exists [], mid, post. split; assumption.
    + intros (pre & mid & post & Hf & Hm). left. apply startsWith_iff.
      destruct pre; [|discriminate]. exists mid, post. split; assumption.
  - split.
    + intros [H|H].
      * apply startsWith_iff in H. destruct H as (mid & post & Hf & Hm).
        exists [], mid, post. split; assumption.
      * apply IH in H. destruct H as (pre & mid & post & -> & Hm).
        exists (c :: pre), mid, post. split; [reflexivity | exact Hm].
    + intros ([|p pre] & mid & post & Hf & Hm).
      * left. apply startsWith_iff. exists mid, post. split; assumption.
      * right. apply IH. injection Hf as -> ->.
        exists pre, mid, post. split; [reflexivity | exact Hm].
Qed.

End FilterFacts.

Module TextFacts.
Import JS Student.

Lemma in_alphabet (c : ascii) : In c Text.alphabet.
Proof.
  unfold Text.alphabet. apply in_map_iff. exists (nat_of_ascii c). split.
  - apply ascii_nat_embedding.
  - apply in_seq. pose proof (nat_ascii_bounded c). lia.
Qed.

(** The canonicalisation of the matcher compares two characters as the
    wording does: equal, or the two cases of one letter. *)
Lemma sameLetter_agree (a c : ascii) : Spec.sameLetter a c = Text.sameLetter a c.
Proof.
  assert (H : forallb
                (fun x => forallb
                            (fun y => Bool.eqb (Spec.sameLetter x y)
                                        (Text.sameLetter x y))
                            Text.alphabet)
                Text.alphabet = true) by (vm_compute; reflexivity).
  rewrite forallb_forall in H. specialize (H a (in_alphabet a)).
  rewrite forallb_forall in H. specialize (H c (in_alphabet c)).
  apply eqb_prop. exact H.
Qed.

Lemma startsWith_agree (term : list ascii) :
  forall field, Spec.startsWith term field = Text.startsWith term field.
Proof.
  induction term as [|a term IH]; intros [|c field]; try reflexivity.
  cbn [Spec.startsWith Text.startsWith]. rewrite sameLetter_agree, IH. reflexivity.
Qed.

Lemma occursIn_agree (term field : list ascii) :
  Spec.occursIn term field = Text.occursIn term field.
Proof.
  induction field as [|c field IH]; cbn [Spec.occursIn Text.occursIn];
    rewrite startsWith_agree; [reflexivity|]. rewrite IH. reflexivity.
Qed.

Lemma holds_agree (v : option string) (field : string) :
  Spec.textHolds v field = Text.holds v field.
Proof.
  destruct v as [term|]; [|reflexivity]. apply occursIn_agree.
Qed.



End TextFacts.



(** What "contains literally" means: the field is some text, then a run
    that equals the term up to case, then some text. *)
Lemma containsLiterally_iff (term field : string) :
  Spec.containsLiterally term field = true
  <-> exists pre mid post,
        list_ascii_of_string field = pre ++ mid ++ post
        /\ map RegExp.canon mid = map RegExp.canon (list_ascii_of_string term).
Proof. apply FilterFacts.occursIn_iff. Qed.

(** An apostrophe and a plus sign in the query are matched as themselves. *)
Example listing_obrien_and_a_plus_b :
  let named (n i : string) (id : ObjectId) :=
    Student.mkStudentRecord id "S1" n "PHYS101" None "B" 85 i 2024 "First"
      None None None in
  let s := Student.mkStore
             [named "Sean O'Brien"%string "A+B"%string 1%N;
              named "Sean OBrien"%string "AAB"%string 2%N] 3%N in
  Student.selected
    (Student.Query.mk None None (Some "o'brien"%string) (Some "a+b"%string)
       None None None) s
  = RegExp.Parsed (JS.Ret [named "Sean O'Brien"%string "A+B"%string 1%N]).
Proof. vm_compute. reflexivity. Qed.

(** Without the escaping, the same input would be a pattern. *)
Example unescaped_plus_is_a_quantifier :
  match RegExp.compile (list_ascii_of_string "A+B") with
  | RegExp.Parsed r => RegExp.test r "AAB" && negb (RegExp.test r "A+B")
  | _ => false
  end = true.
Proof. vm_compute. reflexivity. Qed.

(** ** Activity logs *)

(** C6, on the code: when the user reference of the request is absent, is
    'unknown', or is not a valid id, createLog builds the entry without a
    user reference, the save is refused because the schema requires one, and
    the answer is 500 with nothing stored. *)
Theorem create_log_without_user_is_refused :
  forall (now : Z) (b : ActivityLog.LogBody) (logs : list ActivityLog.Log),
    ActivityLog.acceptsUser (ActivityLog.bodyUser b) = false ->
    ActivityLog.dataUser (ActivityLog.logDataOf b) = None
    /\ ActivityLog.createLog now b logs
       = (failure 500 "Error creating activity log", logs).
Proof.
  intros now b logs H. unfold ActivityLog.createLog, ActivityLog.save, ActivityLog.logDataOf.
  cbn [ActivityLog.dataUser]. rewrite H. split; reflexivity.
Qed.

Lemma create_log_without_user_is_refused_witness :
  ActivityLog.acceptsUser (ActivityLog.bodyUser Sample.unknownUserLog) = false
  /\ ActivityLog.dataUser (ActivityLog.logDataOf Sample.unknownUserLog) = None
  /\ ActivityLog.createLog Sample.now Sample.unknownUserLog []
     = (failure 500 "Error creating activity log", []).
Proof.
  split; [reflexivity|].
  apply (create_log_without_user_is_refused Sample.now Sample.unknownUserLog []).
  reflexivity.
Defined.

(** With a valid user id and the other required fields, the entry is
    stored. *)
Example create_log_with_user_is_stored :
  ActivityLog.createLog Sample.now
    (ActivityLog.mkLogBody (Some "64b7f1a2c3d4e5f601234567"%string)
       (Some "ada"%string) (Some "admin"%string) (Some "LOGIN"%string) None None) []
  = (mkResponse 201 true "Activity log created successfully" None,
     [ActivityLog.mkLog (Some 31170875499930051914095609191%N) "ada" "admin" "LOGIN" []
        None Sample.now]).
Proof. vm_compute. reflexivity. Qed.

Module CleanupFacts.
Import JS ActivityLog.

Lemma daysOf_default (days : option string) :
  parseInt days = None \/ parseInt days = Some 0%Z -> daysOf days = 30%Z.
Proof.
  unfold daysOf, parseIntOr. intros [-> | ->]; reflexivity.
Qed.

Lemma daysOf_supplied (days : option string) (n : Z) :
  parseInt days = Some n -> n <> 0%Z -> daysOf days = n.
Proof.
  unfold daysOf, parseIntOr. intros -> Hn.
  destruct (Z.eqb_spec n 0); [contradiction | reflexivity].
Qed.

End CleanupFacts.

(** C8, as the claim states it, fails: with days = 0 the entries before
    now - 0 days are not deleted, because 0 is replaced by the default of
    30; an entry from ten days ago is kept. *)
Lemma cleanup_zero_days_counterexample :
  JS.parseInt (Some "0"%string) = Some 0%Z
  /\ (ActivityLog.timestamp (Sample.logAt (Sample.daysAgo 10))
      < Sample.now - 0 * ActivityLog.msPerDay)%Z
  /\ ActivityLog.cleanupLogs Sample.now (Some "0"%string)
       [Sample.logAt (Sample.daysAgo 10)]
     = (mkResponse 200 true "Successfully deleted 0 old activity logs" (Some 0),
        [Sample.logAt (Sample.daysAgo 10)]).
Proof. repeat split. Qed.

(** C8, amended.  cleanup(days) takes days as the integer that the
    parameter parses to, and as 30 when the parameter is absent, is not
    numeric, or is zero.  When now, and now minus that many days, are
    instants a date can hold, it deletes exactly the entries whose timestamp
    is strictly before now minus that many days, keeps the others in order,
    and returns the number of deleted entries. *)
Theorem cleanup_deletes_entries_before_cutoff :
  forall (now : Z) (days : option string) (logs : list ActivityLog.Log),
    let d := ActivityLog.daysOf days in
    let cutoff := (now - d * ActivityLog.msPerDay)%Z in
    ActivityLog.validTime now = true ->
    ActivityLog.validTime cutoff = true ->
    (JS.parseInt days = None \/ JS.parseInt days = Some 0%Z -> d = 30%Z)
    /\ (forall n, JS.parseInt days = Some n -> n <> 0%Z -> d = n)
    /\ exists deleted kept,
         ActivityLog.cleanupLogs now days logs
         = (mkResponse 200 true
              ("Successfully deleted " ++ JS.showNat deleted
               ++ " old activity logs")%string (Some deleted), kept)
         /\ deleted = List.length logs - List.length kept
         /\ kept = filter (fun l => (cutoff <=? ActivityLog.timestamp l)%Z) logs
         /\ (forall l, In l kept
                       <-> In l logs /\ (cutoff <= ActivityLog.timestamp l)%Z).
Proof.
  intros now days logs d cutoff _ Hvalid.
  split; [apply CleanupFacts.daysOf_default|].
  split; [apply CleanupFacts.daysOf_supplied|].
  unfold ActivityLog.cleanupLogs, ActivityLog.deleteManyBefore, ActivityLog.cutoffDate.
  fold d. fold cutoff. rewrite Hvalid.
  assert (Hkept : filter (fun l => negb (ActivityLog.timestamp l <? cutoff)%Z) logs
                  = filter (fun l => (cutoff <=? ActivityLog.timestamp l)%Z) logs).
  { apply filter_ext. intros l. rewrite Z.leb_antisym. reflexivity. }
  eexists _, _. split; [reflexivity|]. rewrite Hkept. split; [|split].
  - rewrite <- Hkept. clear. induction logs as [|l logs IH]; [reflexivity|].
    cbn [filter]. destruct (ActivityLog.timestamp l <? cutoff)%Z; cbn [negb List.length].
    + rewrite IH.
      pose proof (filter_length_le
                    (fun l => negb (ActivityLog.timestamp l <? cutoff)%Z) logs).
      lia.
    + rewrite IH. reflexivity.
  - reflexivity.
  - intros l. rewrite filter_In, Z.leb_le. reflexivity.
Qed.

Lemma cleanup_deletes_entries_before_cutoff_witness :
  ActivityLog.validTime Sample.now = true
  /\ ActivityLog.validTime
       (Sample.now - ActivityLog.daysOf None * ActivityLog.msPerDay)%Z = true
  /\ ActivityLog.daysOf None = 30%Z
  /\ ActivityLog.cleanupLogs Sample.now None
       [Sample.logAt (Sample.daysAgo 31); Sample.logAt (Sample.daysAgo 29)]
     = (mkResponse 200 true "Successfully deleted 1 old activity logs" (Some 1),
        [Sample.logAt (Sample.daysAgo 29)]).
Proof.
  split; [reflexivity|]. split; [reflexivity|].
  destruct (cleanup_deletes_entries_before_cutoff Sample.now None
              [Sample.logAt (Sample.daysAgo 31); Sample.logAt (Sample.daysAgo 29)]
              eq_refl eq_refl)
    as (Hdefault & _ & deleted & kept & Hrun & Hcount & Hkept & _).
  split; [apply Hdefault; left; reflexivity|].
  rewrite Hrun, Hcount, Hkept. reflexivity.
Defined.

(** ** Deleting a record through the routes *)

Module RouteFacts.
Import Student Spec.

Lemma findById_after_delete (id : ObjectId) (l : list StudentRecord) :
  NoDup (map _id l) ->
  find (fun d => (_id d =? id)%N) (removeFirst (fun d => (_id d =? id)%N) l) = None.
Proof.
  induction l as [|a l IH]; intros Hnd; [reflexivity|].
  cbn [map] in Hnd. inversion Hnd as [|? ? Hnotin Hnd']; subst.
  cbn [removeFirst]. destruct (_id a =? id)%N eqn:Ha.
  - apply N.eqb_eq in Ha. subst id.
    destruct (find (fun d => (_id d =? _id a)%N) l) as [d|] eqn:Hd; [|reflexivity].
    apply find_some in Hd. destruct Hd as [Hin Heq]. apply N.eqb_eq in Heq.
    exfalso. apply Hnotin. rewrite <- Heq. apply in_map. exact Hin.
  - cbn [find]. rewrite Ha. apply IH. exact Hnd'.
Qed.

Lemma length_removeFirst (id : ObjectId) (l : list StudentRecord) (r : StudentRecord) :
  find (fun d => (_id d =? id)%N) l = Some r ->
  S (List.length (removeFirst (fun d => (_id d =? id)%N) l)) = List.length l.
Proof.
  induction l as [|a l IH]; cbn [find removeFirst]; [discriminate|].
  destruct (_id a =? id)%N; [reflexivity|].
  intros H. cbn [List.length]. rewrite (IH H). reflexivity.
Qed.

Lemma deleteRecord_found (id : ObjectId) (s : Store) (r : StudentRecord) :
  uniqueIds s ->
  findById id s = Some r ->
  fst (deleteRecord id s)
  = mkResponse 200 true "Student record deleted successfully" None
  /\ findById id (snd (deleteRecord id s)) = None
  /\ S (List.length (docs (snd (deleteRecord id s)))) = List.length (docs s).
Proof.
  intros Hu H. unfold deleteRecord, findByIdAndDelete. rewrite H. cbn [fst snd docs].
  split; [reflexivity|]. split.
  - apply findById_after_delete. exact Hu.
  - apply length_removeFirst with (r := r). exact H.
Qed.

End RouteFacts.

(** The gated registration of the earlier revisions does what C7 says: a
    caller who does not declare the admin role gets 403 and the collection
    is unchanged; an admin reaches the controller. *)
Lemma gated_delete_route_refuses_non_admin :
  forall (req : Auth.Request) (id : ObjectId) (s : Student.Store),
    (Auth.declaredUserType req <> "admin"%string ->
     Auth.deleteStudentRouteAdminOnly req id s
     = (failure 403 "Admin access required", s))
    /\ (Auth.declaredUserType req = "admin"%string ->
        Auth.deleteStudentRouteAdminOnly req id s = Student.deleteRecord id s).
Proof.
  intros req id s. unfold Auth.deleteStudentRouteAdminOnly, Auth.isAdmin. split.
  - intros H. apply String.eqb_neq in H. rewrite H. reflexivity.
  - intros ->. reflexivity.
Qed.

(** C7, on the code: the route that routes/studentRoutes.js registers for
    DELETE /students/:id has no gate, so a caller whose role is instructor
    gets 200 and the record is gone. *)
Theorem delete_route_lets_instructor_delete :
  forall (req : Auth.Request) (id : ObjectId) (s : Student.Store)
         (r : Student.StudentRecord),
    Auth.declaredUserType req = "instructor"%string ->
    Spec.uniqueIds s ->
    Student.findById id s = Some r ->
    fst (Auth.deleteStudentRoute req id s)
    = mkResponse 200 true "Student record deleted successfully" None
    /\ Student.findById id (snd (Auth.deleteStudentRoute req id s)) = None
    /\ S (List.length (Student.docs (snd (Auth.deleteStudentRoute req id s))))
       = List.length (Student.docs s).
Proof.
  intros req id s r _ Hu Hr. unfold Auth.deleteStudentRoute.
  apply RouteFacts.deleteRecord_found with (r := r); assumption.
Qed.

Lemma delete_route_lets_instructor_delete_witness :
  Auth.declaredUserType (Sample.asRole "instructor") = "instructor"%string
  /\ Spec.uniqueIds Sample.twoRecords
  /\ Student.findById 1%N Sample.twoRecords = Some (Sample.record 1%N "S1" "PHYS101")
  /\ fst (Auth.deleteStudentRoute (Sample.asRole "instructor") 1%N Sample.twoRecords)
     = mkResponse 200 true "Student record deleted successfully" None
  /\ Student.findById 1%N
       (snd (Auth.deleteStudentRoute (Sample.asRole "instructor") 1%N Sample.twoRecords))
     = None
  /\ S (List.length
          (Student.docs
             (snd (Auth.deleteStudentRoute (Sample.asRole "instructor") 1%N
                     Sample.twoRecords))))
     = List.length (Student.docs Sample.twoRecords).
Proof.
  assert (Hu : Spec.uniqueIds Sample.twoRecords).
  { unfold Spec.uniqueIds. simpl. repeat constructor; simpl; intuition discriminate. }
  split; [reflexivity|]. split; [exact Hu|]. split; [reflexivity|].
  apply (delete_route_lets_instructor_delete (Sample.asRole "instructor") 1%N
           Sample.twoRecords (Sample.record 1%N "S1" "PHYS101"));
    [reflexivity | exact Hu | reflexivity].
Defined.

(** ** Login *)

Module LoginFacts.
Import User.

Lemma find_all_false {A : Type} (f : A -> bool) (l : list A) :
  (forall x, In x l -> f x = false) -> find f l = None.
Proof.
  induction l as [|a l IH]; intros H; [reflexivity|].
  cbn [find]. rewrite (H a) by (left; reflexivity).
  apply IH. intros x Hx. apply H. right. exact Hx.
Qed.

(** Under the unique index on [username], a user name names one user. *)
Lemma username_names_one_user (us : list User) (u v : User) :
  NoDup (map username us) -> In u us -> In v us ->
  username u = username v -> u = v.
Proof.
  induction us as [|a us IH]; intros Hnd Hu Hv Heq; [contradiction|].
  cbn [map] in Hnd. inversion Hnd as [|? ? Hnotin Hnd']; subst.
  destruct Hu as [->|Hu], Hv as [->|Hv].
  - reflexivity.
  - exfalso. apply Hnotin. rewrite Heq. apply in_map. exact Hv.
  - exfalso. apply Hnotin. rewrite <- Heq. apply in_map. exact Hu.
  - apply IH; assumption.
Qed.

(** When no user has the (username, userType) pair, the answer is 401 and
    nothing changes; neither the password nor the key derivation is looked
    at. *)
Lemma login_no_match (hashPassword : string -> string -> string) (now : Z)
  (ip : option string) (b : LoginBody) (w : World) :
  findOne (bodyUsername b) (bodyUserType b) (users w) = None ->
  login hashPassword now ip b w = (failure 401 "Invalid credentials", w).
Proof.
  intros H. unfold login. rewrite H. reflexivity.
Qed.

End LoginFacts.

(** C9.  With user names unique, a login request that supplies a stored
    user's username but a userType other than the stored one is answered
    401 'Invalid credentials' whatever the password, the correct one
    included, and whatever the key derivation: no session is established,
    lastLogin is not updated, and nothing is logged. *)
Theorem login_requires_matching_userType :
  forall (hashPassword : string -> string -> string) (now : Z) (ip : option string)
         (b : User.LoginBody) (w : User.World) (u : User.User),
    NoDup (map User.username (User.users w)) ->
    In u (User.users w) ->
    User.bodyUsername b = Some (User.username u) ->
    User.bodyUserType b <> Some (User.userType u) ->
    User.login hashPassword now ip b w = (failure 401 "Invalid credentials", w).
Proof.
  intros hashPassword now ip b w u Hnd Hu Hname Htype.
  apply LoginFacts.login_no_match. unfold User.findOne.
  apply LoginFacts.find_all_false.
  intros v Hv. rewrite Hname. cbn [Student.eqField].
  destruct (String.eqb_spec (User.username u) (User.username v)) as [Heq|]; [|reflexivity].
  rewrite <- (LoginFacts.username_names_one_user (User.users w) u v Hnd Hu Hv Heq).
  destruct (User.bodyUserType b) as [t|]; [|reflexivity].
  cbn. apply String.eqb_neq. congruence.
Qed.

Lemma login_requires_matching_userType_witness :
  NoDup (map User.username (User.users Sample.world))
  /\ User.verifyPassword Sample.hash (Some "secret1"%string)
       (User.passwordHash Sample.ada) (User.passwordSalt Sample.ada) = JS.Ret true
  /\ User.login Sample.hash Sample.now None
       (User.mkLoginBody (Some "ada"%string) (Some "secret1"%string) (Some "admin"%string))
       Sample.world
     = (failure 401 "Invalid credentials", Sample.world).
Proof.
  assert (Hnd : NoDup (map User.username (User.users Sample.world))).
  { repeat constructor. simpl. intros []. }
  split; [exact Hnd|]. split; [reflexivity|].
  apply (login_requires_matching_userType Sample.hash Sample.now None
           (User.mkLoginBody (Some "ada"%string) (Some "secret1"%string) (Some "admin"%string))
           Sample.world Sample.ada Hnd).
  - left. reflexivity.
  - reflexivity.
  - discriminate.
Defined.

(** With the stored userType the same request logs in: the session is
    established, lastLogin is set and the login is logged. *)
Example login_with_matching_userType :
  User.login Sample.hash Sample.now None
    (User.mkLoginBody (Some "ada"%string) (Some "secret1"%string) (Some "chairman"%string))
    Sample.world
  = (mkResponse 200 true "Login successful"
       (Some (User.mkLoginData 7%N "ada" "chairman" "Ada Mensah" "ada@ul.edu.lr")),
     User.mkWorld
       [User.mkUser 7%N "ada" (Sample.hash "secret1" "na") "na" "chairman"
          "Ada Mensah" "ada@ul.edu.lr" true (Some Sample.now)]
       (Some (User.mkSessionUser 7%N "ada" "chairman" "Ada Mensah"))
       [ActivityLog.mkLog (Some 7%N) "Ada Mensah" "chairman" "LOGIN"
          [("timestamp"%string, "1700000000000"%string)] None Sample.now]).
Proof. vm_compute. reflexivity. Qed.

(* ================================================================== *)
(** * Further properties of the code *)

(** ** Writes that address one document *)

Module CollectionFacts.

Lemma In_replaceFirst {A : Type} (p : A -> bool) (x y : A) (l : list A) :
  In y (replaceFirst p x l) -> In y l \/ y = x.
Proof.
  induction l as [|a l IH]; cbn [replaceFirst]; [intros []|].
  destruct (p a).
  - intros [<-|H]; [right; reflexivity | left; right; exact H].
  - intros [<-|H]; [left; left; reflexivity|].
    destruct (IH H) as [H'|H']; [left; right; exact H' | right; exact H'].
Qed.

Lemma map_replaceFirst {A B : Type} (f : A -> B) (p : A -> bool) (x : A) (l : list A) :
  (forall a, In a l -> p a = true -> f a = f x) ->
  map f (replaceFirst p x l) = map f l.
Proof.
  induction l as [|a l IH]; intros H; [reflexivity|].
  cbn [replaceFirst]. destruct (p a) eqn:Ha; cbn [map].
  - rewrite (H a (or_introl eq_refl) Ha). reflexivity.
  - rewrite IH; [reflexivity|]. intros a' Hin. apply H. right. exact Hin.
Qed.

Lemma length_replaceFirst {A : Type} (p : A -> bool) (x : A) (l : list A) :
  List.length (replaceFirst p x l) = List.length l.
Proof.
  induction l as [|a l IH]; [reflexivity|].
  cbn [replaceFirst]. destruct (p a); cbn [List.length]; [reflexivity|].
  rewrite IH. reflexivity.
Qed.

Lemma Forall_replaceFirst {A : Type} (P : A -> Prop) (p : A -> bool) (x : A)
  (l : list A) :
  Forall P l -> P x -> Forall P (replaceFirst p x l).
Proof.
  intros Hl Hx. apply Forall_forall. intros y Hy.
  destruct (In_replaceFirst p x y l Hy) as [H| ->]; [|exact Hx].
  rewrite Forall_forall in Hl. apply Hl. exact H.
Qed.

(** Replacing by the same document twice is replacing once. *)
Lemma replaceFirst_twice {A : Type} (p : A -> bool) (x : A) (l : list A) :
  p x = true -> replaceFirst p x (replaceFirst p x l) = replaceFirst p x l.
Proof.
  intros Hx. induction l as [|a l IH]; [reflexivity|].
  cbn [replaceFirst]. destruct (p a) eqn:Ha; cbn [replaceFirst].
  - rewrite Hx. reflexivity.
  - rewrite Ha, IH. reflexivity.
Qed.

(** A lookup that the replacement does not concern is not affected. *)
Lemma find_replaceFirst_other {A : Type} (p q : A -> bool) (x : A) (l : list A) :
  q x = false -> (forall a, p a = true -> q a = false) ->
  find q (replaceFirst p x l) = find q l.
Proof.
  intros Hx Hpq. induction l as [|a l IH]; [reflexivity|].
  cbn [replaceFirst]. destruct (p a) eqn:Ha; cbn [find].
  - rewrite Hx, (Hpq a Ha). reflexivity.
  - rewrite IH. reflexivity.
Qed.

Lemma In_removeFirst {A : Type} (p : A -> bool) (y : A) (l : list A) :
  In y (removeFirst p l) -> In y l.
Proof.
  induction l as [|a l IH]; cbn [removeFirst]; [intros []|].
  destruct (p a); [intros H; right; exact H|].
  intros [<-|H]; [left; reflexivity | right; apply IH; exact H].
Qed.

Lemma NoDup_map_removeFirst {A B : Type} (f : A -> B) (p : A -> bool) (l : list A) :
  NoDup (map f l) -> NoDup (map f (removeFirst p l)).
Proof.
  induction l as [|a l IH]; intros H; [exact H|].
  cbn [map] in H. inversion H as [|? ? Hnotin Hnd]; subst.
  cbn [removeFirst]. destruct (p a); [exact Hnd|].
  cbn [map]. constructor; [|apply IH; exact Hnd].
  intros Hin. apply Hnotin. apply in_map_iff in Hin.
  destruct Hin as (y & Hy & Hin). rewrite <- Hy. apply in_map.
  apply In_removeFirst with (p := p). exact Hin.
Qed.

Lemma Forall_removeFirst {A : Type} (P : A -> Prop) (p : A -> bool) (l : list A) :
  Forall P l -> Forall P (removeFirst p l).
Proof.
  intros Hl. apply Forall_forall. intros y Hy.
  rewrite Forall_forall in Hl. apply Hl.
  apply In_removeFirst with (p := p). exact Hy.
Qed.

Lemma find_removeFirst_other {A : Type} (p q : A -> bool) (l : list A) :
  (forall a, p a = true -> q a = false) ->
  find q (removeFirst p l) = find q l.
Proof.
  intros Hpq. induction l as [|a l IH]; [reflexivity|].
  cbn [removeFirst]. destruct (p a) eqn:Ha; cbn [find].
  - rewrite (Hpq a Ha). reflexivity.
  - rewrite IH. reflexivity.
Qed.

Lemma removeFirst_none {A : Type} (p : A -> bool) (l : list A) :
  find p l = None -> removeFirst p l = l.
Proof.
  induction l as [|a l IH]; [reflexivity|].
  cbn [find removeFirst]. destruct (p a); [discriminate|].
  intros H. rewrite (IH H). reflexivity.
Qed.

(** Under a unique key, equal keys name one document. *)
Lemma NoDup_map_inj {A B : Type} (f : A -> B) (l : list A) (x y : A) :
  NoDup (map f l) -> In x l -> In y l -> f x = f y -> x = y.
Proof.
  induction l as [|a l IH]; intros Hnd Hx Hy Heq; [contradiction|].
  cbn [map] in Hnd. inversion Hnd as [|? ? Hnotin Hnd']; subst.
  destruct Hx as [->|Hx], Hy as [->|Hy].
  - reflexivity.
  - exfalso. apply Hnotin. rewrite Heq. apply in_map. exact Hy.
  - exfalso. apply Hnotin. rewrite <- Heq. apply in_map. exact Hx.
  - apply IH; assumption.
Qed.

End CollectionFacts.

(** ** The invariants are kept by the saves *)

Module InvariantFacts.
Import JS Student Spec Invariant CollectionFacts.

Lemma pairOf_neq_samePair (a b : StudentRecord) :
  samePair a b = false <-> pairOf a <> pairOf b.
Proof.
  split.
  - intros H Heq. apply CreateFacts.samePair_pairOf in Heq. congruence.
  - intros H. destruct (samePair a b) eqn:E; [|reflexivity].
    apply CreateFacts.samePair_pairOf in E. contradiction.
Qed.

Lemma replaceFirst_keeps_pairs_unique (r : StudentRecord) (l : list StudentRecord) :
  NoDup (map _id l) -> NoDup (map pairOf l) ->
  (forall d, In d l -> _id d <> _id r -> pairOf d <> pairOf r) ->
  NoDup (map pairOf (replaceFirst (fun d => (_id d =? _id r)%N) r l)).
Proof.
  induction l as [|a l IH]; intros Hids Hpairs Hother; [constructor|].
  cbn [map] in Hids, Hpairs.
  inversion Hids as [|? ? Hidnotin Hids']; subst.
  inversion Hpairs as [|? ? Hpnotin Hpairs']; subst.
  cbn [replaceFirst]. destruct (_id a =? _id r)%N eqn:Ha; cbn [map].
  - apply N.eqb_eq in Ha. constructor; [|exact Hpairs'].
    intros Hin. apply in_map_iff in Hin. destruct Hin as (d & Hd & Hin).
    apply (Hother d (or_intror Hin)); [|exact Hd].
    intros Heq. apply Hidnotin. rewrite Ha, <- Heq. apply in_map. exact Hin.
  - apply N.eqb_neq in Ha. constructor.
    + intros Hin. apply in_map_iff in Hin. destruct Hin as (d & Hd & Hin).
      destruct (In_replaceFirst _ _ _ _ Hin) as [Hl| ->].
      * apply Hpnotin. rewrite <- Hd. apply in_map. exact Hl.
      * apply (Hother a (or_introl eq_refl) Ha). symmetry. exact Hd.
    + apply IH; [exact Hids' | exact Hpairs'|].
      intros d Hd. apply Hother. right. exact Hd.
Qed.

(** [record.save()] keeps the invariants. *)
Lemma save_wellFormed (env : Env) (r : StudentRecord) (s s' : Store) :
  wellFormed env s -> (_id r < nextId s)%N ->
  save env r s = Ret s' -> wellFormed env s'.
Proof.
  intros (Hids & Hbelow & Hpairs & Hvalid) Hr. unfold save.
  destruct (validate env r) eqn:Hv; cbn [negb]; [|discriminate].
  destruct (existsb _ (docs s)) eqn:Hdup; [discriminate|].
  intros H. injection H as <-.
  assert (Hmap : map _id (replaceFirst (fun d => (_id d =? _id r)%N) r (docs s))
                 = map _id (docs s)).
  { apply map_replaceFirst. intros a _ Ha. apply N.eqb_eq. exact Ha. }
  repeat split.
  - unfold uniqueIds. cbn [docs]. rewrite Hmap. exact Hids.
  - unfold idsBelowNext. cbn [docs nextId].
    apply Forall_replaceFirst; [exact Hbelow | exact Hr].
  - unfold uniquePairs. cbn [docs].
    apply replaceFirst_keeps_pairs_unique; [exact Hids | exact Hpairs|].
    intros d Hd Hne Heq.
    assert (Hex : existsb (fun d => negb (_id d =? _id r)%N && samePair r d) (docs s)
                  = true).
    { apply existsb_exists. exists d. split; [exact Hd|].
      apply andb_true_iff. split.
      - apply negb_true_iff, N.eqb_neq. exact Hne.
      - apply CreateFacts.samePair_pairOf. symmetry. exact Heq. }
    congruence.
  - unfold allValid. cbn [docs]. apply Forall_replaceFirst; [exact Hvalid | exact Hv].
Qed.

(** [new StudentRecord(...).save()] keeps the invariants. *)
Lemma saveNew_wellFormed (env : Env) (fields : ObjectId -> StudentRecord)
  (s s' : Store) (r : StudentRecord) :
  (forall id, _id (fields id) = id) ->
  wellFormed env s ->
  saveNew env fields s = Ret (r, s') ->
  wellFormed env s'
  /\ docs s' = docs s ++ [r] /\ _id r = nextId s /\ nextId s' = N.succ (nextId s).
Proof.
  intros Hid (Hids & Hbelow & Hpairs & Hvalid). unfold saveNew.
  destruct (validate env (fields (nextId s))) eqn:Hv; cbn [negb]; [|discriminate].
  destruct (existsb _ (docs s)) eqn:Hdup; [discriminate|].
  intros H. injection H as <- <-.
  split; [|repeat split; apply Hid].
  unfold idsBelowNext in Hbelow. rewrite Forall_forall in Hbelow.
  repeat split.
  - unfold uniqueIds. cbn [docs]. rewrite map_app. cbn [map].
    apply NoDup_app; [exact Hids | repeat constructor; intros [] |].
    intros i Hi [<-|[]]. apply in_map_iff in Hi. destruct Hi as (d & Hd & Hin).
    specialize (Hbelow d Hin). rewrite Hd, Hid in Hbelow. lia.
  - unfold idsBelowNext. cbn [docs nextId]. apply Forall_app. split.
    + apply Forall_forall. intros d Hd. specialize (Hbelow d Hd). lia.
    + repeat constructor. rewrite Hid. lia.
  - unfold uniquePairs. cbn [docs]. rewrite map_app. cbn [map].
    apply NoDup_app; [exact Hpairs | repeat constructor; intros [] |].
    intros p Hp [<-|[]]. apply in_map_iff in Hp. destruct Hp as (d & Hd & Hin).
    assert (Hex : existsb (samePair (fields (nextId s))) (docs s) = true).
    { apply existsb_exists. exists d. split; [exact Hin|].
      apply CreateFacts.samePair_pairOf. symmetry. exact Hd. }
    congruence.
  - unfold allValid. cbn [docs]. apply Forall_app. split; [exact Hvalid|].
    repeat constructor. exact Hv.
Qed.

Lemma findById_below (id : ObjectId) (s : Store) (r : StudentRecord) :
  idsBelowNext s -> findById id s = Some r -> (_id r < nextId s)%N.
Proof.
  intros Hb H. apply find_some in H. destruct H as [Hin _].
  unfold idsBelowNext in Hb. rewrite Forall_forall in Hb. apply Hb. exact Hin.
Qed.

End InvariantFacts.

(** X1.  Creating, updating and deleting a record keep the collection well
    formed: object ids stay unique and below the next id, no two records
    hold the same (studentId, courseCode) pair, and every stored record
    passes the validators of the schema - whatever the payload and whatever
    the answer. *)
Theorem crud_keeps_collection_well_formed :
  forall (env : Student.Env) (id : ObjectId) (b : Student.Body.t) (s : Student.Store),
    Invariant.wellFormed env s ->
    Invariant.wellFormed env (snd (Student.createRecord env b s))
    /\ Invariant.wellFormed env (snd (Student.updateRecord env id b s))
    /\ Invariant.wellFormed env (snd (Student.deleteRecord id s)).
Proof.
  intros env id b s Hwf. split; [|split].
  - unfold Student.createRecord.
    destruct (Student.findOne _ _ s); [exact Hwf|].
    destruct (Student.saveNew env (Student.documentOf env b) s) as [[r s']|e] eqn:Hsave;
      [|exact Hwf].
    apply (InvariantFacts.saveNew_wellFormed env _ s s' r) in Hsave;
      [apply Hsave | reflexivity | exact Hwf].
  - unfold Student.updateRecord.
    destruct (Student.findById id s) as [r|] eqn:Hr; [|exact Hwf].
    destruct (if Student.changesPair b r then _ else _); [exact Hwf|].
    destruct (Student.save env (Student.assignFields r b) s) as [s'|e] eqn:Hsave;
      [|exact Hwf].
    apply (InvariantFacts.save_wellFormed env _ s s') in Hsave; [exact Hsave | exact Hwf|].
    cbn [Student.assignFields Student._id].
    apply InvariantFacts.findById_below with (id := id); [apply Hwf | exact Hr].
  - unfold Student.deleteRecord, Student.findByIdAndDelete.
    destruct (Student.findById id s) as [r|]; [|exact Hwf].
    destruct Hwf as (Hids & Hbelow & Hpairs & Hvalid). cbn [snd].
    repeat split.
    + apply CollectionFacts.NoDup_map_removeFirst. exact Hids.
    + apply CollectionFacts.Forall_removeFirst. exact Hbelow.
    + apply CollectionFacts.NoDup_map_removeFirst. exact Hpairs.
    + apply CollectionFacts.Forall_removeFirst. exact Hvalid.
Qed.

(** Decides the well-formedness of a collection given by its documents. *)
Ltac well_formed :=
  unfold Invariant.wellFormed, Spec.uniqueIds, Invariant.idsBelowNext,
    Spec.uniquePairs, Invariant.allValid;
  cbn; repeat split; repeat constructor; cbn;
  try (intuition (discriminate || congruence)); try reflexivity.

Lemma crud_keeps_collection_well_formed_witness :
  Invariant.wellFormed Sample.env Sample.twoRecords
  /\ Invariant.wellFormed Sample.env
       (snd (Student.createRecord Sample.env (Sample.body "S3" "PHYS101")
               Sample.twoRecords))
  /\ Invariant.wellFormed Sample.env
       (snd (Student.updateRecord Sample.env 2%N (Sample.body "S1" "PHYS101")
               Sample.twoRecords))
  /\ Invariant.wellFormed Sample.env (snd (Student.deleteRecord 2%N Sample.twoRecords)).
Proof.
  assert (H : Invariant.wellFormed Sample.env Sample.twoRecords) by well_formed.
  split; [exact H|].
  apply (crud_keeps_collection_well_formed Sample.env 2%N (Sample.body "S3" "PHYS101")
           Sample.twoRecords) in H as H'.
  destruct H' as (Hc & _ & Hd).
  apply (crud_keeps_collection_well_formed Sample.env 2%N (Sample.body "S1" "PHYS101")
           Sample.twoRecords) in H as (_ & Hu & _).
  split; [exact Hc|]. split; [exact Hu | exact Hd].
Defined.

(** ** Reading back what was written *)

Module RoundTripFacts.
Import JS Student Spec Invariant CollectionFacts.

Lemma find_below_next (s : Store) :
  idsBelowNext s -> find (fun d => (_id d =? nextId s)%N) (docs s) = None.
Proof.
  intros Hb. apply LoginFacts.find_all_false. intros d Hd.
  unfold idsBelowNext in Hb. rewrite Forall_forall in Hb. specialize (Hb d Hd).
  apply N.eqb_neq. lia.
Qed.

Lemma find_app_none {A : Type} (f : A -> bool) (l1 l2 : list A) :
  find f l1 = None -> find f (l1 ++ l2) = find f l2.
Proof.
  induction l1 as [|a l1 IH]; [reflexivity|].
  cbn [find app]. destruct (f a); [discriminate | exact IH].
Qed.

Lemma find_app_some {A : Type} (f : A -> bool) (l1 l2 : list A) (x : A) :
  find f l1 = Some x -> find f (l1 ++ l2) = Some x.
Proof.
  induction l1 as [|a l1 IH]; [discriminate|].
  cbn [find app]. destruct (f a); [intros H; exact H | exact IH].
Qed.

Lemma orS_idempotent (v : option string) (d : string) :
  orS v (orS v d) = orS v d.
Proof.
  destruct v as [x|]; [|reflexivity]. unfold orS.
  destruct (x =? "")%string; reflexivity.
Qed.

Lemma orS'_idempotent (v w : option string) :
  orS' v (orS' v w) = orS' v w.
Proof.
  unfold orS'. destruct (truthyS v); reflexivity.
Qed.

Lemma orZ_idempotent (v : option Z) (d : Z) :
  orZ v (orZ v d) = orZ v d.
Proof.
  destruct v as [n|]; [|reflexivity]. unfold orZ.
  destruct (n =? 0)%Z; reflexivity.
Qed.

Lemma assignFields_idempotent (r : StudentRecord) (b : Body.t) :
  assignFields (assignFields r b) b = assignFields r b.
Proof.
  unfold assignFields.
  cbn [_id studentId studentName courseCode courseName grade numericGrade
       instructor yearCompleted semester session updatedBy editedBy].
  rewrite !orS_idempotent, !orS'_idempotent, orZ_idempotent.
  destruct (Body.numericGrade b), (Body.updatedBy b); reflexivity.
Qed.

(** After its assignments the document holds the keys of the payload, so
    the payload no longer changes the pair. *)
Lemma changesPair_after_assign (r : StudentRecord) (b : Body.t) :
  changesPair b (assignFields r b) = false.
Proof.
  unfold changesPair, assignFields. cbn [studentId courseCode].
  destruct (Body.studentId b) as [sid|]; [|reflexivity].
  destruct (Body.courseCode b) as [cc|];
    [|cbn [truthyS]; rewrite andb_false_r; reflexivity].
  unfold truthyS, orS, eqField.
  destruct (sid =? "")%string eqn:Es; [reflexivity|].
  destruct (cc =? "")%string eqn:Ec; [reflexivity|].
  rewrite !String.eqb_refl. reflexivity.
Qed.

Lemma existsb_replaceFirst_false {A : Type} (f p : A -> bool) (x : A) (l : list A) :
  existsb f l = false -> f x = false -> existsb f (replaceFirst p x l) = false.
Proof.
  intros Hl Hx. destruct (existsb f (replaceFirst p x l)) eqn:E; [|reflexivity].
  apply existsb_exists in E. destruct E as (y & Hy & Hfy).
  destruct (In_replaceFirst p x y l Hy) as [Hin| ->]; [|congruence].
  assert (existsb f l = true) by (apply existsb_exists; exists y; split; assumption).
  congruence.
Qed.

End RoundTripFacts.

(** X2.  In a collection whose ids are below the next id, a create that
    answers 201 returns the document built from the payload with its
    defaults, and reading the new id back returns that same document, while
    every other id reads as before the create. *)
Theorem create_then_read_back :
  forall (env : Student.Env) (b : Student.Body.t) (s : Student.Store),
    Invariant.idsBelowNext s ->
    status (fst (Student.createRecord env b s)) = 201 ->
    let r := Student.documentOf env b (Student.nextId s) in
    let s' := snd (Student.createRecord env b s) in
    data (fst (Student.createRecord env b s)) = Some r
    /\ Records.getRecordById (Student.nextId s) s' = mkResponse 200 true "" (Some r)
    /\ (forall id, id <> Student.nextId s ->
          Records.getRecordById id s' = Records.getRecordById id s).
Proof.
  intros env b s Hb. unfold Student.createRecord.
  destruct (Student.findOne _ _ s); [discriminate|].
  unfold Student.saveNew.
  destruct (negb (Student.validate env _)); [discriminate|].
  destruct (existsb _ (Student.docs s)); [discriminate|].
  intros _. cbn [fst snd data]. split; [reflexivity|].
  unfold Records.getRecordById, Student.findById. cbn [Student.docs]. split.
  - rewrite RoundTripFacts.find_app_none by (apply RoundTripFacts.find_below_next; exact Hb).
    cbn [find Student.documentOf Student._id]. rewrite N.eqb_refl. reflexivity.
  - intros id Hid.
    destruct (find (fun d => (Student._id d =? id)%N) (Student.docs s)) as [d|] eqn:Hd.
    + rewrite (RoundTripFacts.find_app_some _ _ _ _ Hd). reflexivity.
    + rewrite (RoundTripFacts.find_app_none _ _ _ Hd).
      cbn [find Student.documentOf Student._id].
      destruct (N.eqb_spec (Student.nextId s) id); [congruence | reflexivity].
Qed.

Lemma create_then_read_back_witness :
  Invariant.idsBelowNext Sample.twoRecords
  /\ status (fst (Student.createRecord Sample.env (Fixture.keysOnly "S3" "PHYS101")
                    Sample.twoRecords)) = 201
  /\ Records.getRecordById 3%N
       (snd (Student.createRecord Sample.env (Fixture.keysOnly "S3" "PHYS101")
               Sample.twoRecords))
     = mkResponse 200 true ""
         (Some (Student.mkStudentRecord 3%N "S3" "" "PHYS101" (Some ""%string) ""
                  70 "Unknown" 2025 "First" (Some ""%string) None None)).
Proof.
  assert (Hb : Invariant.idsBelowNext Sample.twoRecords)
    by (repeat constructor).
  split; [exact Hb|]. split; [reflexivity|].
  apply (create_then_read_back Sample.env (Fixture.keysOnly "S3" "PHYS101")
           Sample.twoRecords Hb eq_refl).
Defined.

(** X3.  An update, whatever its outcome, leaves every other record as it
    was, keeps the number of records, and hands out no id. *)
Theorem update_touches_one_record :
  forall (env : Student.Env) (id : ObjectId) (b : Student.Body.t) (s : Student.Store),
    let s' := snd (Student.updateRecord env id b s) in
    (forall id', id' <> id ->
       Records.getRecordById id' s' = Records.getRecordById id' s)
    /\ List.length (Student.docs s') = List.length (Student.docs s)
    /\ Student.nextId s' = Student.nextId s.
Proof.
  intros env id b s. unfold Student.updateRecord.
  destruct (Student.findById id s) as [r|] eqn:Hr; [|repeat split].
  destruct (if Student.changesPair b r then _ else _); [repeat split|].
  unfold Student.save.
  destruct (negb (Student.validate env _)); [repeat split|].
  destruct (existsb _ (Student.docs s)); [repeat split|].
  cbn [snd Student.docs Student.nextId Student.assignFields Student._id].
  pose proof (UpdateFacts.findById_id id s r Hr) as Hid.
  split; [|split; [apply CollectionFacts.length_replaceFirst | reflexivity]].
  intros id' Hne. unfold Records.getRecordById, Student.findById. cbn [Student.docs].
  rewrite CollectionFacts.find_replaceFirst_other; [reflexivity | |].
  - change (Student._id (Student.assignFields r b)) with (Student._id r).
    rewrite Hid. apply N.eqb_neq. congruence.
  - intros a Ha. apply N.eqb_eq in Ha. apply N.eqb_neq.
    change (Student._id (Student.assignFields r b)) with (Student._id r) in Ha.
    congruence.
Qed.

(** X4.  An update that answered 200 can be repeated: the same request
    answers 200 again with the same document and leaves the collection as
    the first update left it. *)
Theorem update_is_idempotent :
  forall (env : Student.Env) (id : ObjectId) (b : Student.Body.t) (s : Student.Store),
    status (fst (Student.updateRecord env id b s)) = 200 ->
    Student.updateRecord env id b (snd (Student.updateRecord env id b s))
    = Student.updateRecord env id b s.
Proof.
  intros env id b s. unfold Student.updateRecord at 1 3 4.
  destruct (Student.findById id s) as [r|] eqn:Hr; [|discriminate].
  destruct (if Student.changesPair b r then _ else _); [discriminate|].
  unfold Student.save.
  destruct (Student.validate env (Student.assignFields r b)) eqn:Hv;
    cbn [negb]; [|discriminate].
  destruct (existsb _ (Student.docs s)) eqn:Hdup; [discriminate|].
  intros _. cbn [fst snd].
  pose proof (UpdateFacts.findById_id id s r Hr) as Hid.
  unfold Student.updateRecord.
  assert (Hfind : Student.findById id
                    (Student.mkStore
                       (replaceFirst
                          (fun d => (Student._id d =? Student._id (Student.assignFields r b))%N)
                          (Student.assignFields r b) (Student.docs s))
                       (Student.nextId s))
                  = Some (Student.assignFields r b)).
  { unfold Student.findById. cbn [Student.docs].
    apply UpdateFacts.findById_replaced with (r := r); [exact Hr | exact Hid]. }
  rewrite Hfind, RoundTripFacts.changesPair_after_assign,
    RoundTripFacts.assignFields_idempotent.
  unfold Student.save. rewrite Hv. cbn [negb Student.docs Student.nextId].
  rewrite RoundTripFacts.existsb_replaceFirst_false;
    [| exact Hdup | cbn [Student.assignFields Student._id]; rewrite N.eqb_refl; reflexivity].
  rewrite CollectionFacts.replaceFirst_twice; [reflexivity|].
  apply N.eqb_refl.
Qed.

Lemma update_is_idempotent_witness :
  status (fst (Student.updateRecord Sample.env 2%N (Sample.body "S3" "PHYS102")
                 Sample.twoRecords)) = 200
  /\ Student.updateRecord Sample.env 2%N (Sample.body "S3" "PHYS102")
       (snd (Student.updateRecord Sample.env 2%N (Sample.body "S3" "PHYS102")
               Sample.twoRecords))
     = Student.updateRecord Sample.env 2%N (Sample.body "S3" "PHYS102")
         Sample.twoRecords.
Proof.
  split; [reflexivity|].
  apply (update_is_idempotent Sample.env 2%N (Sample.body "S3" "PHYS102")
           Sample.twoRecords).
  reflexivity.
Defined.

(** ** Deleting *)

(** X5.  With unique ids, once a delete for an id has run - whether it
    found the record or not - the id reads as 404, a second delete answers
    404 and changes nothing, and every other id reads as before. *)
Theorem delete_is_final :
  forall (id : ObjectId) (s : Student.Store),
    Spec.uniqueIds s ->
    let s' := snd (Student.deleteRecord id s) in
    Records.getRecordById id s' = failure 404 "Student record not found"
    /\ Student.deleteRecord id s' = (failure 404 "Student record not found", s')
    /\ (forall id', id' <> id ->
          Records.getRecordById id' s' = Records.getRecordById id' s).
Proof.
  intros id s Hu.
  assert (Hgone : Student.findById id (snd (Student.deleteRecord id s)) = None).
  { destruct (Student.findById id s) as [r|] eqn:Hr.
    - apply (RouteFacts.deleteRecord_found id s r Hu Hr).
    - unfold Student.deleteRecord, Student.findByIdAndDelete. rewrite Hr. exact Hr. }
  cbn zeta. split; [|split].
  - unfold Records.getRecordById. rewrite Hgone. reflexivity.
  - unfold Student.deleteRecord at 1, Student.findByIdAndDelete. rewrite Hgone. reflexivity.
  - intros id' Hne. unfold Records.getRecordById.
    replace (Student.findById id' (snd (Student.deleteRecord id s)))
      with (Student.findById id' s); [reflexivity|].
    unfold Student.deleteRecord, Student.findByIdAndDelete.
    destruct (Student.findById id s); [|reflexivity].
    cbn [snd]. unfold Student.findById. cbn [Student.docs]. symmetry.
    apply CollectionFacts.find_removeFirst_other.
    intros a Ha. apply N.eqb_eq in Ha. apply N.eqb_neq. congruence.
Qed.

Lemma delete_is_final_witness :
  Spec.uniqueIds Sample.twoRecords
  /\ Records.getRecordById 1%N (snd (Student.deleteRecord 1%N Sample.twoRecords))
     = failure 404 "Student record not found"
  /\ Records.getRecordById 2%N (snd (Student.deleteRecord 1%N Sample.twoRecords))
     = mkResponse 200 true "" (Some (Sample.record 2%N "S2" "PHYS101")).
Proof.
  assert (Hu : Spec.uniqueIds Sample.twoRecords).
  { unfold Spec.uniqueIds. cbn. repeat constructor; cbn; intuition discriminate. }
  split; [exact Hu|].
  destruct (delete_is_final 1%N Sample.twoRecords Hu) as (Hgone & _ & Hother).
  split; [exact Hgone|].
  rewrite (Hother 2%N) by discriminate. reflexivity.
Defined.

(** ** The update route: validation, then the controller *)

Module PutFacts.
Import JS Student Spec Invariant Records.

(** What a payload that passes [validateStudentRecord] is known to
    satisfy. *)
Lemma validated_payload (env : Env) (b : Body.t) :
  validateStudentRecord env b = [] ->
  truthyS (Body.studentId b) = true
  /\ truthyS (Body.courseCode b) = true
  /\ truthyS (Body.semester b) = true
  /\ (exists g, Body.numericGrade b = Some g /\ (0 <= g <= 100)%Z)
  /\ (exists y, Body.yearCompleted b = Some y /\ y <> 0%Z
                /\ (1950 <= y <= thisYear env)%Z).
Proof.
  unfold validateStudentRecord. intros H.
  apply app_eq_nil in H as [H1 H]. apply app_eq_nil in H as [_ H].
  apply app_eq_nil in H as [H3 H]. apply app_eq_nil in H as [_ H].
  apply app_eq_nil in H as [H5 H]. apply app_eq_nil in H as [_ H].
  apply app_eq_nil in H as [H7 H]. apply app_eq_nil in H as [H8 H].
  apply app_eq_nil in H as [H9 H]. apply app_eq_nil in H as [H10 _].
  repeat split.
  - destruct (truthyS (Body.studentId b)); [reflexivity | discriminate H1].
  - destruct (truthyS (Body.courseCode b)); [reflexivity | discriminate H3].
  - destruct (truthyS (Body.semester b)); [reflexivity | discriminate H8].
  - destruct (Body.numericGrade b) as [g|]; [|discriminate H5].
    exists g. split; [reflexivity|].
    destruct (g <? 0)%Z eqn:E1; [discriminate H10|].
    destruct (100 <? g)%Z eqn:E2; [discriminate H10|]. lia.
  - destruct (Body.yearCompleted b) as [y|]; [|discriminate H7].
    exists y. split; [reflexivity|]. cbn [truthyZ] in H7.
    destruct (Z.eqb_spec y 0); [discriminate H7|]. cbn [negb andb] in H9.
    destruct (y <? 1950)%Z eqn:E1; [discriminate H9|].
    destruct (thisYear env <? y)%Z eqn:E2; [discriminate H9|]. split; [assumption | lia].
Qed.

Lemma truthy_orS (v : option string) (d : string) :
  truthyS v = true -> Some (orS v d) = v.
Proof.
  destruct v as [x|]; [|discriminate]. unfold truthyS, orS.
  destruct (x =? "")%string; [discriminate | reflexivity].
Qed.

End PutFacts.

(** The update route on a request whose casts have gone through: on a
    well-formed collection whose schema allows the current year, a
    validated payload whose semester is one of First, Second, Third is
    answered 400 when another record holds its pair and 200 otherwise. *)
Lemma validated_route_update :
  forall (env : Student.Env) (id : ObjectId) (b : Student.Body.t)
         (s : Student.Store) (r : Student.StudentRecord) (sem : string),
    Invariant.wellFormed env s ->
    (Student.thisYear env <= Student.schemaYear env)%Z ->
    Student.validateStudentRecord env b = [] ->
    Student.Body.semester b = Some sem ->
    In sem Student.semesters ->
    Student.findById id s = Some r ->
    match Student.findOneOther (Student.Body.studentId b) (Student.Body.courseCode b) id s with
    | Some _ =>
        Records.putStudentRoute env id b s
        = (Records.Handled (failure 400 Student.conflictMessage), s)
    | None =>
        exists s',
          Records.putStudentRoute env id b s
          = (Records.Handled
               (mkResponse 200 true "Student record updated successfully"
                  (Some (Student.assignFields r b))), s')
          /\ Student.findById id s' = Some (Student.assignFields r b)
    end.
Proof.
  intros env id b s r sem (Hids & Hbelow & Hpairs & Hvalid) Hyear Hv Hsem Hin Hr.
  destruct (PutFacts.validated_payload env b Hv)
    as (Hsid & Hcc & _ & (g & Hg & Hgr) & (y & Hy & Hy0 & Hyr)).
  pose proof (UpdateFacts.findById_id id s r Hr) as Hid.
  assert (Hrin : In r (Student.docs s)) by (apply find_some in Hr; apply Hr).
  (* a holder of the payload's pair other than [r] makes the payload change the pair *)
  assert (Hchg : forall o, Student.findOneOther (Student.Body.studentId b)
                             (Student.Body.courseCode b) id s = Some o ->
                           Student.changesPair b r = true).
  { intros o Ho. apply find_some in Ho. destruct Ho as [Hoin Ho].
    apply andb_true_iff in Ho. destruct Ho as [Ho Hoid].
    apply andb_true_iff in Ho. destruct Ho as [Hos Hoc].
    unfold Student.changesPair. rewrite Hsid, Hcc. cbn [andb].
    destruct (Student.eqField (Student.Body.studentId b) (Student.studentId r)) eqn:Es;
      [|reflexivity].
    destruct (Student.eqField (Student.Body.courseCode b) (Student.courseCode r)) eqn:Ec;
      [|reflexivity].
    exfalso.
    destruct (Student.Body.studentId b) as [sid|]; [|discriminate].
    destruct (Student.Body.courseCode b) as [cc|]; [|discriminate].
    cbn [Student.eqField] in *. apply String.eqb_eq in Es, Ec, Hos, Hoc.
    assert (Hpo : Spec.pairOf o = Spec.pairOf r)
      by (unfold Spec.pairOf; congruence).
    apply negb_true_iff, N.eqb_neq in Hoid.
    apply Hoid. rewrite <- Hid. f_equal.
    apply (CollectionFacts.NoDup_map_inj Spec.pairOf (Student.docs s) o r
             Hpairs Hoin Hrin Hpo). }
  unfold Records.putStudentRoute. rewrite Hv. unfold Student.updateRecord. rewrite Hr.
  destruct (Student.findOneOther _ _ id s) as [o|] eqn:Ho.
  - rewrite (Hchg o eq_refl). reflexivity.
  - assert (Hdc : (if Student.changesPair b r then @None Student.StudentRecord else None)
                  = None) by (destruct (Student.changesPair b r); reflexivity).
    rewrite Hdc.
    assert (Hval : Student.validate env (Student.assignFields r b) = true).
    { unfold Student.validate, Student.assignFields.
      cbn [Student.numericGrade Student.yearCompleted Student.semester].
      rewrite Hg, Hy, Hsem. cbn [JS.definedOr]. unfold JS.orZ, JS.orS.
      destruct (Z.eqb_spec y 0); [contradiction|].
      assert (Hne : (sem =? "")%string = false).
      { destruct Hin as [<-|[<-|[<-|[]]]]; reflexivity. }
      rewrite Hne.
      assert (Hex : existsb (String.eqb sem) Student.semesters = true).
      { apply existsb_exists. exists sem. split; [exact Hin | apply String.eqb_refl]. }
      rewrite Hex.
      repeat (apply andb_true_iff; split); try reflexivity; apply Z.leb_le; lia. }
    assert (Hnodup : existsb
                       (fun d => negb (Student._id d =? Student._id (Student.assignFields r b))%N
                                 && Student.samePair (Student.assignFields r b) d)
                       (Student.docs s) = false).
    { destruct (existsb _ (Student.docs s)) eqn:E; [|reflexivity]. exfalso.
      apply existsb_exists in E. destruct E as (d & Hd & Hf).
      apply andb_true_iff in Hf. destruct Hf as [Hdid Hsame].
      change (Student._id (Student.assignFields r b)) with (Student._id r) in Hdid.
      rewrite Hid in Hdid.
      unfold Student.samePair, Student.assignFields in Hsame.
      cbn [Student.studentId Student.courseCode] in Hsame.
      apply andb_true_iff in Hsame. destruct Hsame as [Hs Hc].
      unfold Student.findOneOther in Ho.
      apply (find_none _ _ Ho) in Hd as Hnone.
      rewrite Hdid, andb_true_r in Hnone.
      rewrite <- (PutFacts.truthy_orS (Student.Body.studentId b) (Student.studentId r) Hsid),
              <- (PutFacts.truthy_orS (Student.Body.courseCode b) (Student.courseCode r) Hcc)
        in Hnone.
      cbn [Student.eqField] in Hnone. rewrite Hs, Hc in Hnone. discriminate. }
    unfold Student.save. rewrite Hval, Hnodup. cbn [negb].
    eexists. split; [reflexivity|].
    unfold Student.findById. cbn [Student.docs].
    apply UpdateFacts.findById_replaced with (r := r); [exact Hr | exact Hid].
Qed.

(** X6.  Through PUT /api/students/:id, on a well-formed collection whose
    schema allows the current year: a payload of strings and numbers that
    passes the validation, whose strings the trim setters leave as they
    are, whose semester is one of First, Second, Third and whose updatedBy
    is absent, empty or casts to an object id, never draws a 500 for an
    existing record.  When another record holds the payload's pair the
    answer is 400 and nothing changes; otherwise the answer is 200 and the
    record holds the assigned fields. *)
Theorem validated_update_succeeds_or_conflicts :
  forall (castObjectId : string -> option ObjectId) (env : Student.Env)
         (segment : string) (id : ObjectId) (b : Student.Body.t)
         (updatedBy : option string) (u : option ObjectId)
         (s : Student.Store) (r : Student.StudentRecord) (sem : string),
    Invariant.wellFormed env s ->
    (Student.thisYear env <= Student.schemaYear env)%Z ->
    Student.validateStudentRecord env b = [] ->
    Put.trimmedBody b = true ->
    Student.Body.semester b = Some sem ->
    In sem Student.semesters ->
    castObjectId segment = Some id ->
    Put.castUpdatedBy castObjectId updatedBy = JS.Ret u ->
    Student.findById id s = Some r ->
    match Student.findOneOther (Student.Body.studentId b) (Student.Body.courseCode b) id s with
    | Some _ =>
        Put.putStudentRequest castObjectId env segment b updatedBy s
        = (Records.Handled (failure 400 Student.conflictMessage), s)
    | None =>
        exists s',
          Put.putStudentRequest castObjectId env segment b updatedBy s
          = (Records.Handled
               (mkResponse 200 true "Student record updated successfully"
                  (Some (Student.assignFields r (Put.withUpdatedBy b u)))), s')
          /\ Student.findById id s'
             = Some (Student.assignFields r (Put.withUpdatedBy b u))
    end.
Proof.
  intros castObjectId env segment id b updatedBy u s r sem
         Hwf Hyear Hv _ Hsem Hin Hid Hu Hr.
  rewrite (PutRouteFacts.putStudentRequest_cast castObjectId env segment id b
             updatedBy u s Hid Hu).
  apply (validated_route_update env id (Put.withUpdatedBy b u) s r sem
           Hwf Hyear Hv Hsem Hin Hr).
Qed.

Lemma validated_update_succeeds_or_conflicts_witness :
  Invariant.wellFormed Sample.env Sample.twoRecords
  /\ Student.validateStudentRecord Sample.env (Sample.body "S1" "PHYS101") = []
  /\ Put.trimmedBody (Sample.body "S1" "PHYS101") = true
  /\ Put.putStudentRequest Routing.castHex Sample.env Put.two
       (Sample.body "S1" "PHYS101") None Sample.twoRecords
     = (Records.Handled (failure 400 Student.conflictMessage), Sample.twoRecords)
  /\ exists s',
       Put.putStudentRequest Routing.castHex Sample.env Put.two
         (Sample.body "S3" "PHYS101") (Some Put.nine) Sample.twoRecords
       = (Records.Handled
            (mkResponse 200 true "Student record updated successfully"
               (Some (Student.assignFields (Sample.record 2%N "S2" "PHYS101")
                        (Put.withUpdatedBy (Sample.body "S3" "PHYS101")
                           (Some 9%N))))), s')
       /\ Student.findById 2%N s'
          = Some (Student.assignFields (Sample.record 2%N "S2" "PHYS101")
                    (Put.withUpdatedBy (Sample.body "S3" "PHYS101") (Some 9%N))).
Proof.
  assert (H : Invariant.wellFormed Sample.env Sample.twoRecords) by well_formed.
  assert (Hsem : In "First"%string Student.semesters) by (left; reflexivity).
  assert (Hyear : (Student.thisYear Sample.env <= Student.schemaYear Sample.env)%Z)
    by (cbn; lia).
  split; [exact H|]. split; [reflexivity|]. split; [reflexivity|]. split.
  - apply (validated_update_succeeds_or_conflicts Routing.castHex Sample.env Put.two
             2%N (Sample.body "S1" "PHYS101") None None Sample.twoRecords
             (Sample.record 2%N "S2" "PHYS101") "First"
             H Hyear eq_refl eq_refl eq_refl Hsem eq_refl eq_refl eq_refl).
  - apply (validated_update_succeeds_or_conflicts Routing.castHex Sample.env Put.two
             2%N (Sample.body "S3" "PHYS101") (Some Put.nine) (Some 9%N)
             Sample.twoRecords (Sample.record 2%N "S2" "PHYS101") "First"
             H Hyear eq_refl eq_refl eq_refl Hsem eq_refl eq_refl eq_refl).
Defined.

(** X7.  The validation middleware lets the semesters '1', '2' and '3'
    through, but the enum of the schema does not: an update whose semester
    is one of them, for an existing record, passes validation and then never
    succeeds - the answer is 400 (conflict) or 500 - and the collection is
    unchanged. *)
Theorem numeric_semester_update_never_succeeds :
  forall (env : Student.Env) (id : ObjectId) (b : Student.Body.t)
         (s : Student.Store) (r : Student.StudentRecord) (sem : string),
    Student.validateStudentRecord env b = [] ->
    Student.Body.semester b = Some sem ->
    In sem ["1"; "2"; "3"]%string ->
    Student.findById id s = Some r ->
    Records.putStudentRoute env id b s
    = (Records.Handled (failure 400 Student.conflictMessage), s)
    \/ Records.putStudentRoute env id b s
       = (Records.Handled (failure 500 "Error updating student record"), s).
Proof.
  intros env id b s r sem Hv Hsem Hin Hr.
  unfold Records.putStudentRoute. rewrite Hv. unfold Student.updateRecord. rewrite Hr.
  destruct (if Student.changesPair b r then _ else _); [left; reflexivity|].
  right. unfold Student.save.
  assert (Hval : Student.validate env (Student.assignFields r b) = false).
  { unfold Student.validate, Student.assignFields. cbn [Student.semester].
    rewrite Hsem.
    destruct Hin as [<-|[<-|[<-|[]]]]; cbn [JS.orS String.eqb Ascii.eqb Bool.eqb existsb
                                             Student.semesters orb];
      apply andb_false_r. }
  rewrite Hval. reflexivity.
Qed.

Lemma numeric_semester_update_never_succeeds_witness :
  Student.validateStudentRecord Sample.env (Fixture.numericSemester "S2" "PHYS101") = []
  /\ Records.putStudentRoute Sample.env 2%N (Fixture.numericSemester "S2" "PHYS101")
       Sample.twoRecords
     = (Records.Handled (failure 500 "Error updating student record"), Sample.twoRecords).
Proof.
  split; [reflexivity|].
  destruct (numeric_semester_update_never_succeeds Sample.env 2%N
              (Fixture.numericSemester "S2" "PHYS101") Sample.twoRecords
              (Sample.record 2%N "S2" "PHYS101") "2" eq_refl eq_refl
              (or_intror (or_introl eq_refl)) eq_refl) as [H|H].
  - discriminate H.
  - exact H.
Defined.

(** ** Bulk upload and the invariants *)

Module BulkInvariantFacts.
Import JS Student Spec Invariant CollectionFacts.

(** One item that the inner [try] completes keeps the collection well
    formed, and adds a document exactly when it counts a creation. *)
Lemma tryItem_step (env : Env) (item : Item) (s s1 : Store) (res res1 : Results) :
  wellFormed env s ->
  tryItem env item s res = Ret (s1, res1) ->
  wellFormed env s1
  /\ List.length (docs s1) + created res = List.length (docs s) + created res1.
Proof.
  intros Hwf. destruct item as [|b]; [discriminate|].
  unfold tryItem, prop, bind.
  destruct (findOne (Body.studentId b) (Body.courseCode b) s) as [existing|] eqn:Hf.
  - match goal with
    | |- context [save env ?d s] => destruct (save env d s) as [s'|e] eqn:Hsave
    end; [|discriminate].
    intros H. injection H as <- <-.
    assert (Hbelow : (_id existing < nextId s)%N).
    { apply find_some in Hf. destruct Hf as [Hin _].
      destruct Hwf as (_ & Hb & _). unfold idsBelowNext in Hb.
      rewrite Forall_forall in Hb. apply Hb. exact Hin. }
    split.
    + apply (InvariantFacts.save_wellFormed env _ s s' Hwf) in Hsave;
        [exact Hsave | exact Hbelow].
    + unfold save in Hsave.
      destruct (negb (validate env _)); [discriminate|].
      destruct (existsb _ (docs s)); [discriminate|].
      injection Hsave as <-. cbn [docs created]. rewrite length_replaceFirst. reflexivity.
  - match goal with
    | |- context [saveNew env ?f s] => destruct (saveNew env f s) as [[r s']|e] eqn:Hsave
    end; [|discriminate].
    intros H. injection H as <- <-.
    apply (InvariantFacts.saveNew_wellFormed env _ s s' r) in Hsave;
      [|reflexivity | exact Hwf].
    destruct Hsave as (Hwf' & Hdocs & _). split; [exact Hwf'|].
    cbn [snd created]. rewrite Hdocs, length_app. cbn [List.length]. lia.
Qed.

Lemma catchItem_created (item : Item) (res res' : Results) (e : Thrown) :
  catchItem item res e = Ret res' -> created res' = created res.
Proof.
  destruct item as [|b]; [discriminate|].
  unfold catchItem, prop, bind. intros H. injection H as <-. reflexivity.
Qed.

Lemma forEachItem_invariant (env : Env) (items : list Item) :
  forall (s : Store) (res : Results),
    wellFormed env s ->
    wellFormed env (fst (forEachItem env items s res))
    /\ (forall res', snd (forEachItem env items s res) = Ret res' ->
          List.length (docs (fst (forEachItem env items s res))) + created res
          = List.length (docs s) + created res').
Proof.
  induction items as [|item items IH]; intros s res Hwf.
  - cbn. split; [exact Hwf|]. intros res' H. injection H as <-. reflexivity.
  - cbn [forEachItem].
    destruct (tryItem env item s res) as [[s1 res1]|error] eqn:Htry.
    + destruct (tryItem_step env item s s1 res res1 Hwf Htry) as [Hwf1 Hlen1].
      destruct (IH s1 res1 Hwf1) as [Hwf2 Hlen2].
      split; [exact Hwf2|]. intros res' H. specialize (Hlen2 res' H). lia.
    + destruct (catchItem item res error) as [resE|e] eqn:Hcatch.
      * destruct (IH s resE Hwf) as [Hwf2 Hlen2].
        split; [exact Hwf2|]. intros res' H. specialize (Hlen2 res' H).
        rewrite (catchItem_created item res resE error Hcatch) in Hlen2. exact Hlen2.
      * cbn [fst snd]. split; [exact Hwf|]. discriminate.
Qed.

End BulkInvariantFacts.

(** X9.  A bulk upload keeps the collection well formed whatever the array
    holds and however the request ends; when it answers with results, the
    collection has grown by exactly the number of records counted as
    created: no record is lost and none is added unreported. *)
Theorem bulk_upload_keeps_collection_well_formed :
  forall (env : Student.Env) (records : Student.Records) (s : Student.Store),
    Invariant.wellFormed env s ->
    Invariant.wellFormed env (snd (Student.bulkUploadRecords env records s))
    /\ (forall res,
          data (fst (Student.bulkUploadRecords env records s)) = Some res ->
          List.length (Student.docs (snd (Student.bulkUploadRecords env records s)))
          = List.length (Student.docs s) + Student.created res).
Proof.
  intros env records s Hwf. unfold Student.bulkUploadRecords.
  destruct records as [| |[|item items]];
    try (split; [exact Hwf | discriminate]).
  destruct (BulkInvariantFacts.forEachItem_invariant env (item :: items) s
              (Student.mkResults 0 0 0 []) Hwf) as [Hwf' Hlen].
  destruct (Student.forEachItem env (item :: items) s (Student.mkResults 0 0 0 []))
    as [s' [res|e]]; cbn [fst snd] in *.
  - split; [exact Hwf'|]. intros res' H. injection H as <-.
    specialize (Hlen res eq_refl). cbn [Student.created] in Hlen. lia.
  - split; [exact Hwf' | discriminate].
Qed.

Lemma bulk_upload_keeps_collection_well_formed_witness :
  Invariant.wellFormed Sample.env Sample.twoRecords
  /\ Invariant.wellFormed Sample.env
       (snd (Student.bulkUploadRecords Sample.env
               (Student.RecordsArray Sample.itemsAroundNull) Sample.twoRecords)).
Proof.
  assert (H : Invariant.wellFormed Sample.env Sample.twoRecords) by well_formed.
  split; [exact H|].
  apply (bulk_upload_keeps_collection_well_formed Sample.env
           (Student.RecordsArray Sample.itemsAroundNull) Sample.twoRecords H).
Defined.

(** ** Bulk upload: the same item twice *)

Module UpsertFacts.
Import JS Student Spec Invariant CollectionFacts Upsert.

Lemma replaceFirst_app_none {A : Type} (p : A -> bool) (x : A) (l1 l2 : list A) :
  find p l1 = None -> replaceFirst p x (l1 ++ l2) = l1 ++ replaceFirst p x l2.
Proof.
  induction l1 as [|a l1 IH]; [reflexivity|].
  cbn [find app replaceFirst]. destruct (p a); [discriminate|].
  intros H. rewrite (IH H). reflexivity.
Qed.

(** A new item whose document is valid and whose pair nobody holds is
    created. *)
Lemma tryItem_creates (env : Env) (b : Body.t) (s : Store) (res : Results) :
  findOne (Body.studentId b) (Body.courseCode b) s = None ->
  validate env (newDocumentOf env b 0%N) = true ->
  existsb (samePair (newDocumentOf env b (nextId s))) (docs s) = false ->
  tryItem env (ItemObject b) s res
  = Ret (mkStore (docs s ++ [newDocumentOf env b (nextId s)]) (N.succ (nextId s)),
         mkResults (S (created res)) (updated res) (errors res)
           (details res
            ++ [mkDetail (Body.studentId b) (Body.courseCode b)
                  (StatusCreated (nextId s))])).
Proof.
  intros Hf Hv Hdup. unfold tryItem, prop, bind. rewrite Hf. unfold saveNew.
  change (validate env (newDocumentOf env b (nextId s))) with
    (validate env (newDocumentOf env b 0%N)) in *.
  fold (newDocumentOf env b (nextId s)).
  change (validate env (newDocumentOf env b (nextId s))) with
    (validate env (newDocumentOf env b 0%N)).
  rewrite Hv, Hdup. reflexivity.
Qed.

(** Right after its creation, the same item is an update that changes
    nothing. *)
Lemma tryItem_updates_in_place (env : Env) (b : Body.t) (s : Store) (res : Results)
  (sid cc : string) :
  idsBelowNext s ->
  Body.studentId b = Some sid -> Body.courseCode b = Some cc ->
  findOne (Some sid) (Some cc) s = None ->
  validate env (newDocumentOf env b 0%N) = true ->
  let s1 := mkStore (docs s ++ [newDocumentOf env b (nextId s)]) (N.succ (nextId s)) in
  tryItem env (ItemObject b) s1 res
  = Ret (s1,
         mkResults (created res) (S (updated res)) (errors res)
           (details res
            ++ [mkDetail (Some sid) (Some cc) (StatusUpdated (nextId s))])).
Proof.
  intros Hb Hsid Hcc Hf Hv s1.
  set (r := newDocumentOf env b (nextId s)).
  assert (Hhit : eqField (Some sid) (studentId r) && eqField (Some cc) (courseCode r)
                 = true).
  { subst r. unfold newDocumentOf. cbn [studentId courseCode].
    rewrite Hsid, Hcc, !orS_supplied_empty_default. cbn [eqField].
    rewrite !String.eqb_refl. reflexivity. }
  assert (Hfind : findOne (Some sid) (Some cc) s1 = Some r).
  { unfold findOne, s1. cbn [docs]. unfold findOne in Hf.
    rewrite (find_snoc _ _ _ Hf). cbv beta. fold r. rewrite Hhit. reflexivity. }
  unfold tryItem, prop, bind. rewrite Hsid, Hcc, Hfind.
  assert (Hsame :
    {| _id := _id r;
       studentId := studentId r;
       studentName := orS (Body.studentName b) (studentName r);
       courseCode := courseCode r;
       courseName := courseName r;
       grade := orS (Body.grade b) (grade r);
       numericGrade := definedOr (Body.numericGrade b) (numericGrade r);
       instructor := orS (Body.instructor b) (instructor r);
       yearCompleted := orZ (Body.yearCompleted b) (yearCompleted r);
       semester := orS (Body.semester b) (semester r);
       session := session r;
       updatedBy := match Body.updatedBy b with
                    | Some u => Some u
                    | None => updatedBy r
                    end;
       editedBy := editedBy r |} = r).
  { subst r. unfold newDocumentOf.
    cbn [_id studentId studentName courseCode courseName grade numericGrade
         instructor yearCompleted semester session updatedBy editedBy].
    rewrite !RoundTripFacts.orS_idempotent, RoundTripFacts.orZ_idempotent.
    destruct (Body.numericGrade b), (Body.updatedBy b); reflexivity. }
  rewrite Hsame. unfold save.
  change (validate env r) with (validate env (newDocumentOf env b 0%N)).
  rewrite Hv. cbn [negb].
  assert (Hnone : find (fun d => (_id d =? _id r)%N) (docs s) = None).
  { subst r. cbn [newDocumentOf _id]. apply RoundTripFacts.find_below_next. exact Hb. }
  assert (Hdup : existsb (fun d => negb (_id d =? _id r)%N && samePair r d) (docs s1)
                 = false).
  { unfold s1. cbn [docs]. rewrite existsb_app. cbn [existsb].
    rewrite N.eqb_refl. cbn [negb andb orb]. rewrite orb_false_r.
    destruct (existsb _ (docs s)) eqn:E; [|reflexivity]. exfalso.
    apply existsb_exists in E. destruct E as (d & Hd & Hfd).
    apply andb_true_iff in Hfd. destruct Hfd as [_ Hsp].
    unfold findOne in Hf. apply (find_none _ _ Hf) in Hd.
    unfold samePair in Hsp. subst r. unfold newDocumentOf in Hsp.
    cbn [studentId courseCode] in Hsp.
    rewrite Hsid, Hcc, !orS_supplied_empty_default in Hsp.
    cbn [eqField] in Hd. congruence. }
  rewrite Hdup. unfold s1 at 1. cbn [docs nextId].
  rewrite (replaceFirst_app_none _ _ _ _ Hnone). cbn [replaceFirst].
  rewrite N.eqb_refl. reflexivity.
Qed.

End UpsertFacts.

(** X10.  Uploading the same item twice in one array, when the item names
    student and course, its pair is new and its document is valid: the
    first occurrence is created, the second is reported as updated with the
    same id, and the collection holds the one new record. *)
Theorem bulk_upload_same_item_twice :
  forall (env : Student.Env) (b : Student.Body.t) (s : Student.Store) (sid cc : string),
    Invariant.idsBelowNext s ->
    Student.Body.studentId b = Some sid ->
    Student.Body.courseCode b = Some cc ->
    Student.findOne (Some sid) (Some cc) s = None ->
    Student.validate env (Upsert.newDocumentOf env b 0%N) = true ->
    let res :=
      Student.mkResults 1 1 0
        [Student.mkDetail (Some sid) (Some cc) (Student.StatusCreated (Student.nextId s));
         Student.mkDetail (Some sid) (Some cc) (Student.StatusUpdated (Student.nextId s))] in
    Student.bulkUploadRecords env
      (Student.RecordsArray [Student.ItemObject b; Student.ItemObject b]) s
    = (mkResponse 200 true (Student.processedMessage 2 res) (Some res),
       Student.mkStore
         (Student.docs s ++ [Upsert.newDocumentOf env b (Student.nextId s)])
         (N.succ (Student.nextId s))).
Proof.
  intros env b s sid cc Hb Hsid Hcc Hf Hv res.
  assert (Hdup : existsb (Student.samePair (Upsert.newDocumentOf env b (Student.nextId s)))
                   (Student.docs s) = false).
  { destruct (existsb _ (Student.docs s)) eqn:E; [|reflexivity]. exfalso.
    apply existsb_exists in E. destruct E as (d & Hd & Hsp).
    unfold Student.findOne in Hf. apply (find_none _ _ Hf) in Hd.
    unfold Student.samePair, Upsert.newDocumentOf in Hsp.
    cbn [Student.studentId Student.courseCode] in Hsp.
    rewrite Hsid, Hcc, !orS_supplied_empty_default in Hsp.
    cbn [Student.eqField] in Hd. congruence. }
  unfold Student.bulkUploadRecords. cbn [Student.forEachItem].
  rewrite (UpsertFacts.tryItem_creates env b s (Student.mkResults 0 0 0 []));
    [| rewrite Hsid, Hcc; exact Hf | exact Hv | exact Hdup].
  rewrite (UpsertFacts.tryItem_updates_in_place env b s _ sid cc Hb Hsid Hcc Hf Hv).
  rewrite Hsid, Hcc. reflexivity.
Qed.

Lemma bulk_upload_same_item_twice_witness :
  Invariant.idsBelowNext Sample.twoRecords
  /\ Student.validate Sample.env
       (Upsert.newDocumentOf Sample.env (Sample.body "S3" "PHYS101") 0%N) = true
  /\ Student.bulkUploadRecords Sample.env
       (Student.RecordsArray
          [Student.ItemObject (Sample.body "S3" "PHYS101");
           Student.ItemObject (Sample.body "S3" "PHYS101")]) Sample.twoRecords
     = (mkResponse 200 true "Processed 2 records: 1 created, 1 updated, 0 errors"
          (Some (Student.mkResults 1 1 0
                   [Student.mkDetail (Some "S3"%string) (Some "PHYS101"%string)
                      (Student.StatusCreated 3%N);
                    Student.mkDetail (Some "S3"%string) (Some "PHYS101"%string)
                      (Student.StatusUpdated 3%N)])),
        Student.mkStore
          (Student.docs Sample.twoRecords ++ [Sample.record 3%N "S3" "PHYS101"]) 4%N).
Proof.
  assert (Hb : Invariant.idsBelowNext Sample.twoRecords) by (repeat constructor).
  split; [exact Hb|]. split; [reflexivity|].
  apply (bulk_upload_same_item_twice Sample.env (Sample.body "S3" "PHYS101")
           Sample.twoRecords "S3" "PHYS101" Hb eq_refl eq_refl eq_refl eq_refl).
Defined.

(** X11.  The same repetition for an item without a student id goes
    otherwise: the lookup by an undefined id finds nothing, so the first
    occurrence is created under the empty id and the second is refused by
    the unique index and reported as an error, not as an update. *)
Theorem bulk_upload_item_without_id_twice :
  forall (env : Student.Env) (b : Student.Body.t) (s : Student.Store),
    Student.Body.studentId b = None ->
    Student.validate env (Upsert.newDocumentOf env b 0%N) = true ->
    existsb (Student.samePair (Upsert.newDocumentOf env b 0%N)) (Student.docs s) = false ->
    let res :=
      Student.mkResults 1 0 1
        [Student.mkDetail None (Student.Body.courseCode b)
           (Student.StatusCreated (Student.nextId s));
         Student.mkDetail (Some "Unknown"%string)
           (Some (JS.orS (Student.Body.courseCode b) "Unknown"))
           (Student.StatusError JS.DuplicateKey)] in
    Student.bulkUploadRecords env
      (Student.RecordsArray [Student.ItemObject b; Student.ItemObject b]) s
    = (mkResponse 200 true (Student.processedMessage 2 res) (Some res),
       Student.mkStore
         (Student.docs s ++ [Upsert.newDocumentOf env b (Student.nextId s)])
         (N.succ (Student.nextId s))).
Proof.
  intros env b s Hsid Hv Hdup res.
  assert (Hnone : forall s0, Student.findOne (Student.Body.studentId b)
                               (Student.Body.courseCode b) s0 = None).
  { intros s0. rewrite Hsid. unfold Student.findOne.
    apply LoginFacts.find_all_false. intros d _. reflexivity. }
  unfold Student.bulkUploadRecords. cbn [Student.forEachItem].
  rewrite (UpsertFacts.tryItem_creates env b s (Student.mkResults 0 0 0 []));
    [| apply Hnone | exact Hv | exact Hdup].
  unfold Student.tryItem at 1, Student.prop, JS.bind. rewrite Hnone.
  unfold Student.saveNew. cbn [Student.docs Student.nextId].
  fold (Upsert.newDocumentOf env b (N.succ (Student.nextId s))).
  change (Student.validate env (Upsert.newDocumentOf env b (N.succ (Student.nextId s))))
    with (Student.validate env (Upsert.newDocumentOf env b 0%N)).
  rewrite Hv. cbn [negb]. rewrite existsb_app. cbn [existsb].
  assert (Hself : Student.samePair (Upsert.newDocumentOf env b (N.succ (Student.nextId s)))
                    (Upsert.newDocumentOf env b (Student.nextId s)) = true).
  { unfold Student.samePair. cbn [Upsert.newDocumentOf Student.studentId Student.courseCode].
    rewrite !String.eqb_refl. reflexivity. }
  rewrite Hself, orb_true_r. cbn [Student.catchItem Student.prop JS.bind].
  unfold Student.catchItem, Student.prop, JS.bind. rewrite Hsid. reflexivity.
Qed.

Lemma bulk_upload_item_without_id_twice_witness :
  Student.validate Sample.env
    (Upsert.newDocumentOf Sample.env (Fixture.noStudentId "PHYS101") 0%N) = true
  /\ Student.bulkUploadRecords Sample.env
       (Student.RecordsArray
          [Student.ItemObject (Fixture.noStudentId "PHYS101");
           Student.ItemObject (Fixture.noStudentId "PHYS101")]) Sample.twoRecords
     = (mkResponse 200 true "Processed 2 records: 1 created, 0 updated, 1 errors"
          (Some (Student.mkResults 1 0 1
                   [Student.mkDetail None (Some "PHYS101"%string)
                      (Student.StatusCreated 3%N);
                    Student.mkDetail (Some "Unknown"%string) (Some "PHYS101"%string)
                      (Student.StatusError JS.DuplicateKey)])),
        Student.mkStore
          (Student.docs Sample.twoRecords ++ [Sample.record 3%N "" "PHYS101"]) 4%N).
Proof.
  split; [reflexivity|].
  apply (bulk_upload_item_without_id_twice Sample.env (Fixture.noStudentId "PHYS101")
           Sample.twoRecords eq_refl eq_refl eq_refl).
Defined.

(** ** The filter of the activity-log listing *)

Module LogFilterFacts.
Import RegExp Student Spec Logs.

(** A pattern that begins with a quantifier has nothing to repeat. *)
Lemma compile_leading_quantifier (c : ascii) (rest : list ascii) :
  In c ["*"; "+"; "?"]%char -> compile (c :: rest) = Malformed.
Proof.
  intros Hc. unfold compile.
  replace (2 * List.length (c :: rest) + 2)
    with (S (S (2 * List.length (c :: rest)))) by lia.
  cbn [parseDisj parseAlt].
  destruct Hc as [<-|[<-|[<-|[]]]]; reflexivity.
Qed.

Lemma escape_plain (term : list ascii) :
  forallb (fun c => negb (isSpecial c)) term = true -> escape term = term.
Proof.
  induction term as [|c term IH]; [reflexivity|].
  cbn [forallb]. intros H. apply andb_true_iff in H. destruct H as [Hc Ht].
  change (escape (c :: term))
    with ((if isSpecial c then ["\"%char; c] else [c]) ++ escape term).
  apply negb_true_iff in Hc. rewrite Hc, (IH Ht). reflexivity.
Qed.

(** On a term without special characters the escaping changes nothing, so
    the pattern is the literal term. *)
Lemma patternCondition_plain (v : option string) :
  match v with Some term => plain term = true | None => True end ->
  exists c,
    patternCondition v = Parsed c
    /\ forall field, Logs.holdsRegex c field = textHolds v field.
Proof.
  destruct v as [term|]; intros Hp; [|exists None; split; reflexivity].
  unfold patternCondition. destruct (String.eqb_spec term "") as [->|Hne].
  - exists None. split; [reflexivity|]. intros field. cbn.
    unfold containsLiterally. cbn. destruct (list_ascii_of_string field); reflexivity.
  - pose proof (FilterFacts.createSafeRegex_literal term) as Hc.
    unfold createSafeRegex in Hc. unfold plain in Hp.
    rewrite (escape_plain _ Hp) in Hc. rewrite Hc.
    eexists. split; [reflexivity|].
    intros field. cbn [Logs.holdsRegex textHolds]. unfold test, containsLiterally.
    apply FilterFacts.searchFrom_literal.
Qed.

End LogFilterFacts.

(** X12.  The username filter of the log listing compiles the query value
    as a pattern without escaping it: a value that begins with '*', '+' or
    '?' makes the RegExp constructor throw, and the listing answers 500
    whatever the logs are. *)
Theorem log_listing_rejects_leading_quantifier :
  forall (parseDate : string -> option Z) (q : Logs.Query)
         (logs : list ActivityLog.Log) (c : ascii) (rest : string),
    Logs.queryUsername q = Some (String c rest) ->
    In c ["*"; "+"; "?"]%char ->
    Logs.selected parseDate q logs = RegExp.Parsed (JS.Throw JS.SyntaxError).
Proof.
  intros parseDate q logs c rest Hq Hc.
  unfold Logs.selected, Logs.buildFilter, Logs.patternCondition. rewrite Hq.
  cbn [String.eqb list_ascii_of_string].
  rewrite (LogFilterFacts.compile_leading_quantifier c _ Hc). reflexivity.
Qed.

Lemma log_listing_rejects_leading_quantifier_witness :
  Logs.selected (fun _ => None)
    (Logs.mkQuery None (Some "*ada"%string) None None None None)
    [Sample.logAt Sample.now]
  = RegExp.Parsed (JS.Throw JS.SyntaxError).
Proof.
  apply (log_listing_rejects_leading_quantifier (fun _ => None)
           (Logs.mkQuery None (Some "*ada"%string) None None None None)
           [Sample.logAt Sample.now] "*"%char "ada" eq_refl).
  left. reflexivity.
Defined.

(** X13.  When the username and action values of the log listing are
    ASCII text that holds none of the characters
    - / \ ^ $ * + ? . ( ) | [ ] { }, the filter is built, and on a field of
    ASCII text each of the two conditions holds exactly when the field
    contains the value as a run of characters, letter case apart. *)
Theorem log_listing_plain_terms_match_literally :
  forall (parseDate : string -> option Z) (q : Logs.Query),
    Text.opt Logs.plain (Logs.queryUsername q) = true ->
    Text.opt Logs.plain (Logs.queryAction q) = true ->
    Text.opt Text.asciiOnly (Logs.queryUsername q) = true ->
    Text.opt Text.asciiOnly (Logs.queryAction q) = true ->
    exists f,
      Logs.buildFilter parseDate q = RegExp.Parsed f
      /\ (forall field,
            Text.asciiOnly field = true ->
            Logs.holdsRegex (Logs.onUsername f) field
            = Text.holds (Logs.queryUsername q) field)
      /\ (forall field,
            Text.asciiOnly field = true ->
            Logs.holdsRegex (Logs.onAction f) field
            = Text.holds (Logs.queryAction q) field).
Proof.
  intros parseDate q Hu Ha _ _. unfold Logs.buildFilter.
  assert (Hplain : forall v, Text.opt Logs.plain v = true ->
            match v with Some term => Logs.plain term = true | None => True end).
  { intros [term|] H; [exact H | exact I]. }
  destruct (LogFilterFacts.patternCondition_plain _ (Hplain _ Hu)) as (c1 & -> & H1).
  destruct (LogFilterFacts.patternCondition_plain _ (Hplain _ Ha)) as (c2 & -> & H2).
  eexists. split; [reflexivity|].
  cbn [Logs.onUsername Logs.onAction].
  split; intros field _; [rewrite H1 | rewrite H2]; apply TextFacts.holds_agree.
Qed.

Lemma log_listing_plain_terms_match_literally_witness :
  Text.opt Logs.plain (Logs.queryUsername Catalog.logQuery) = true
  /\ Text.opt Text.asciiOnly (Logs.queryUsername Catalog.logQuery) = true
  /\ Logs.selected (fun _ => None) Catalog.logQuery Catalog.logs
     = RegExp.Parsed (JS.Ret [Sample.logAt Sample.now]).
Proof.
  split; [reflexivity|]. split; [reflexivity|].
  destruct (log_listing_plain_terms_match_literally (fun _ => None) Catalog.logQuery
              eq_refl eq_refl eq_refl eq_refl) as (f & Hf & _).
  unfold Logs.selected. rewrite Hf. injection Hf as <-. reflexivity.
Defined.

(** In the log listing a dot is a wildcard: the value 'a.a' selects the
    entry of 'Ada Mensah', which does not contain it. *)
Example log_listing_dot_is_a_wildcard :
  Logs.selected (fun _ => None)
    (Logs.mkQuery None (Some "a.a"%string) None None None None)
    [Sample.logAt Sample.now]
  = RegExp.Parsed (JS.Ret [Sample.logAt Sample.now])
  /\ Spec.containsLiterally "a.a" "Ada Mensah" = false.
Proof. split; vm_compute; reflexivity. Qed.

(** ** Appending a log entry, and the retention sweep *)

(** X14.  For a request whose action and ipAddress are as the trim
    setters of the schema leave them, createLog stores an entry exactly
    when the user reference is accepted and username, userType and action
    are non-empty: it then answers 201 and appends one entry with the
    supplied fields, the user reference as an object id, the details
    (empty when absent) and the current instant as timestamp; in every
    other case it answers 500 and stores nothing. *)
Theorem create_log_stores_iff_complete :
  forall (now : Z) (b : ActivityLog.LogBody) (logs : list ActivityLog.Log),
    Text.opt Text.trimmed (ActivityLog.bodyAction b) = true ->
    Text.opt Text.trimmed (ActivityLog.bodyIpAddress b) = true ->
    ActivityLog.createLog now b logs
    = if ActivityLog.acceptsUser (ActivityLog.bodyUser b)
         && JS.truthyS (ActivityLog.bodyUsername b)
         && JS.truthyS (ActivityLog.bodyUserType b)
         && JS.truthyS (ActivityLog.bodyAction b)
      then (mkResponse 201 true "Activity log created successfully" None,
            logs ++ [ActivityLog.mkLog
                       (option_map ActivityLog.toObjectId (ActivityLog.bodyUser b))
                       (JS.orS (ActivityLog.bodyUsername b) "")
                       (JS.orS (ActivityLog.bodyUserType b) "")
                       (JS.orS (ActivityLog.bodyAction b) "")
                       (match ActivityLog.bodyDetails b with Some d => d | None => [] end)
                       (ActivityLog.bodyIpAddress b) now])
      else (failure 500 "Error creating activity log", logs).
Proof.
  intros now b logs _ _.
  unfold ActivityLog.createLog, ActivityLog.save, ActivityLog.logDataOf.
  cbn [ActivityLog.dataUser ActivityLog.dataUsername ActivityLog.dataUserType
       ActivityLog.dataAction ActivityLog.dataDetails ActivityLog.dataIpAddress].
  destruct (ActivityLog.acceptsUser (ActivityLog.bodyUser b)) eqn:Hacc; [|reflexivity].
  destruct (ActivityLog.bodyUser b) as [u|]; [|discriminate Hacc].
  cbn [option_map andb].
  destruct (ActivityLog.bodyUsername b) as [n|]; [|reflexivity].
  destruct (ActivityLog.bodyUserType b) as [t|];
    [|cbn [JS.truthyS]; rewrite andb_false_r; reflexivity].
  destruct (ActivityLog.bodyAction b) as [a|];
    [|cbn [JS.truthyS]; rewrite andb_false_r; reflexivity].
  unfold JS.truthyS, JS.orS.
  destruct (n =? "")%string, (t =? "")%string, (a =? "")%string; reflexivity.
Qed.

Lemma create_log_stores_iff_complete_witness :
  Text.opt Text.trimmed (ActivityLog.bodyAction Catalog.loginLog) = true
  /\ Text.opt Text.trimmed (ActivityLog.bodyIpAddress Catalog.loginLog) = true
  /\ fst (ActivityLog.createLog Sample.now Catalog.loginLog [])
     = mkResponse 201 true "Activity log created successfully" None
  /\ List.length (snd (ActivityLog.createLog Sample.now Catalog.loginLog [])) = 1.
Proof.
  split; [reflexivity|]. split; [reflexivity|].
  rewrite (create_log_stores_iff_complete Sample.now Catalog.loginLog []
             eq_refl eq_refl).
  split; reflexivity.
Defined.

(** X15.  The retention sweep is idempotent: run again at the same instant
    with the same parameter, it leaves the logs as the first run left them,
    and when the first run answered 200 the second reports zero deleted
    entries. *)
Theorem cleanup_is_idempotent :
  forall (now : Z) (days : option string) (logs : list ActivityLog.Log),
    let first := ActivityLog.cleanupLogs now days logs in
    let second := ActivityLog.cleanupLogs now days (snd first) in
    snd second = snd first
    /\ (status (fst first) = 200 -> data (fst second) = Some 0).
Proof.
  intros now days logs.
  unfold ActivityLog.cleanupLogs, ActivityLog.deleteManyBefore.
  destruct (ActivityLog.validTime _) eqn:Hv; cbn [fst snd];
    [|rewrite ?Hv; split; [reflexivity | discriminate]].
  rewrite ?Hv. cbn [fst snd data].
  set (cutoff := ActivityLog.cutoffDate now (ActivityLog.daysOf days)).
  assert (Hkept : forall l,
             In l (filter (fun l => negb (ActivityLog.timestamp l <? cutoff)%Z) logs) ->
             (ActivityLog.timestamp l <? cutoff)%Z = false).
  { intros l Hl. apply filter_In in Hl. apply negb_true_iff, Hl. }
  split.
  - induction logs as [|l logs IH]; [reflexivity|].
    cbn [filter]. destruct (ActivityLog.timestamp l <? cutoff)%Z eqn:E; cbn [negb].
    + apply IH. intros l' Hl'. apply Hkept. cbn [filter]. rewrite E. exact Hl'.
    + cbn [filter]. rewrite E. cbn [negb]. f_equal. apply IH.
      intros l' Hl'. apply Hkept. cbn [filter]. rewrite E. right. exact Hl'.
  - intros _. f_equal.
    induction (filter (fun l => negb (ActivityLog.timestamp l <? cutoff)%Z) logs)
      as [|l kept IH]; [reflexivity|].
    cbn [filter]. rewrite (Hkept l (or_introl eq_refl)). apply IH.
    intros l' Hl'. apply Hkept. right. exact Hl'.
Qed.

(** ** Accounts *)

Module AccountFacts.
Import JS User Accounts CollectionFacts.

(** The first document that a predicate finds is the one a replacement
    replaces: what the two agree on is kept. *)
Lemma map_replaceFirst_found {A B : Type} (f : A -> B) (p : A -> bool) (x y : A)
  (l : list A) :
  find p l = Some x -> f y = f x -> map f (replaceFirst p y l) = map f l.
Proof.
  intros Hx Hf. induction l as [|a l IH]; [reflexivity|].
  cbn [find replaceFirst] in *. destruct (p a); cbn [map].
  - injection Hx as ->. rewrite Hf. reflexivity.
  - rewrite (IH Hx). reflexivity.
Qed.

Lemma find_replaceFirst_found {A : Type} (p : A -> bool) (x y : A) (l : list A) :
  find p l = Some x -> p y = true -> find p (replaceFirst p y l) = Some y.
Proof.
  intros Hx Hy. induction l as [|a l IH]; [discriminate|].
  cbn [find replaceFirst] in *. destruct (p a) eqn:Ha; cbn [find].
  - rewrite Hy. reflexivity.
  - rewrite Ha. apply IH. exact Hx.
Qed.

(** With unique ids, the lookup of a stored user by its id finds it. *)
Lemma findById_own (us : list User) (u : User) :
  NoDup (map _id us) -> In u us -> Accounts.findById (_id u) us = Some u.
Proof.
  intros Hnd Hin. unfold Accounts.findById.
  destruct (find _ us) as [v|] eqn:Hv.
  - apply find_some in Hv. destruct Hv as [Hvin Hv]. apply N.eqb_eq in Hv.
    f_equal. apply (NoDup_map_inj _id us v u Hnd Hvin Hin Hv).
  - apply (find_none _ _ Hv) in Hin. rewrite N.eqb_refl in Hin. discriminate.
Qed.

(** With unique user names, the lookup of a stored user by its own user
    name and type finds that user. *)
Lemma findOne_own (us : list User) (u : User) :
  NoDup (map username us) -> In u us ->
  findOne (Some (username u)) (Some (userType u)) us = Some u.
Proof.
  intros Hnd Hin. unfold findOne.
  destruct (find _ us) as [v|] eqn:Hv.
  - apply find_some in Hv. destruct Hv as [Hvin Hv].
    apply andb_true_iff in Hv. destruct Hv as [Hn _]. cbn [Student.eqField] in Hn.
    apply String.eqb_eq in Hn. f_equal. symmetry.
    apply (NoDup_map_inj username us u v Hnd Hin Hvin Hn).
  - apply (find_none _ _ Hv) in Hin. cbn [Student.eqField] in Hin.
    rewrite !String.eqb_refl in Hin. discriminate.
Qed.

(** A replacement that keeps id, user name and email keeps the collection
    unique. *)
Lemma replace_keeps_unique (us : list User) (u u' : User) :
  uniqueUsers us -> In u us ->
  _id u' = _id u -> username u' = username u -> email u' = email u ->
  uniqueUsers (replaceFirst (fun v => (_id v =? _id u')%N) u' us)
  /\ In u' (replaceFirst (fun v => (_id v =? _id u')%N) u' us).
Proof.
  intros (Hi & Hn & He) Hin Hid Hname Hmail.
  pose proof (findById_own us u Hi Hin) as Hfind. unfold Accounts.findById in Hfind.
  rewrite <- Hid in Hfind.
  split.
  - repeat split.
    + rewrite (map_replaceFirst_found _id _ u u' us Hfind Hid). exact Hi.
    + rewrite (map_replaceFirst_found username _ u u' us Hfind Hname). exact Hn.
    + rewrite (map_replaceFirst_found email _ u u' us Hfind Hmail). exact He.
  - pose proof (find_replaceFirst_found _ u u' us Hfind (N.eqb_refl _)) as H.
    apply find_some in H. apply H.
Qed.

(** The course of a login with a stored user's own name, type and a
    password that verifies. *)
Lemma login_accepts (hashPassword : string -> string -> string) (now : Z)
  (ip : option string) (w : World) (u : User) (p : string) :
  uniqueUsers (users w) -> In u (users w) ->
  hashPassword p (passwordSalt u) = passwordHash u ->
  exists logs',
    login hashPassword now ip
      (mkLoginBody (Some (username u)) (Some p) (Some (userType u))) w
    = (mkResponse 200 true "Login successful"
         (Some (mkLoginData (_id u) (username u) (userType u) (name u) (email u))),
       mkWorld (replaceFirst (fun v => (_id v =? _id u)%N) (loggedIn now u) (users w))
         (Some (mkSessionUser (_id u) (username u) (userType u) (name u)))
         logs').
Proof.
  intros (Hi & Hn & He) Hin Hp. unfold login. cbn [bodyUsername bodyUserType bodyPassword].
  rewrite (findOne_own (users w) u Hn Hin). unfold verifyPassword.
  rewrite Hp, String.eqb_refl. eexists. reflexivity.
Qed.

End AccountFacts.

(** X16.  With ids, user names and emails unique, a login that supplies a
    stored user's user name and user type and a password whose hash under
    the stored salt is the stored hash succeeds: it answers 200 with that
    user's data, establishes the session for that user, and sets the
    user's lastLogin to the current instant. *)
Theorem login_accepts_stored_credentials :
  forall (hashPassword : string -> string -> string) (now : Z) (ip : option string)
         (w : User.World) (u : User.User) (p : string),
    Accounts.uniqueUsers (User.users w) ->
    In u (User.users w) ->
    hashPassword p (User.passwordSalt u) = User.passwordHash u ->
    let out :=
      User.login hashPassword now ip
        (User.mkLoginBody (Some (User.username u)) (Some p) (Some (User.userType u))) w in
    fst out
    = mkResponse 200 true "Login successful"
        (Some (User.mkLoginData (User._id u) (User.username u) (User.userType u)
                 (User.name u) (User.email u)))
    /\ User.sessionUser (snd out)
       = Some (User.mkSessionUser (User._id u) (User.username u) (User.userType u)
                 (User.name u))
    /\ option_map User.lastLogin (Accounts.findById (User._id u) (User.users (snd out)))
       = Some (Some now).
Proof.
  intros hashPassword now ip w u p Hu Hin Hp.
  destruct (AccountFacts.login_accepts hashPassword now ip w u p Hu Hin Hp) as [logs' H].
  cbn zeta. rewrite H. cbn [fst snd User.sessionUser User.users].
  split; [reflexivity|]. split; [reflexivity|].
  destruct (AccountFacts.replace_keeps_unique (User.users w) u (Accounts.loggedIn now u)
              Hu Hin eq_refl eq_refl eq_refl) as [Hu' Hin'].
  pose proof (AccountFacts.findById_own _ _ (proj1 Hu') Hin') as Hf.
  change (User._id (Accounts.loggedIn now u)) with (User._id u) in Hf.
  rewrite Hf. reflexivity.
Qed.

Lemma login_accepts_stored_credentials_witness :
  Accounts.uniqueUsers (User.users Sample.world)
  /\ Sample.hash "secret1" (User.passwordSalt Sample.ada) = User.passwordHash Sample.ada
  /\ fst (User.login Sample.hash Sample.now None (Roster.adaLogin "secret1" "chairman")
            Sample.world)
     = mkResponse 200 true "Login successful"
         (Some (User.mkLoginData 7%N "ada" "chairman" "Ada Mensah" "ada@ul.edu.lr")).
Proof.
  assert (Hu : Accounts.uniqueUsers (User.users Sample.world)).
  { repeat split; cbn; repeat constructor; cbn; intuition discriminate. }
  split; [exact Hu|]. split; [reflexivity|].
  apply (login_accepts_stored_credentials Sample.hash Sample.now None Sample.world
           Sample.ada "secret1" Hu (or_introl eq_refl) eq_refl).
Defined.

(** X17.  A login that does not answer 200 changes nothing: users, session
    and logs are as before. *)
Theorem failed_login_changes_nothing :
  forall (hashPassword : string -> string -> string) (now : Z) (ip : option string)
         (b : User.LoginBody) (w : User.World),
    status (fst (User.login hashPassword now ip b w)) <> 200 ->
    snd (User.login hashPassword now ip b w) = w.
Proof.
  intros hashPassword now ip b w. unfold User.login.
  destruct (User.findOne _ _ (User.users w)) as [user|]; [|reflexivity].
  destruct (User.verifyPassword hashPassword _ _ _) as [[|]|e]; try reflexivity.
  cbn [fst status]. intros H. contradiction H. reflexivity.
Qed.

Lemma failed_login_changes_nothing_witness :
  status (fst (User.login Sample.hash Sample.now None (Roster.adaLogin "wrong" "chairman")
                 Sample.world)) <> 200
  /\ snd (User.login Sample.hash Sample.now None (Roster.adaLogin "wrong" "chairman")
            Sample.world) = Sample.world.
Proof.
  assert (H : status (fst (User.login Sample.hash Sample.now None
                             (Roster.adaLogin "wrong" "chairman") Sample.world)) <> 200)
    by (vm_compute; discriminate).
  split; [exact H|].
  apply (failed_login_changes_nothing Sample.hash Sample.now None
           (Roster.adaLogin "wrong" "chairman") Sample.world H).
Defined.

(** X18.  With ids, user names and emails unique, no login - successful or
    not - changes any user's user name, user type, password hash or salt,
    and the collection stays unique. *)
Theorem login_never_changes_credentials :
  forall (hashPassword : string -> string -> string) (now : Z) (ip : option string)
         (b : User.LoginBody) (w : User.World),
    Accounts.uniqueUsers (User.users w) ->
    map Accounts.credentials (User.users (snd (User.login hashPassword now ip b w)))
    = map Accounts.credentials (User.users w)
    /\ Accounts.uniqueUsers (User.users (snd (User.login hashPassword now ip b w))).
Proof.
  intros hashPassword now ip b w Hu. unfold User.login.
  destruct (User.findOne _ _ (User.users w)) as [user|] eqn:Hf;
    [|split; [reflexivity | exact Hu]].
  destruct (User.verifyPassword hashPassword _ _ _) as [[|]|e];
    try (split; [reflexivity | exact Hu]).
  cbn [snd User.users]. unfold User.saveLastLogin.
  assert (Hin : In user (User.users w)) by (apply find_some in Hf; apply Hf).
  pose proof (AccountFacts.findById_own _ _ (proj1 Hu) Hin) as Hid.
  unfold Accounts.findById in Hid.
  split.
  - apply (AccountFacts.map_replaceFirst_found Accounts.credentials _ user _ _ Hid).
    reflexivity.
  - apply (AccountFacts.replace_keeps_unique (User.users w) user
             (Accounts.loggedIn now user) Hu Hin eq_refl eq_refl eq_refl).
Qed.

Lemma login_never_changes_credentials_witness :
  Accounts.uniqueUsers (User.users Sample.world)
  /\ map Accounts.credentials
       (User.users (snd (User.login Sample.hash Sample.now None
                           (Roster.adaLogin "secret1" "chairman") Sample.world)))
     = [("ada", "chairman", Sample.hash "secret1" "na", "na")]%string.
Proof.
  assert (Hu : Accounts.uniqueUsers (User.users Sample.world)).
  { repeat split; cbn; repeat constructor; cbn; intuition discriminate. }
  split; [exact Hu|].
  rewrite (proj1 (login_never_changes_credentials Sample.hash Sample.now None
                    (Roster.adaLogin "secret1" "chairman") Sample.world Hu)).
  reflexivity.
Defined.

(** ** Registration *)

Module RegisterFacts.
Import JS User Accounts CollectionFacts.

(** The two ways [insertUser] returns. *)
Lemma insertUser_inserted (hashPassword : string -> string -> string)
  (emailMatches : string -> bool) (id : ObjectId) (salt : string)
  (b : NewUserBody) (us us' : list User) (user : User) :
  insertUser hashPassword emailMatches id salt b us = Ret (Some user, us') ->
  exists p,
    newPassword b = Some p
    /\ user = documentOf id b salt (hashPassword p salt)
    /\ us' = us ++ [user]
    /\ findByUsernameOrEmail (newUsername b) (newEmail b) us = None
    /\ validate emailMatches user = true
    /\ existsb (fun v => (_id v =? _id user)%N
                         || (username v =? username user)%string
                         || (email v =? email user)%string) us = false.
Proof.
  unfold insertUser.
  destruct (findByUsernameOrEmail _ _ us) eqn:Hf; [discriminate|].
  unfold encryptPassword, bind. destruct (newPassword b) as [p|]; [|discriminate].
  cbn [fst snd]. unfold saveNew.
  destruct (validate emailMatches _) eqn:Hv; cbn [negb]; [|discriminate].
  destruct (existsb _ us) eqn:Hd; [discriminate|].
  intros H. injection H as <- <-. exists p. repeat split; assumption.
Qed.

Lemma insertUser_keeps_unique (hashPassword : string -> string -> string)
  (emailMatches : string -> bool) (id : ObjectId) (salt : string)
  (b : NewUserBody) (us us' : list User) (o : option User) :
  uniqueUsers us ->
  insertUser hashPassword emailMatches id salt b us = Ret (o, us') ->
  uniqueUsers us'.
Proof.
  intros Hu H. destruct o as [user|].
  - apply insertUser_inserted in H.
    destruct H as (p & _ & _ & -> & _ & _ & Hd).
    destruct Hu as (Hi & Hn & He).
    assert (Hfresh : forall v, In v us ->
              _id v <> _id user /\ username v <> username user /\ email v <> email user).
    { intros v Hv. rewrite <- not_true_iff_false in Hd.
      repeat split; intros Heq; apply Hd; apply existsb_exists; exists v;
        (split; [exact Hv|]); rewrite Heq.
      - rewrite N.eqb_refl. reflexivity.
      - rewrite String.eqb_refl, orb_true_r. reflexivity.
      - rewrite String.eqb_refl, orb_true_r. reflexivity. }
    repeat split; rewrite map_app; cbn [map];
      (apply NoDup_app; [assumption | repeat constructor; intros [] |]);
      intros x Hx [<-|[]]; apply in_map_iff in Hx; destruct Hx as (v & Hv & Hin);
      destruct (Hfresh v Hin) as (H1 & H2 & H3); congruence.
  - unfold insertUser in H.
    destruct (findByUsernameOrEmail _ _ us); [injection H as <-; exact Hu|].
    unfold encryptPassword, bind in H. destruct (newPassword b); [|discriminate].
    cbn [fst snd] in H. destruct (saveNew _ _ us); discriminate.
Qed.

End RegisterFacts.

(** X19.  A registration that answered 201 can log in: the login with the
    registered user name and password, and the user type that was stored
    (the one supplied, or 'instructor' when none was), answers 200 and
    establishes the session for the new user. *)
Theorem register_then_login :
  forall (hashPassword : string -> string -> string) (emailMatches : string -> bool)
         (id : ObjectId) (salt : string) (b : Accounts.NewUserBody) (w : User.World)
         (now : Z) (ip : option string) (u p : string),
    Accounts.newUsername b = Some u ->
    Accounts.newPassword b = Some p ->
    status (fst (Accounts.register hashPassword emailMatches id salt b w)) = 201 ->
    let w' := snd (Accounts.register hashPassword emailMatches id salt b w) in
    let t := match Accounts.newUserType b with Some t => t | None => "instructor"%string end in
    let out := User.login hashPassword now ip
                 (User.mkLoginBody (Some u) (Some p) (Some t)) w' in
    status (fst out) = 200
    /\ option_map User.sessionId (User.sessionUser (snd out)) = Some id
    /\ option_map User.sessionUserType (User.sessionUser (snd out)) = Some t.
Proof.
  intros hashPassword emailMatches id salt b w now ip u p Hu Hp.
  unfold Accounts.register.
  destruct (Accounts.insertUser hashPassword emailMatches id salt b (User.users w))
    as [[[user|] us']|e] eqn:Hins; try discriminate.
  intros _. cbn [snd].
  apply RegisterFacts.insertUser_inserted in Hins.
  destruct Hins as (p' & Hp' & -> & -> & Hnone & _ & _).
  rewrite Hp in Hp'. injection Hp' as <-.
  cbn zeta. unfold User.login. cbn [User.bodyUsername User.bodyUserType User.bodyPassword
                                    User.users].
  assert (Hfind : User.findOne (Some u)
                    (Some match Accounts.newUserType b with
                          | Some t => t
                          | None => "instructor"%string
                          end)
                    (User.users w
                     ++ [Accounts.documentOf id b salt (hashPassword p salt)])
                  = Some (Accounts.documentOf id b salt (hashPassword p salt))).
  { unfold User.findOne. rewrite RoundTripFacts.find_app_none.
    - cbn [find Accounts.documentOf User.username User.userType Student.eqField].
      rewrite Hu, !String.eqb_refl. reflexivity.
    - apply LoginFacts.find_all_false. intros v Hv.
      unfold Accounts.findByUsernameOrEmail in Hnone.
      apply (find_none _ _ Hnone) in Hv. rewrite Hu in Hv.
      apply orb_false_iff in Hv. destruct Hv as [Hv _]. rewrite Hv. reflexivity. }
  rewrite Hfind. unfold User.verifyPassword.
  cbn [Accounts.documentOf User.passwordHash User.passwordSalt].
  rewrite String.eqb_refl. cbn. repeat split.
Qed.

Lemma register_then_login_witness :
  status (fst (Accounts.register Sample.hash Roster.emailOk 8%N "nb" Roster.bendu
                 Sample.world)) = 201
  /\ status (fst (User.login Sample.hash Sample.now None
                    (User.mkLoginBody (Some "bendu"%string) (Some "secret2"%string)
                       (Some "instructor"%string))
                    (snd (Accounts.register Sample.hash Roster.emailOk 8%N "nb"
                            Roster.bendu Sample.world)))) = 200.
Proof.
  split; [reflexivity|].
  apply (register_then_login Sample.hash Roster.emailOk 8%N "nb" Roster.bendu
           Sample.world Sample.now None "bendu" "secret2" eq_refl eq_refl eq_refl).
Defined.

(** X20.  Registration and user creation keep ids, user names and emails
    unique, whatever the request and however it ends; and when a stored
    user already has the requested user name or the requested email, both
    answer 400 and change nothing. *)
Theorem registration_keeps_users_unique :
  forall (hashPassword : string -> string -> string) (emailMatches : string -> bool)
         (id : ObjectId) (salt : string) (b : Accounts.NewUserBody) (w : User.World),
    Accounts.uniqueUsers (User.users w) ->
    Accounts.uniqueUsers
      (User.users (snd (Accounts.register hashPassword emailMatches id salt b w)))
    /\ Accounts.uniqueUsers
         (User.users (snd (Accounts.createUser hashPassword emailMatches id salt b w)))
    /\ (forall v, In v (User.users w) ->
          Accounts.newUsername b = Some (User.username v)
          \/ Accounts.newEmail b = Some (User.email v) ->
          Accounts.register hashPassword emailMatches id salt b w
          = (failure 400 "Username or email already in use", w)
          /\ Accounts.createUser hashPassword emailMatches id salt b w
             = (failure 400 "Username or email already in use", w)).
Proof.
  intros hashPassword emailMatches id salt b w Hu.
  unfold Accounts.register, Accounts.createUser.
  destruct (Accounts.insertUser hashPassword emailMatches id salt b (User.users w))
    as [[o us']|e] eqn:Hins.
  - pose proof (RegisterFacts.insertUser_keeps_unique _ _ _ _ _ _ _ _ Hu Hins) as Hu'.
    destruct o as [user|]; cbn [snd User.users].
    + split; [exact Hu'|]. split; [exact Hu'|].
      intros v Hv Htaken. exfalso.
      apply RegisterFacts.insertUser_inserted in Hins.
      destruct Hins as (_ & _ & _ & _ & Hnone & _ & _).
      unfold Accounts.findByUsernameOrEmail in Hnone.
      apply (find_none _ _ Hnone) in Hv.
      destruct Htaken as [H|H]; rewrite H in Hv; cbn [Student.eqField] in Hv;
        rewrite String.eqb_refl in Hv; [|rewrite orb_true_r in Hv]; discriminate.
    + split; [exact Hu|]. split; [exact Hu|]. intros; split; reflexivity.
  - cbn [snd]. split; [exact Hu|]. split; [exact Hu|].
    intros v Hv Htaken. exfalso. unfold Accounts.insertUser in Hins.
    destruct (Accounts.findByUsernameOrEmail _ _ (User.users w)) eqn:Hnone;
      [discriminate|].
    unfold Accounts.findByUsernameOrEmail in Hnone.
    apply (find_none _ _ Hnone) in Hv.
    destruct Htaken as [H|H]; rewrite H in Hv; cbn [Student.eqField] in Hv;
      rewrite String.eqb_refl in Hv; [|rewrite orb_true_r in Hv]; discriminate.
Qed.

Lemma registration_keeps_users_unique_witness :
  Accounts.uniqueUsers (User.users Sample.world)
  /\ Accounts.uniqueUsers
       (User.users (snd (Accounts.register Sample.hash Roster.emailOk 8%N "nb"
                           Roster.bendu Sample.world)))
  /\ Accounts.register Sample.hash Roster.emailOk 9%N "nc"
       (Accounts.mkNewUserBody (Some "ada"%string) (Some "secret3"%string) None
          (Some "Another Ada"%string) (Some "other@ul.edu.lr"%string))
       Sample.world
     = (failure 400 "Username or email already in use", Sample.world).
Proof.
  assert (Hu : Accounts.uniqueUsers (User.users Sample.world)).
  { repeat split; cbn; repeat constructor; cbn; intuition discriminate. }
  split; [exact Hu|]. split.
  - apply (registration_keeps_users_unique Sample.hash Roster.emailOk 8%N "nb"
             Roster.bendu Sample.world Hu).
  - apply (registration_keeps_users_unique Sample.hash Roster.emailOk 9%N "nc"
             (Accounts.mkNewUserBody (Some "ada"%string) (Some "secret3"%string) None
                (Some "Another Ada"%string) (Some "other@ul.edu.lr"%string))
             Sample.world Hu) with (v := Sample.ada).
    + left. reflexivity.
    + left. reflexivity.
Defined.

(** ** Sessions *)

(** X21.  After a login that a stored user's credentials allow, the
    profile request answers 200 with that user; after a logout whose
    session store reports no error, the users are as they were and the
    profile request answers 401. *)
Theorem login_profile_logout :
  forall (hashPassword : string -> string -> string) (now now' : Z)
         (ip ip' : option string) (w : User.World) (u : User.User) (p : string),
    Accounts.uniqueUsers (User.users w) ->
    In u (User.users w) ->
    hashPassword p (User.passwordSalt u) = User.passwordHash u ->
    let w1 := snd (User.login hashPassword now ip
                     (User.mkLoginBody (Some (User.username u)) (Some p)
                        (Some (User.userType u))) w) in
    let out := Accounts.logout now' ip' false w1 in
    Accounts.getProfile w1
    = mkResponse 200 true ""
        (Some (User.mkLoginData (User._id u) (User.username u) (User.userType u)
                 (User.name u) (User.email u)))
    /\ fst out = mkResponse 200 true "Logout successful" None
    /\ User.users (snd out) = User.users w1
    /\ Accounts.getProfile (snd out) = failure 401 "Not authenticated".
Proof.
  intros hashPassword now now' ip ip' w u p Hu Hin Hp.
  destruct (AccountFacts.login_accepts hashPassword now ip w u p Hu Hin Hp)
    as (logs' & Heq).
  cbn zeta. rewrite Heq. cbn [snd]. split; [|repeat split].
  unfold Accounts.getProfile. cbn [User.sessionUser User.sessionId User.users].
  pose proof (AccountFacts.findById_own _ _ (proj1 Hu) Hin) as Hf.
  unfold Accounts.findById in *.
  rewrite (AccountFacts.find_replaceFirst_found _ u (Accounts.loggedIn now u) _ Hf
             (N.eqb_refl _)).
  reflexivity.
Qed.

Lemma login_profile_logout_witness :
  Accounts.getProfile
    (snd (Accounts.logout (Sample.now + 1) None false
            (snd (User.login Sample.hash Sample.now None
                    (Roster.adaLogin "secret1" "chairman") Sample.world))))
  = failure 401 "Not authenticated".
Proof.
  assert (Hu : Accounts.uniqueUsers (User.users Sample.world)).
  { repeat split; cbn; repeat constructor; cbn; intuition discriminate. }
  apply (login_profile_logout Sample.hash Sample.now (Sample.now + 1) None None
           Sample.world Sample.ada "secret1" Hu (or_introl eq_refl) eq_refl).
Defined.

(** ** Passwords *)

Module PasswordFacts.
Import JS User Accounts CollectionFacts.

(** Under the unique indexes, a user with another id has another user
    name and another email. *)
Lemma others_differ (us : list User) (u : User) :
  uniqueUsers us -> In u us ->
  forall v, In v us -> (_id v =? _id u)%N = false ->
    (username v =? username u)%string = false
    /\ (email v =? email u)%string = false.
Proof.
  intros (Hi & Hn & He) Hin v Hv Hid. apply N.eqb_neq in Hid.
  split; apply String.eqb_neq; intros Heq; apply Hid; f_equal.
  - apply (NoDup_map_inj username us v u Hn Hv Hin Heq).
  - apply (NoDup_map_inj email us v u He Hv Hin Heq).
Qed.

(** Saving a valid stored user under a new, non-empty salt and hash
    replaces it. *)
Lemma save_password (emailMatches : string -> bool) (salt h : string)
  (us : list User) (u : User) :
  uniqueUsers us -> In u us -> validate emailMatches u = true ->
  salt <> ""%string -> h <> ""%string ->
  save emailMatches (withPassword u salt h) us
  = Ret (replaceFirst (fun v => (_id v =? _id u)%N) (withPassword u salt h) us).
Proof.
  intros Hu Hin Hv Hs Hh. unfold save.
  assert (Hv' : validate emailMatches (withPassword u salt h) = true).
  { unfold validate in *.
    cbn [withPassword username passwordHash passwordSalt userType name email].
    repeat (apply andb_true_iff in Hv; destruct Hv as [Hv ?]).
    apply String.eqb_neq in Hs, Hh.
    repeat (apply andb_true_iff; split); try assumption;
      [rewrite Hh | rewrite Hs]; reflexivity. }
  rewrite Hv'. cbn [negb].
  assert (Hd : existsb (fun v => negb (_id v =? _id (withPassword u salt h))%N
                          && ((username v =? username (withPassword u salt h))%string
                              || (email v =? email (withPassword u salt h))%string)) us
               = false).
  { apply not_true_iff_false. intros H. apply existsb_exists in H.
    destruct H as (v & Hvin & Hc). apply andb_true_iff in Hc. destruct Hc as [Hid Hc].
    cbn [withPassword _id username email] in Hid, Hc.
    apply negb_true_iff in Hid.
    destruct (others_differ us u Hu Hin v Hvin Hid) as [Hn He].
    rewrite Hn, He in Hc. discriminate. }
  rewrite Hd. reflexivity.
Qed.

(** Once a stored user's password is set to [p] under [salt], the login
    with [p] is accepted, and a password with another digest is refused. *)
Lemma set_password_then_login (hashPassword : string -> string -> string)
  (salt p : string) (us : list User) (session : option SessionUser)
  (logs : list ActivityLog.Log) (u : User) (now : Z) (ip : option string) :
  uniqueUsers us -> In u us ->
  let w' := mkWorld
              (replaceFirst (fun v => (_id v =? _id u)%N)
                 (withPassword u salt (hashPassword p salt)) us) session logs in
  status (fst (login hashPassword now ip
                 (mkLoginBody (Some (username u)) (Some p) (Some (userType u))) w'))
  = 200
  /\ (forall q, hashPassword q salt <> hashPassword p salt ->
        login hashPassword now ip
          (mkLoginBody (Some (username u)) (Some q) (Some (userType u))) w'
        = (failure 401 "Invalid credentials", w')).
Proof.
  intros Hu Hin w'.
  destruct (AccountFacts.replace_keeps_unique us u
              (withPassword u salt (hashPassword p salt)) Hu Hin
              eq_refl eq_refl eq_refl) as [Hu' Hin'].
  cbn [withPassword _id] in Hu', Hin'.
  split.
  - destruct (AccountFacts.login_accepts hashPassword now ip w'
                (withPassword u salt (hashPassword p salt)) p Hu' Hin' eq_refl)
      as (logs' & Heq).
    cbn [withPassword username userType] in Heq. rewrite Heq. reflexivity.
  - intros q Hq. unfold login. cbn [bodyUsername bodyUserType bodyPassword].
    pose proof (AccountFacts.findOne_own _ _ (proj1 (proj2 Hu')) Hin') as Hf.
    cbn [withPassword username userType] in Hf.
    change (users w') with
      (replaceFirst (fun v => (_id v =? _id u)%N)
         (withPassword u salt (hashPassword p salt)) us).
    rewrite Hf. unfold verifyPassword.
    cbn [withPassword passwordHash passwordSalt].
    apply String.eqb_neq in Hq. rewrite Hq. reflexivity.
Qed.

End PasswordFacts.

(** X22.  Changing the password of a stored, valid user to [p] answers 200
    when the salt and the digest are not empty; from then on the login
    with [p] answers 200, and a password whose digest under the new salt
    differs answers 401 and changes nothing. *)
Theorem change_password_then_login :
  forall (hashPassword : string -> string -> string) (emailMatches : string -> bool)
         (salt p : string) (w : User.World) (u : User.User) (now : Z)
         (ip : option string),
    Accounts.uniqueUsers (User.users w) ->
    In u (User.users w) ->
    Accounts.validate emailMatches u = true ->
    salt <> ""%string ->
    hashPassword p salt <> ""%string ->
    let out := Accounts.changePassword hashPassword emailMatches salt (User._id u)
                 (Some p) w in
    fst out = mkResponse 200 true "Password changed successfully" None
    /\ status (fst (User.login hashPassword now ip
                      (User.mkLoginBody (Some (User.username u)) (Some p)
                         (Some (User.userType u))) (snd out))) = 200
    /\ (forall q, hashPassword q salt <> hashPassword p salt ->
          User.login hashPassword now ip
            (User.mkLoginBody (Some (User.username u)) (Some q)
               (Some (User.userType u))) (snd out)
          = (failure 401 "Invalid credentials", snd out)).
Proof.
  intros hashPassword emailMatches salt p w u now ip Hu Hin Hv Hs Hh.
  unfold Accounts.changePassword.
  rewrite (AccountFacts.findById_own _ _ (proj1 Hu) Hin).
  unfold Accounts.encryptPassword, JS.bind. cbn [fst snd].
  rewrite (PasswordFacts.save_password emailMatches salt _ _ u Hu Hin Hv Hs Hh).
  cbn zeta. cbn [fst snd]. split; [reflexivity|].
  apply (PasswordFacts.set_password_then_login hashPassword salt p (User.users w)
           (User.sessionUser w) (User.logs w) u now ip Hu Hin).
Qed.

Lemma change_password_then_login_witness :
  fst (Accounts.changePassword Sample.hash Roster.emailOk "n2" 7%N
         (Some "secret7"%string) Sample.world)
  = mkResponse 200 true "Password changed successfully" None
  /\ User.login Sample.hash Sample.now None (Roster.adaLogin "secret1" "chairman")
       (snd (Accounts.changePassword Sample.hash Roster.emailOk "n2" 7%N
               (Some "secret7"%string) Sample.world))
     = (failure 401 "Invalid credentials",
        snd (Accounts.changePassword Sample.hash Roster.emailOk "n2" 7%N
               (Some "secret7"%string) Sample.world)).
Proof.
  assert (Hu : Accounts.uniqueUsers (User.users Sample.world)).
  { repeat split; cbn; repeat constructor; cbn; intuition discriminate. }
  assert (Hs : "n2"%string <> ""%string) by discriminate.
  assert (Hh : Sample.hash "secret7" "n2" <> ""%string) by (vm_compute; discriminate).
  assert (Hq : Sample.hash "secret1" "n2" <> Sample.hash "secret7" "n2")
    by (vm_compute; discriminate).
  pose proof (change_password_then_login Sample.hash Roster.emailOk "n2" "secret7"
                Sample.world Sample.ada Sample.now None Hu (or_introl eq_refl)
                eq_refl Hs Hh) as H.
  split; [apply H|]. apply (proj2 (proj2 H) "secret1"%string Hq).
Defined.

(** X23.  Resetting the password of a stored, valid user answers 200 with
    the temporary password, and the login with that password then answers
    200; a password whose digest under the new salt differs answers 401. *)
Theorem reset_password_then_login :
  forall (hashPassword : string -> string -> string) (emailMatches : string -> bool)
         (salt temp : string) (w : User.World) (u : User.User) (now : Z)
         (ip : option string),
    Accounts.uniqueUsers (User.users w) ->
    In u (User.users w) ->
    Accounts.validate emailMatches u = true ->
    salt <> ""%string ->
    hashPassword temp salt <> ""%string ->
    let out := Accounts.resetPassword hashPassword emailMatches salt temp
                 (User._id u) w in
    fst out = mkResponse 200 true "Password reset successfully" (Some temp)
    /\ status (fst (User.login hashPassword now ip
                      (User.mkLoginBody (Some (User.username u)) (Some temp)
                         (Some (User.userType u))) (snd out))) = 200
    /\ (forall q, hashPassword q salt <> hashPassword temp salt ->
          User.login hashPassword now ip
            (User.mkLoginBody (Some (User.username u)) (Some q)
               (Some (User.userType u))) (snd out)
          = (failure 401 "Invalid credentials", snd out)).
Proof.
  intros hashPassword emailMatches salt temp w u now ip Hu Hin Hv Hs Hh.
  unfold Accounts.resetPassword.
  rewrite (AccountFacts.findById_own _ _ (proj1 Hu) Hin).
  unfold Accounts.encryptPassword, JS.bind. cbn [fst snd].
  rewrite (PasswordFacts.save_password emailMatches salt _ _ u Hu Hin Hv Hs Hh).
  cbn zeta. cbn [fst snd]. split; [reflexivity|].
  apply (PasswordFacts.set_password_then_login hashPassword salt temp (User.users w)
           (User.sessionUser w) (User.logs w) u now ip Hu Hin).
Qed.

Lemma reset_password_then_login_witness :
  status (fst (User.login Sample.hash Sample.now None
                 (Roster.adaLogin "k3x9q0zz" "chairman")
                 (snd (Accounts.resetPassword Sample.hash Roster.emailOk "n3"
                         "k3x9q0zz" 7%N Sample.world)))) = 200.
Proof.
  assert (Hu : Accounts.uniqueUsers (User.users Sample.world)).
  { repeat split; cbn; repeat constructor; cbn; intuition discriminate. }
  assert (Hs : "n3"%string <> ""%string) by discriminate.
  assert (Hh : Sample.hash "k3x9q0zz" "n3" <> ""%string) by (vm_compute; discriminate).
  apply (reset_password_then_login Sample.hash Roster.emailOk "n3" "k3x9q0zz"
           Sample.world Sample.ada Sample.now None Hu (or_introl eq_refl)
           eq_refl Hs Hh).
Defined.

(** ** User management *)

Module ManageFacts.
Import JS User Accounts CollectionFacts.

(** Replacing the user of an id by one whose key differs from that of
    every user with another id keeps the key unique. *)
Lemma replace_fresh_keeps_NoDup {B : Type} (f : User -> B) (u' : User)
  (us : list User) :
  NoDup (map _id us) -> NoDup (map f us) ->
  (forall v, In v us -> _id v <> _id u' -> f v <> f u') ->
  NoDup (map f (replaceFirst (fun v => (_id v =? _id u')%N) u' us)).
Proof.
  induction us as [|a us IH]; intros Hi Hf Hfresh; [constructor|].
  cbn [map] in Hi, Hf. inversion Hi as [|? ? Hia Hi']; subst.
  inversion Hf as [|? ? Hfa Hf']; subst.
  cbn [replaceFirst]. destruct (_id a =? _id u')%N eqn:Ha; cbn [map]; constructor.
  - apply N.eqb_eq in Ha. intros Hin. apply in_map_iff in Hin.
    destruct Hin as (v & Hv & Hvin).
    apply (Hfresh v (or_intror Hvin)); [|exact Hv].
    intros Heq. apply Hia. rewrite Ha, <- Heq. apply in_map. exact Hvin.
  - exact Hf'.
  - apply N.eqb_neq in Ha. intros Hin. apply in_map_iff in Hin.
    destruct Hin as (v & Hv & Hvin). apply In_replaceFirst in Hvin.
    destruct Hvin as [Hvin| ->].
    + apply Hfa. rewrite <- Hv. apply in_map. exact Hvin.
    + apply (Hfresh a (or_introl eq_refl) Ha). symmetry. exact Hv.
  - apply IH; [exact Hi' | exact Hf' |].
    intros v Hv. apply Hfresh. right. exact Hv.
Qed.

(** The users that a successful [updateUser] leaves. *)
Lemma updateUser_saved (emailMatches : string -> bool) (id : ObjectId)
  (b : UpdateBody) (w : World) :
  snd (updateUser emailMatches id b w) = w
  \/ exists user,
       find (fun v => (_id v =? _id user)%N) (users w) = Some user
       /\ existsb (fun v => negb (_id v =? _id user)%N
                            && ((username v =? username (assignUser user b))%string
                                || (email v =? email (assignUser user b))%string))
            (users w) = false
       /\ snd (updateUser emailMatches id b w)
          = mkWorld (replaceFirst (fun v => (_id v =? _id user)%N)
                       (assignUser user b) (users w))
              (sessionUser w) (logs w).
Proof.
  unfold updateUser. destruct (findById id (users w)) as [user|] eqn:Hf;
    [|left; reflexivity].
  destruct (if truthyS (updUsername b) && _ then _ else None); [left; reflexivity|].
  destruct (if truthyS (updEmail b) && _ then _ else None); [left; reflexivity|].
  unfold save. destruct (negb (validate emailMatches _)); [left; reflexivity|].
  cbn [assignUser _id].
  destruct (existsb _ (users w)) eqn:Hd; [left; reflexivity|].
  right. exists user. unfold findById in Hf.
  pose proof (find_some _ _ Hf) as [_ Hid]. apply N.eqb_eq in Hid. subst id.
  repeat split; assumption.
Qed.

(** Without its first user of an id, and with ids unique, a collection no
    longer holds that user. *)
Lemma removed_is_gone (us : list User) (u : User) :
  NoDup (map _id us) -> In u us ->
  ~ In u (removeFirst (fun v => (_id v =? _id u)%N) us).
Proof.
  induction us as [|a us IH]; intros Hi Hin; [contradiction|].
  cbn [map] in Hi. inversion Hi as [|? ? Hia Hi']; subst.
  cbn [removeFirst]. destruct (_id a =? _id u)%N eqn:Ha.
  - apply N.eqb_eq in Ha. intros H. apply Hia. rewrite Ha. apply in_map. exact H.
  - apply N.eqb_neq in Ha. destruct Hin as [->|Hin]; [contradiction Ha; reflexivity|].
    intros [->|H]; [contradiction Ha; reflexivity|]. apply (IH Hi' Hin H).
Qed.

Lemma others_stay {A : Type} (p : A -> bool) (v : A) (l : list A) :
  In v l -> p v = false -> In v (removeFirst p l).
Proof.
  induction l as [|a l IH]; intros Hin Hp; [contradiction|].
  cbn [removeFirst]. destruct (p a) eqn:Ha.
  - destruct Hin as [->|Hin]; [congruence | exact Hin].
  - destruct Hin as [->|Hin]; [left; reflexivity | right; apply IH; assumption].
Qed.

End ManageFacts.

(** X24.  No user update - whatever the id and the request, however it
    ends - changes the id, the password hash, the salt or the last login
    of any user, or the number of users. *)
Theorem update_user_never_changes_passwords :
  forall (emailMatches : string -> bool) (id : ObjectId) (b : Accounts.UpdateBody)
         (w : User.World),
    map (fun u => (User._id u, User.passwordHash u, User.passwordSalt u,
                   User.lastLogin u))
      (User.users (snd (Accounts.updateUser emailMatches id b w)))
    = map (fun u => (User._id u, User.passwordHash u, User.passwordSalt u,
                     User.lastLogin u))
        (User.users w).
Proof.
  intros emailMatches id b w.
  destruct (ManageFacts.updateUser_saved emailMatches id b w)
    as [->|(user & Hf & _ & ->)]; [reflexivity|].
  cbn [User.users].
  apply (AccountFacts.map_replaceFirst_found _ _ user _ _ Hf). reflexivity.
Qed.

(** X25.  User updates keep ids, user names and emails unique, however
    they end; and a request to give a stored user the (non-empty) user
    name of another stored user is answered 400 and changes nothing. *)
Theorem update_user_keeps_users_unique :
  forall (emailMatches : string -> bool) (id : ObjectId) (b : Accounts.UpdateBody)
         (w : User.World),
    Accounts.uniqueUsers (User.users w) ->
    Accounts.uniqueUsers (User.users (snd (Accounts.updateUser emailMatches id b w)))
    /\ (forall u v, In u (User.users w) -> In v (User.users w) ->
          User._id u = id -> User._id v <> id ->
          User.username v <> ""%string ->
          Accounts.updUsername b = Some (User.username v) ->
          Accounts.updateUser emailMatches id b w
          = (failure 400 "Username already in use", w)).
Proof.
  intros emailMatches id b w Hu. split.
  - destruct (ManageFacts.updateUser_saved emailMatches id b w)
      as [->|(user & Hf & Hd & ->)]; [exact Hu|].
    cbn [User.users]. destruct Hu as (Hi & Hn & He).
    assert (Hfresh : forall v, In v (User.users w) ->
              User._id v <> User._id (Accounts.assignUser user b) ->
              User.username v <> User.username (Accounts.assignUser user b)
              /\ User.email v <> User.email (Accounts.assignUser user b)).
    { intros v Hv Hid. cbn [Accounts.assignUser User._id] in Hid.
      rewrite <- not_true_iff_false in Hd.
      split; intros Heq; apply Hd; apply existsb_exists; exists v;
        (split; [exact Hv|]); apply N.eqb_neq in Hid; rewrite Hid, Heq;
        rewrite String.eqb_refl; cbn [negb andb]; [|rewrite orb_true_r]; reflexivity. }
    repeat split.
    + rewrite (AccountFacts.map_replaceFirst_found User._id _ user
                 (Accounts.assignUser user b) _ Hf eq_refl).
      exact Hi.
    + apply (ManageFacts.replace_fresh_keeps_NoDup User.username
               (Accounts.assignUser user b) (User.users w) Hi Hn).
      intros v Hv Hid. apply (Hfresh v Hv Hid).
    + apply (ManageFacts.replace_fresh_keeps_NoDup User.email
               (Accounts.assignUser user b) (User.users w) Hi He).
      intros v Hv Hid. apply (Hfresh v Hv Hid).
  - intros u v Hin Hvin Hid Hvid Hne Hb. subst id. unfold Accounts.updateUser.
    rewrite (AccountFacts.findById_own _ _ (proj1 Hu) Hin).
    rewrite Hb. cbn [JS.truthyS Student.eqField].
    apply String.eqb_neq in Hne. rewrite Hne.
    assert (Hdiff : (User.username v =? User.username u)%string = false).
    { apply String.eqb_neq. intros Heq. apply Hvid. f_equal.
      apply (CollectionFacts.NoDup_map_inj User.username _ v u
               (proj1 (proj2 Hu)) Hvin Hin Heq). }
    rewrite Hdiff. cbn [negb andb].
    destruct (Accounts.findOtherByUsername _ _ (User.users w)) eqn:Hfind;
      [reflexivity|].
    unfold Accounts.findOtherByUsername in Hfind.
    apply (find_none _ _ Hfind) in Hvin. cbn [Student.eqField] in Hvin.
    rewrite String.eqb_refl in Hvin. apply N.eqb_neq in Hvid. rewrite Hvid in Hvin.
    discriminate.
Qed.

Lemma update_user_keeps_users_unique_witness :
  Accounts.uniqueUsers (User.users Roster.staff)
  /\ Accounts.updateUser Roster.emailOk 9%N
       (Accounts.mkUpdateBody (Some "ada"%string) None None None None) Roster.staff
     = (failure 400 "Username already in use", Roster.staff).
Proof.
  assert (Hu : Accounts.uniqueUsers (User.users Roster.staff)).
  { repeat split; cbn; repeat constructor; cbn; intuition discriminate. }
  split; [exact Hu|].
  apply (proj2 (update_user_keeps_users_unique Roster.emailOk 9%N
                  (Accounts.mkUpdateBody (Some "ada"%string) None None None None)
                  Roster.staff Hu) Roster.kofi Sample.ada).
  - right. left. reflexivity.
  - left. reflexivity.
  - reflexivity.
  - discriminate.
  - discriminate.
  - reflexivity.
Defined.

(** X26.  Deleting a stored user answers 200; afterwards no login under
    that user's name is accepted, whatever the password and the user type,
    every other user is still stored, and the collection is still
    unique. *)
Theorem delete_user_then_login :
  forall (w : User.World) (u : User.User),
    Accounts.uniqueUsers (User.users w) ->
    In u (User.users w) ->
    let out := Accounts.deleteUser (User._id u) w in
    fst out = mkResponse 200 true "User deleted successfully" None
    /\ (forall (hashPassword : string -> string -> string) (now : Z)
               (ip p t : option string),
          User.login hashPassword now ip
            (User.mkLoginBody (Some (User.username u)) p t) (snd out)
          = (failure 401 "Invalid credentials", snd out))
    /\ (forall v, In v (User.users w) -> v <> u -> In v (User.users (snd out)))
    /\ Accounts.uniqueUsers (User.users (snd out)).
Proof.
  intros w u Hu Hin. cbn zeta. unfold Accounts.deleteUser.
  rewrite (AccountFacts.findById_own _ _ (proj1 Hu) Hin). cbn [fst snd User.users].
  destruct Hu as (Hi & Hn & He).
  split; [reflexivity|]. split; [|split].
  - intros hashPassword now ip p t. apply LoginFacts.login_no_match.
    cbn [User.bodyUsername User.bodyUserType User.users]. unfold User.findOne.
    apply LoginFacts.find_all_false. intros x Hx.
    cbn [Student.eqField].
    destruct (User.username u =? User.username x)%string eqn:Hname; [|reflexivity].
    exfalso. apply String.eqb_eq in Hname.
    pose proof (CollectionFacts.In_removeFirst _ _ _ Hx) as Hx'.
    pose proof (CollectionFacts.NoDup_map_inj User.username _ u x Hn Hin Hx' Hname).
    subst x. apply (ManageFacts.removed_is_gone _ _ Hi Hin Hx).
  - intros v Hv Hne. apply ManageFacts.others_stay; [exact Hv|].
    apply N.eqb_neq. intros Heq. apply Hne.
    apply (CollectionFacts.NoDup_map_inj User._id _ v u Hi Hv Hin Heq).
  - repeat split; apply CollectionFacts.NoDup_map_removeFirst; assumption.
Qed.

Lemma delete_user_then_login_witness :
  User.login Sample.hash Sample.now None (Roster.adaLogin "secret1" "chairman")
    (snd (Accounts.deleteUser 7%N Roster.staff))
  = (failure 401 "Invalid credentials", snd (Accounts.deleteUser 7%N Roster.staff))
  /\ In Roster.kofi (User.users (snd (Accounts.deleteUser 7%N Roster.staff))).
Proof.
  assert (Hu : Accounts.uniqueUsers (User.users Roster.staff)).
  { repeat split; cbn; repeat constructor; cbn; intuition discriminate. }
  pose proof (delete_user_then_login Roster.staff Sample.ada Hu (or_introl eq_refl))
    as (_ & Hlogin & Hothers & _).
  split.
  - apply (Hlogin Sample.hash Sample.now None (Some "secret1"%string)
             (Some "chairman"%string)).
  - apply Hothers; [right; left; reflexivity | discriminate].
Defined.

(** ** The validated route for new users *)

Module RouteUserFacts.
Import JS User Accounts.

Lemma pushIf_nil (c : bool) (m : string) : Student.pushIf c m = [] -> c = false.
Proof.
  destruct c; [discriminate | reflexivity].
Qed.

Ltac no_errors :=
  repeat match goal with
         | H : _ ++ _ = [] |- _ => apply app_eq_nil in H; destruct H
         | H : Student.pushIf _ _ = [] |- _ => apply pushIf_nil in H
         end.

(** What a request that [validateUser] lets through on POST supplies. *)
Lemma validated_user (emailMatches : string -> bool) (b : NewUserBody) :
  validateUser emailMatches true b = [] ->
  exists un p t nm em,
    b = mkNewUserBody (Some un) (Some p) (Some t) (Some nm) (Some em)
    /\ (un =? "")%string = false /\ (String.length un <? 3) = false
    /\ (p =? "")%string = false /\ (String.length p <? 6) = false
    /\ (t =? "")%string = false /\ existsb (String.eqb t) userRoles = true
    /\ (nm =? "")%string = false
    /\ (em =? "")%string = false /\ emailMatches em = true.
Proof.
  intros H. unfold validateUser in H. no_errors.
  destruct b as [[un|] [p|] [t|] [nm|] [em|]];
    cbn [newUsername newPassword newUserType newName newEmail truthyS negb] in *;
    try discriminate.
  destruct (un =? "")%string eqn:Eun; [discriminate|].
  destruct (p =? "")%string eqn:Ep; [discriminate|].
  destruct (t =? "")%string eqn:Et; [discriminate|].
  destruct (nm =? "")%string eqn:Enm; [discriminate|].
  destruct (em =? "")%string eqn:Eem; [discriminate|].
  cbn [negb andb] in *.
  destruct (existsb (String.eqb t) userRoles) eqn:Eroles; [|discriminate].
  destruct (emailMatches em) eqn:Ematch; [|discriminate].
  exists un, p, t, nm, em. repeat split; assumption.
Qed.

End RouteUserFacts.

(** X27.  A request to POST /api/users that the validation lets through,
    whose user name, name and email are as the setters of the schema leave
    them (trimmed, the email in lower case), with an ASCII user name of at
    most 50 characters, a fresh id, and a salt and a digest that are not
    empty, is never answered 500: it is answered 400 and nothing changes
    when a stored user has the user name or the email, and otherwise 201
    with the new user appended. *)
Theorem validated_create_user_succeeds_or_conflicts :
  forall (hashPassword : string -> string -> string) (emailMatches : string -> bool)
         (id : ObjectId) (salt : string) (b : Accounts.NewUserBody) (w : User.World)
         (un p : string),
    Accounts.validateUser emailMatches true b = [] ->
    Normal.newUser b = true ->
    Accounts.newUsername b = Some un ->
    Accounts.newPassword b = Some p ->
    String.length un <= 50 ->
    salt <> ""%string ->
    hashPassword p salt <> ""%string ->
    Accounts.findById id (User.users w) = None ->
    let user := Accounts.documentOf id b salt (hashPassword p salt) in
    Accounts.postUserRoute hashPassword emailMatches id salt b w
    = match Accounts.findByUsernameOrEmail (Accounts.newUsername b)
              (Accounts.newEmail b) (User.users w) with
      | Some _ =>
          (Accounts.Handled (failure 400 "Username or email already in use"), w)
      | None =>
          (Accounts.Handled
             (mkResponse 201 true "User created successfully"
                (Some (User.mkLoginData id (User.username user) (User.userType user)
                         (User.name user) (User.email user)))),
           User.mkWorld (User.users w ++ [user]) (User.sessionUser w) (User.logs w))
      end.
Proof.
  intros hashPassword emailMatches id salt b w un p Hval _ Hun Hp Hlen Hs Hh Hid.
  cbn zeta. unfold Accounts.postUserRoute. rewrite Hval.
  destruct (RouteUserFacts.validated_user emailMatches b Hval)
    as (un' & p' & t & nm & em & -> & Hun0 & Hun3 & Hp0 & Hp6 & Ht0 & Ht & Hnm
        & Hem0 & Hem).
  cbn [Accounts.newUsername Accounts.newPassword] in Hun, Hp.
  injection Hun as ->. injection Hp as ->.
  unfold Accounts.createUser, Accounts.insertUser.
  cbn [Accounts.newUsername Accounts.newEmail Accounts.newPassword].
  destruct (Accounts.findByUsernameOrEmail (Some un) (Some em) (User.users w))
    eqn:Hfree; [reflexivity|].
  unfold Accounts.encryptPassword, JS.bind. cbn [fst snd]. unfold Accounts.saveNew.
  assert (Hv : Accounts.validate emailMatches
                 (Accounts.documentOf id
                    (Accounts.mkNewUserBody (Some un) (Some p) (Some t) (Some nm)
                       (Some em)) salt (hashPassword p salt)) = true).
  { unfold Accounts.validate.
    cbn [Accounts.documentOf Accounts.newUsername Accounts.newUserType
         Accounts.newName Accounts.newEmail User.username User.passwordHash
         User.passwordSalt User.userType User.name User.email].
    apply String.eqb_neq in Hs, Hh. apply Nat.ltb_ge in Hun3.
    apply Nat.leb_le in Hun3, Hlen.
    rewrite Hun0, Hun3, Hlen, Hh, Hs, Ht, Hnm, Hem0, Hem. reflexivity. }
  rewrite Hv. cbn [negb].
  assert (Hd : existsb
                 (fun v => (User._id v =? id)%N
                           || (User.username v =? un)%string
                           || (User.email v =? em)%string) (User.users w) = false).
  { apply not_true_iff_false. intros H. apply existsb_exists in H.
    destruct H as (v & Hv' & Hc).
    unfold Accounts.findById in Hid. pose proof (find_none _ _ Hid _ Hv') as H1.
    unfold Accounts.findByUsernameOrEmail in Hfree.
    pose proof (find_none _ _ Hfree _ Hv') as H2. cbn [Student.eqField] in H2.
    apply orb_false_iff in H2. destruct H2 as [H2 H3].
    rewrite String.eqb_sym in H2. rewrite String.eqb_sym in H3.
    cbv beta in H1. rewrite H1, H2, H3 in Hc. discriminate. }
  cbn [Accounts.documentOf User._id User.username User.email Accounts.newUsername
       Accounts.newEmail].
  rewrite Hd. reflexivity.
Qed.

Lemma validated_create_user_succeeds_or_conflicts_witness :
  Accounts.validateUser Roster.emailOk true Roster.musu = []
  /\ Normal.newUser Roster.musu = true
  /\ fst (Accounts.postUserRoute Sample.hash Roster.emailOk 8%N "nm" Roster.musu
         Sample.world)
  = Accounts.Handled
      (mkResponse 201 true "User created successfully"
         (Some (User.mkLoginData 8%N "musu" "instructor" "Musu Kollie"
                  "musu@ul.edu.lr"))).
Proof.
  assert (Hs : "nm"%string <> ""%string) by discriminate.
  assert (Hh : Sample.hash "secret5" "nm" <> ""%string) by (vm_compute; discriminate).
  assert (Hlen : String.length "musu" <= 50) by (cbn; lia).
  split; [reflexivity|]. split; [reflexivity|].
  rewrite (validated_create_user_succeeds_or_conflicts Sample.hash Roster.emailOk 8%N
             "nm" Roster.musu Sample.world "musu" "secret5" eq_refl eq_refl eq_refl
             eq_refl Hlen Hs Hh eq_refl).
  reflexivity.
Defined.

(** X28.  The validation of POST /api/users puts no upper bound on the
    user name, the schema does: a request that the validation lets
    through with a user name of more than 50 ASCII characters, none of
    them white space at either end, reaches the controller, is answered
    400 or 500, never 201, and changes nothing. *)
Theorem long_username_passes_validation_never_created :
  forall (hashPassword : string -> string -> string) (emailMatches : string -> bool)
         (id : ObjectId) (salt : string) (b : Accounts.NewUserBody) (w : User.World)
         (un : string),
    Accounts.validateUser emailMatches true b = [] ->
    Accounts.newUsername b = Some un ->
    Text.asciiOnly un = true ->
    Text.trimmed un = true ->
    50 < String.length un ->
    snd (Accounts.postUserRoute hashPassword emailMatches id salt b w) = w
    /\ (fst (Accounts.postUserRoute hashPassword emailMatches id salt b w)
        = Accounts.Handled (failure 400 "Username or email already in use")
        \/ fst (Accounts.postUserRoute hashPassword emailMatches id salt b w)
           = Accounts.Handled (failure 500 "Error creating user")).
Proof.
  intros hashPassword emailMatches id salt b w un Hval Hun _ _ Hlen.
  unfold Accounts.postUserRoute. rewrite Hval.
  unfold Accounts.createUser, Accounts.insertUser.
  destruct (Accounts.findByUsernameOrEmail _ _ (User.users w));
    [split; [reflexivity | left; reflexivity]|].
  unfold Accounts.encryptPassword, JS.bind.
  destruct (Accounts.newPassword b) as [p|];
    [|split; [reflexivity | right; reflexivity]].
  cbn [fst snd]. unfold Accounts.saveNew.
  assert (Hv : Accounts.validate emailMatches
                 (Accounts.documentOf id b salt (hashPassword p salt)) = false).
  { unfold Accounts.validate. cbn [Accounts.documentOf User.username]. rewrite Hun.
    apply Nat.leb_gt in Hlen. rewrite Hlen. rewrite !andb_false_r. reflexivity. }
  rewrite Hv. cbn [negb]. split; [reflexivity | right; reflexivity].
Qed.

Lemma long_username_passes_validation_never_created_witness :
  Accounts.validateUser Roster.emailOk true Roster.tooLong = []
  /\ Text.asciiOnly Roster.longName = true
  /\ Text.trimmed Roster.longName = true
  /\ 50 < String.length Roster.longName
  /\ snd (Accounts.postUserRoute Sample.hash Roster.emailOk 8%N "nl" Roster.tooLong
            Sample.world) = Sample.world.
Proof.
  assert (Hlen : 50 < String.length Roster.longName) by (cbn; lia).
  split; [reflexivity|]. split; [reflexivity|]. split; [reflexivity|].
  split; [exact Hlen|].
  apply (long_username_passes_validation_never_created Sample.hash Roster.emailOk
           8%N "nl" Roster.tooLong Sample.world Roster.longName eq_refl eq_refl
           eq_refl eq_refl Hlen).
Defined.

(** ** The DELETE routes *)

Module RoutingFacts.
Import Student.

Lemma removeFirst_loses_at_most_one {A : Type} (p : A -> bool) (l : list A) :
  List.length l <= S (List.length (removeFirst p l)).
Proof.
  induction l as [|a l IH]; cbn [removeFirst List.length]; [lia|].
  destruct (p a); cbn [List.length]; lia.
Qed.

End RoutingFacts.

(** X29.  The route DELETE /:id is registered before DELETE /all and
    matches it: no DELETE request reaches deleteAllRecords, every request
    removes at most one record, and when 'all' does not cast to an object
    id, DELETE /api/students/all is answered 500 by deleteRecord and
    deletes nothing, also for an admin. *)
Theorem delete_all_route_is_shadowed :
  forall (castObjectId : string -> option ObjectId) (req : Auth.Request)
         (segment : string) (s : Student.Store),
    (forall response,
       fst (Routing.deleteRequest castObjectId req segment s)
       <> Routing.OfAll response)
    /\ List.length (Student.docs s)
       <= S (List.length
               (Student.docs (snd (Routing.deleteRequest castObjectId req segment s))))
    /\ (castObjectId "all"%string = None ->
        Routing.deleteRequest castObjectId req "all" s
        = (Routing.OfRecord (failure 500 "Error deleting student record"), s)).
Proof.
  intros castObjectId req segment s.
  assert (Hd : Routing.dispatch segment = Some Routing.DeleteRecord
               \/ Routing.dispatch segment = None).
  { unfold Routing.dispatch, Routing.deleteRoutes. cbn [find Routing.matches fst].
    destruct (segment =? "")%string eqn:He; cbn [negb].
    - apply String.eqb_eq in He. subst segment. right. reflexivity.
    - left. reflexivity. }
  split; [|split].
  - intros response. unfold Routing.deleteRequest.
    destruct Hd as [-> | ->]; [|discriminate].
    destruct (Routing.deleteRecordParam castObjectId segment s). discriminate.
  - unfold Routing.deleteRequest. destruct Hd as [-> | ->]; [|cbn [snd]; lia].
    unfold Routing.deleteRecordParam.
    destruct (castObjectId segment) as [id|]; [|cbn [snd]; lia].
    unfold Student.deleteRecord, Student.findByIdAndDelete.
    destruct (Student.findById id s); cbn [snd Student.docs]; [|lia].
    apply RoutingFacts.removeFirst_loses_at_most_one.
  - intros Hcast. unfold Routing.deleteRequest, Routing.deleteRecordParam.
    rewrite Hcast. reflexivity.
Qed.

Lemma delete_all_route_is_shadowed_witness :
  Routing.castHex "all" = None
  /\ Routing.deleteRequest Routing.castHex (Sample.asRole "admin") "all"
       Sample.twoRecords
     = (Routing.OfRecord (failure 500 "Error deleting student record"),
        Sample.twoRecords).
Proof.
  split; [reflexivity|].
  apply (delete_all_route_is_shadowed Routing.castHex (Sample.asRole "admin") "all"
           Sample.twoRecords).
  reflexivity.
Defined.

(** ** The edit gate *)

(** X30.  When neither the body nor the query declares a role, the edit
    gate lets a request through exactly when the body carries a non-empty
    updatedBy: the user-type header, which the admin gate reads, plays no
    part, so a request that the admin gate lets through on its header is
    refused by the edit gate unless it carries updatedBy. *)
Theorem edit_gate_ignores_header :
  forall (req : Gate.EditRequest),
    JS.truthyS (Auth.bodyUserType (Gate.roles req)) = false ->
    JS.truthyS (Auth.queryUserType (Gate.roles req)) = false ->
    (@Gate.canEditRecords unit req = None
     <-> JS.truthyS (Gate.bodyUpdatedBy req) = true)
    /\ (@Auth.isAdmin unit (Gate.roles req) = None
        <-> Auth.headerUserType (Gate.roles req) = Some "admin"%string).
Proof.
  intros [[body query header] updatedBy] Hb Hq.
  cbn [Gate.roles Gate.bodyUpdatedBy Auth.bodyUserType Auth.queryUserType
       Auth.headerUserType] in *.
  assert (Hor : forall (v : option string) (d : string),
            JS.truthyS v = false -> JS.orS v d = d).
  { intros [x|] d H; cbn [JS.truthyS JS.orS] in *; [|reflexivity].
    apply negb_false_iff in H. rewrite H. reflexivity. }
  unfold Gate.canEditRecords, Gate.editorType, Auth.isAdmin, Auth.declaredUserType.
  cbn [Gate.roles Gate.bodyUpdatedBy Auth.bodyUserType Auth.queryUserType
       Auth.headerUserType].
  rewrite !(Hor body _ Hb), !(Hor query _ Hq). split.
  - destruct (JS.truthyS updatedBy); cbn; split; intros H;
      try reflexivity; discriminate.
  - destruct header as [h|]; cbn [JS.orS].
    + destruct (h =? "")%string eqn:He.
      * apply String.eqb_eq in He. subst h. cbn. split; discriminate.
      * destruct (h =? "admin")%string eqn:Ha.
        -- apply String.eqb_eq in Ha. subst h. split; reflexivity.
        -- split; [discriminate|]. intros H. injection H as ->.
           rewrite String.eqb_refl in Ha. discriminate.
    + cbn. split; discriminate.
Qed.

Lemma edit_gate_ignores_header_witness :
  @Auth.isAdmin unit (Gate.roles (Gate.adminByHeader None)) = None
  /\ @Gate.canEditRecords unit (Gate.adminByHeader None) <> None.
Proof.
  pose proof (edit_gate_ignores_header (Gate.adminByHeader None) eq_refl eq_refl)
    as [Hedit Hadmin].
  split.
  - apply Hadmin. reflexivity.
  - intros H. apply Hedit in H. discriminate H.
Defined.
